(** * Si4702 / Si4703 FM tuner driver (pico_si470x): embedding and properties

    A shallow embedding of [fm_si470x/fm_si470x.c], of the register layout in
    [fm_si470x/fm_si470x_regs.h], of the types in [fm_si470x/include/fm_si470x.h]
    and of the volume remapping of [fm_example.c].

    Conventions.
    - [uint8_t], [uint16_t] and [uint64_t] values are [Z] with the wrap-around
      written out ([u8], [u16], [u64]).
    - [float] is IEEE-754 binary32, as [spec_float] with [prec = 24] and
      [emax = 128].
    - The driver talks to the outside through the Pico SDK ([i2c_read_blocking],
      [i2c_write_blocking], [sleep_ms], [time_us_64], the [gpio_*] calls).  The
      outside is a [world]: a clock, the answers of the bus to the transactions
      to come, and the trace of what the driver did so far.
    - Every driver function runs in the monad [M]: it transforms a [machine]
      (the [si470x_t] handle and the world) and ends in an [outcome].  A failed
      [assert] ends the run on the spot ([AssertFailed]); the embedding is that
      of a build in which assertions are compiled in, which is the build the
      [#ifndef NDEBUG] blocks of the source are written for.
    - The two wait loops on the chip ([do ... while (STC)]) and the two
      sleep-and-tick loops of the blocking calls have no bound in the source;
      they take a [fuel] and end in [Spinning] when it runs out. *)

From Stdlib Require Import ZArith QArith Qabs List Bool Lia.
From Stdlib Require Import Floats.SpecFloat.
Import ListNotations.
Local Open Scope Z_scope.

(** ** Machine integers *)

Definition u8 (x : Z) : Z := x mod 2 ^ 8.
Definition u16 (x : Z) : Z := x mod 2 ^ 16.
Definition u64 (x : Z) : Z := x mod 2 ^ 64.

(** ** fm_si470x_regs.h *)

Module Regs.

Definition SI4703_ADDR : Z := 0x10.

(* Register names *)
Definition DEVICEID : Z := 0x0.
Definition CHIPID : Z := 0x1.
Definition POWERCFG : Z := 0x2.
Definition CHANNEL : Z := 0x3.
Definition SYSCONFIG1 : Z := 0x4.
Definition SYSCONFIG2 : Z := 0x5.
Definition SYSCONFIG3 : Z := 0x6.
Definition TEST1 : Z := 0x7.
Definition TEST2 : Z := 0x8.
Definition BOOTCONFIG : Z := 0x9.
Definition STATUSRSSI : Z := 0xA.
Definition READCHAN : Z := 0xB.
Definition RDSA : Z := 0xC.
Definition RDSB : Z := 0xD.
Definition RDSC : Z := 0xE.
Definition RDSD : Z := 0xF.

(* Register 0x00 - DEVICEID *)
Definition MFGID_LSB : Z := 0.
Definition MFGID_BITS : Z := Z.shiftl 0xFFF MFGID_LSB.
Definition PN_LSB : Z := 12.
Definition PN_BITS : Z := Z.shiftl 0xF PN_LSB.

(* Register 0x01 - CHIPID *)
Definition FIRMWARE_LSB : Z := 0.
Definition FIRMWARE_BITS : Z := Z.shiftl 0x3F FIRMWARE_LSB.
Definition DEV_LSB : Z := 6.
Definition DEV_BITS : Z := Z.shiftl 0xF DEV_LSB.
Definition REV_LSB : Z := 10.
Definition REV_BITS : Z := Z.shiftl 0x3F REV_LSB.

(* Register 0x02 - POWERCFG *)
Definition ENABLE_BIT : Z := Z.shiftl 1 0.
Definition DISABLE_BIT : Z := Z.shiftl 1 6.
Definition SEEK_BIT : Z := Z.shiftl 1 8.
Definition SEEKUP_BIT : Z := Z.shiftl 1 9.
Definition SKMODE_BIT : Z := Z.shiftl 1 10.
Definition RDSM_BIT : Z := Z.shiftl 1 11.
Definition MONO_BIT : Z := Z.shiftl 1 13.
Definition DMUTE_BIT : Z := Z.shiftl 1 14.
Definition DSMUTE_BIT : Z := Z.shiftl 1 15.

(* Register 0x03 - CHANNEL *)
Definition TUNE_BIT : Z := Z.shiftl 1 15.
Definition CHAN_LSB : Z := 0.
Definition CHAN_BITS : Z := Z.shiftl 0x3FF CHAN_LSB.

(* Register 0x04 - SYSCONFIG1 *)
Definition DE_BIT : Z := Z.shiftl 1 11.
Definition RDS_BIT : Z := Z.shiftl 1 12.

(* Register 0x05 - SYSCONFIG2 *)
Definition VOLUME_LSB : Z := 0.
Definition VOLUME_BITS : Z := Z.shiftl 0xF VOLUME_LSB.
Definition SPACE_LSB : Z := 4.
(* The macro of the source ends in a stray semicolon, which its one use in
   fm_set_bits turns into an empty statement. *)
Definition SPACE_BITS : Z := Z.shiftl 0x3 SPACE_LSB.
Definition BAND_LSB : Z := 6.
Definition BAND_BITS : Z := Z.shiftl 0x3 BAND_LSB.
Definition SEEKTH_LSB : Z := 8.
Definition SEEKTH_BITS : Z := Z.shiftl 0xFF SEEKTH_LSB.

(* Register 0x06 - SYSCONFIG3 *)
Definition SKCNT_LSB : Z := 0.
Definition SKCNT_BITS : Z := Z.shiftl 0xF SKCNT_LSB.
Definition SKSNR_LSB : Z := 4.
Definition SKSNR_BITS : Z := Z.shiftl 0xF SKSNR_LSB.
Definition VOLEXT_BIT : Z := Z.shiftl 1 8.
Definition SMUTEA_LSB : Z := 12.
Definition SMUTEA_BITS : Z := Z.shiftl 0x3 SMUTEA_LSB.
Definition SMUTER_LSB : Z := 14.
Definition SMUTER_BITS : Z := Z.shiftl 0x3 SMUTER_LSB.

(* Register 0x07 - TEST1 *)
Definition AHIZEN_BIT : Z := Z.shiftl 1 14.
Definition XOSCEN_BIT : Z := Z.shiftl 1 15.

(* Register 0x0A - STATUSRSSI *)
Definition RSSI_LSB : Z := 0.
Definition RSSI_BITS : Z := Z.shiftl 0xFF RSSI_LSB.
Definition ST_BIT : Z := Z.shiftl 1 8.
Definition SFBL_BIT : Z := Z.shiftl 1 13.
Definition STC_BIT : Z := Z.shiftl 1 14.
Definition RDSR_BIT : Z := Z.shiftl 1 15.

(* Register 0x0B - READCHAN *)
Definition READCHAN_LSB : Z := 0.
Definition READCHAN_BITS : Z := Z.shiftl 0x3FF READCHAN_LSB.

End Regs.
Import Regs.

Definition DEV_SI4702 : Z := 1.  (* 0b0001 *)
Definition DEV_SI4703 : Z := 9.  (* 0b1001 *)

Definition TUNE_POLL_INTERVAL_MS : Z := 20.
Definition SEEK_POLL_INTERVAL_MS : Z := 200.

Definition FM_MAX_VOLUME : Z := 15.

(** ** The bit-field macros

    [reg] is an lvalue of type [uint16_t]; the macros compute in [int] and the
    assignment truncates to 16 bits. *)

(* #define fm_set_bit(reg, bit, value) *)
Definition fm_set_bit (reg bit : Z) (value : bool) : Z :=
  if value then u16 (Z.lor reg bit) else u16 (Z.land reg (Z.lnot bit)).

(* #define fm_get_bit(reg, bit) *)
Definition fm_get_bit (reg bit : Z) : bool :=
  negb (Z.land reg bit =? 0).

(* #define fm_set_bits(reg, bits, value): two assignments *)
Definition fm_set_bits (reg bits lsb value : Z) : Z :=
  let reg := u16 (Z.land reg (Z.lnot bits)) in
  u16 (Z.lor reg (Z.shiftl value lsb)).

(* #define fm_get_bits(reg, bits) *)
Definition fm_get_bits (reg bits lsb : Z) : Z :=
  Z.shiftr (Z.land reg bits) lsb.

(** ** The register shadow: [uint16_t regs[16]] *)

Definition reg_get (regs : list Z) (i : Z) : Z := nth (Z.to_nat i) regs 0.

Fixpoint list_set (l : list Z) (i : nat) (v : Z) : list Z :=
  match l, i with
  | [], _ => []
  | _ :: t, O => v :: t
  | h :: t, S j => h :: list_set t j v
  end.

Definition reg_set (regs : list Z) (i : Z) (v : Z) : list Z :=
  list_set regs (Z.to_nat i) v.

(** ** Binary32 arithmetic *)

Module F32.

Definition prec : Z := 24.
Definition emax : Z := 128.

Definition float : Type := spec_float.

Definition zero : float := S754_zero false.
Definition of_int (n : Z) : float := binary_normalize prec emax n 0 false.
Definition add : float -> float -> float := SFadd prec emax.
Definition sub : float -> float -> float := SFsub prec emax.
Definition mul : float -> float -> float := SFmul prec emax.
Definition div : float -> float -> float := SFdiv prec emax.
Definition eqb : float -> float -> bool := SFeqb.
Definition ltb : float -> float -> bool := SFltb.
Definition leb : float -> float -> bool := SFleb.

(* The float literals of the source, as the nearest binary32 values. *)
Definition f87_5 : float := S754_finite false 11468800 (-17).
Definition f108_0 : float := S754_finite false 14155776 (-17).
Definition f76_0 : float := S754_finite false 9961472 (-17).
Definition f90_0 : float := S754_finite false 11796480 (-17).
Definition f0_2 : float := S754_finite false 13421773 (-26).
Definition f0_1 : float := S754_finite false 13421773 (-27).
Definition f0_05 : float := S754_finite false 13421773 (-28).

(* roundf: to the nearest integer, halfway cases away from zero. *)
Definition roundf (x : float) : float :=
  match x with
  | S754_finite s m e =>
      if 0 <=? e then x
      else
        let d := 2 ^ (- e) in
        let q := Zpos m / d in
        let r := Zpos m mod d in
        let n := if d <=? 2 * r then q + 1 else q in
        binary_normalize prec emax (if s then - n else n) 0 s
  | _ => x
  end.

(* The integer part of a finite float (truncation toward zero). *)
Definition trunc (x : float) : option Z :=
  match x with
  | S754_zero _ => Some 0
  | S754_finite s m e =>
      let a := if 0 <=? e then Zpos m * 2 ^ e else Zpos m / 2 ^ (- e) in
      Some (if s then - a else a)
  | _ => None
  end.

(* (uint16_t)x for a float x: defined by C only when the truncated value
   fits the type. *)
Definition to_uint16 (x : float) : option Z :=
  match trunc x with
  | Some n => if (0 <=? n) && (n <=? 65535) then Some n else None
  | None => None
  end.

End F32.

(** ** fm_si470x.h: the public types *)

Inductive fm_band_t := FM_BAND_COMMON | FM_BAND_JAPAN_WIDE | FM_BAND_JAPAN.

Inductive fm_channel_spacing_t :=
  FM_CHANNEL_SPACING_200 | FM_CHANNEL_SPACING_100 | FM_CHANNEL_SPACING_50.

Inductive fm_deemphasis_t := FM_DEEMPHASIS_75 | FM_DEEMPHASIS_50.

Record fm_config_t := mk_config {
  band : fm_band_t;
  channel_spacing : fm_channel_spacing_t;
  deemphasis : fm_deemphasis_t
}.

Definition fm_config_usa : fm_config_t :=
  mk_config FM_BAND_COMMON FM_CHANNEL_SPACING_200 FM_DEEMPHASIS_75.
Definition fm_config_europe : fm_config_t :=
  mk_config FM_BAND_COMMON FM_CHANNEL_SPACING_100 FM_DEEMPHASIS_50.
Definition fm_config_japan_wide : fm_config_t :=
  mk_config FM_BAND_JAPAN_WIDE FM_CHANNEL_SPACING_100 FM_DEEMPHASIS_50.
Definition fm_config_japan : fm_config_t :=
  mk_config FM_BAND_JAPAN FM_CHANNEL_SPACING_100 FM_DEEMPHASIS_50.

Record fm_frequency_range_t := mk_range {
  bottom : F32.float;
  top : F32.float;
  spacing : F32.float
}.

Inductive fm_seek_sensitivity_t :=
  | FM_SEEK_SENSITIVITY_STRONG_ONLY
  | FM_SEEK_SENSITIVITY_RECOMMENDED
  | FM_SEEK_SENSITIVITY_MORE
  | FM_SEEK_SENSITIVITY_MOST.

Inductive fm_seek_direction_t := FM_SEEK_DOWN | FM_SEEK_UP.

Inductive fm_softmute_attenuation_t :=
  | FM_SOFTMUTE_ATTENUATION_16
  | FM_SOFTMUTE_ATTENUATION_14
  | FM_SOFTMUTE_ATTENUATION_12
  | FM_SOFTMUTE_ATTENUATION_10.

Inductive fm_softmute_rate_t :=
  | FM_SOFTMUTE_FASTEST
  | FM_SOFTMUTE_FAST
  | FM_SOFTMUTE_SLOW
  | FM_SOFTMUTE_SLOWEST.

(* The integer values of the enumerators. *)
Definition band_val (b : fm_band_t) : Z :=
  match b with FM_BAND_COMMON => 0 | FM_BAND_JAPAN_WIDE => 1 | FM_BAND_JAPAN => 2 end.

Definition spacing_val (s : fm_channel_spacing_t) : Z :=
  match s with
  | FM_CHANNEL_SPACING_200 => 0
  | FM_CHANNEL_SPACING_100 => 1
  | FM_CHANNEL_SPACING_50 => 2
  end.

Definition attenuation_val (a : fm_softmute_attenuation_t) : Z :=
  match a with
  | FM_SOFTMUTE_ATTENUATION_16 => 0
  | FM_SOFTMUTE_ATTENUATION_14 => 1
  | FM_SOFTMUTE_ATTENUATION_12 => 2
  | FM_SOFTMUTE_ATTENUATION_10 => 3
  end.

Definition rate_val (r : fm_softmute_rate_t) : Z :=
  match r with
  | FM_SOFTMUTE_FASTEST => 0
  | FM_SOFTMUTE_FAST => 1
  | FM_SOFTMUTE_SLOW => 2
  | FM_SOFTMUTE_SLOWEST => 3
  end.

Definition config_eqb (a b : fm_config_t) : bool :=
  (band_val (band a) =? band_val (band b))
  && (spacing_val (channel_spacing a) =? spacing_val (channel_spacing b))
  && (match deemphasis a, deemphasis b with
      | FM_DEEMPHASIS_75, FM_DEEMPHASIS_75 | FM_DEEMPHASIS_50, FM_DEEMPHASIS_50 => true
      | _, _ => false
      end).

Definition seek_sensitivity_eqb (a b : fm_seek_sensitivity_t) : bool :=
  match a, b with
  | FM_SEEK_SENSITIVITY_STRONG_ONLY, FM_SEEK_SENSITIVITY_STRONG_ONLY
  | FM_SEEK_SENSITIVITY_RECOMMENDED, FM_SEEK_SENSITIVITY_RECOMMENDED
  | FM_SEEK_SENSITIVITY_MORE, FM_SEEK_SENSITIVITY_MORE
  | FM_SEEK_SENSITIVITY_MOST, FM_SEEK_SENSITIVITY_MOST => true
  | _, _ => false
  end.

(* struct si_chip_id_t *)
Record si_chip_id_t := mk_chip_id {
  firmware : Z;
  dev : Z;
  rev : Z
}.

(* struct fm_async_progress_t *)
Record fm_async_progress_t := mk_progress {
  done : bool;
  result : Z
}.

(* fm_async_task_t: a pointer to a task function.  The driver only ever
   stores NULL or the address of one of its two task functions. *)
Inductive fm_async_task_t :=
  | NULL
  | fm_set_frequency_async_task_ptr
  | fm_seek_async_task_ptr.

Definition task_eqb (a b : fm_async_task_t) : bool :=
  match a, b with
  | NULL, NULL
  | fm_set_frequency_async_task_ptr, fm_set_frequency_async_task_ptr
  | fm_seek_async_task_ptr, fm_seek_async_task_ptr => true
  | _, _ => false
  end.

(* struct fm_async_state_t *)
Record fm_async_state_t := mk_async {
  task : fm_async_task_t;
  state : Z;
  resume_time : Z
}.

(* (fm_async_state_t){} *)
Definition async_empty : fm_async_state_t := mk_async NULL 0 0.

(* struct si470x_t *)
Record si470x_t := mk_radio {
  i2c_inst : Z;
  reset_pin : Z;
  sdio_pin : Z;
  sclk_pin : Z;
  enable_pull_ups : bool;
  config : fm_config_t;
  seek_sensitivity : fm_seek_sensitivity_t;
  frequency : F32.float;
  mute : bool;
  softmute : bool;
  softmute_rate : fm_softmute_rate_t;
  softmute_attenuation : fm_softmute_attenuation_t;
  mono : bool;
  volext : bool;
  volume : Z;
  regs : list Z;
  async : fm_async_state_t
}.

(** ** misc *)

Definition fm_frequency_range (b : fm_band_t) (s : fm_channel_spacing_t)
  : fm_frequency_range_t :=
  let '(lo, hi) :=
    match b with
    | FM_BAND_COMMON => (F32.f87_5, F32.f108_0)
    | FM_BAND_JAPAN_WIDE => (F32.f76_0, F32.f108_0)
    | FM_BAND_JAPAN => (F32.f76_0, F32.f90_0)
    end in
  let sp :=
    match s with
    | FM_CHANNEL_SPACING_200 => F32.f0_2
    | FM_CHANNEL_SPACING_100 => F32.f0_1
    | FM_CHANNEL_SPACING_50 => F32.f0_05
    end in
  mk_range lo hi sp.

Definition fm_channel_to_frequency (channel : Z) (range : fm_frequency_range_t)
  : F32.float :=
  F32.add (F32.mul (F32.of_int channel) (spacing range)) (bottom range).

Definition fm_frequency_to_channel (f : F32.float) (range : fm_frequency_range_t)
  : option Z :=
  F32.to_uint16 (F32.roundf (F32.div (F32.sub f (bottom range)) (spacing range))).

(** ** The outside world *)

(* What the driver does to the outside, in the order it does it.  The bus
   instance and the chip address [SI4703_ADDR] are the same in every
   transaction and are left out. *)
Inductive event :=
  | EvRead (len : Z) (ret : Z)            (* i2c_read_blocking, its length and return value *)
  | EvWrite (data : list Z) (ret : Z)     (* i2c_write_blocking, the bytes sent and return value *)
  | EvSleep (ms : Z)                      (* sleep_ms *)
  | EvGpioInit (pin : Z)
  | EvGpioDirOut (pin : Z)
  | EvGpioPut (pin : Z) (level : bool)
  | EvGpioFuncI2C (pin : Z)
  | EvGpioPullUp (pin : Z).

(* [bus k] is how the bus answers the [k]-th transaction of the run: the value
   the SDK call returns and, for a read, the bytes it leaves in the buffer. *)
Record world := mk_world {
  time_us : Z;
  bus : nat -> Z * list Z;
  txn : nat;
  trace : list event
}.

Definition is_bus_event (e : event) : bool :=
  match e with EvRead _ _ | EvWrite _ _ => true | _ => false end.

Definition bus_transactions (w : world) : list event :=
  filter is_bus_event (trace w).

(** ** The monad of driver code *)

Inductive outcome (A : Type) : Type :=
  | Ret (a : A)      (* the function returned *)
  | AssertFailed     (* an assert did not hold *)
  | Panicked         (* panic() was called *)
  | Undefined        (* behaviour the C standard leaves undefined *)
  | Spinning.        (* an unbounded loop outlived the fuel *)
Arguments Ret {A} a.
Arguments AssertFailed {A}.
Arguments Panicked {A}.
Arguments Undefined {A}.
Arguments Spinning {A}.

Definition machine : Type := si470x_t * world.

Definition M (A : Type) : Type := machine -> outcome A * machine.

Definition ret {A} (a : A) : M A := fun m => (Ret a, m).

Definition bind {A B} (c : M A) (k : A -> M B) : M B :=
  fun m =>
    match c m with
    | (Ret a, m') => k a m'
    | (AssertFailed, m') => (AssertFailed, m')
    | (Panicked, m') => (Panicked, m')
    | (Undefined, m') => (Undefined, m')
    | (Spinning, m') => (Spinning, m')
    end.

Declare Scope drv_scope.
Delimit Scope drv_scope with drv.
Notation "x <- c ;; k" := (bind c (fun x => k))
  (at level 61, c at next level, right associativity) : drv_scope.
Notation "c ;; k" := (bind c (fun _ => k))
  (at level 61, right associativity) : drv_scope.
Local Open Scope drv_scope.

Definition assert (b : bool) : M unit :=
  fun m => if b then (Ret tt, m) else (AssertFailed, m).

Definition panic {A} : M A := fun m => (Panicked, m).
Definition undefined {A} : M A := fun m => (Undefined, m).
Definition spinning {A} : M A := fun m => (Spinning, m).

Definition get_radio : M si470x_t := fun m => (Ret (fst m), m).
Definition put_radio (r : si470x_t) : M unit := fun m => (Ret tt, (r, snd m)).

(* Assignments to the fields of [*radio]. *)
Definition with_config (r : si470x_t) (v : fm_config_t) : si470x_t :=
  mk_radio (i2c_inst r) (reset_pin r) (sdio_pin r) (sclk_pin r) (enable_pull_ups r)
    v (seek_sensitivity r) (frequency r) (mute r) (softmute r) (softmute_rate r)
    (softmute_attenuation r) (mono r) (volext r) (volume r) (regs r) (async r).

Definition with_seek_sensitivity (r : si470x_t) (v : fm_seek_sensitivity_t) : si470x_t :=
  mk_radio (i2c_inst r) (reset_pin r) (sdio_pin r) (sclk_pin r) (enable_pull_ups r)
    (config r) v (frequency r) (mute r) (softmute r) (softmute_rate r)
    (softmute_attenuation r) (mono r) (volext r) (volume r) (regs r) (async r).

Definition with_frequency (r : si470x_t) (v : F32.float) : si470x_t :=
  mk_radio (i2c_inst r) (reset_pin r) (sdio_pin r) (sclk_pin r) (enable_pull_ups r)
    (config r) (seek_sensitivity r) v (mute r) (softmute r) (softmute_rate r)
    (softmute_attenuation r) (mono r) (volext r) (volume r) (regs r) (async r).

Definition with_mute (r : si470x_t) (v : bool) : si470x_t :=
  mk_radio (i2c_inst r) (reset_pin r) (sdio_pin r) (sclk_pin r) (enable_pull_ups r)
    (config r) (seek_sensitivity r) (frequency r) v (softmute r) (softmute_rate r)
    (softmute_attenuation r) (mono r) (volext r) (volume r) (regs r) (async r).

Definition with_softmute (r : si470x_t) (v : bool) : si470x_t :=
  mk_radio (i2c_inst r) (reset_pin r) (sdio_pin r) (sclk_pin r) (enable_pull_ups r)
    (config r) (seek_sensitivity r) (frequency r) (mute r) v (softmute_rate r)
    (softmute_attenuation r) (mono r) (volext r) (volume r) (regs r) (async r).

Definition with_softmute_rate (r : si470x_t) (v : fm_softmute_rate_t) : si470x_t :=
  mk_radio (i2c_inst r) (reset_pin r) (sdio_pin r) (sclk_pin r) (enable_pull_ups r)
    (config r) (seek_sensitivity r) (frequency r) (mute r) (softmute r) v
    (softmute_attenuation r) (mono r) (volext r) (volume r) (regs r) (async r).

Definition with_softmute_attenuation (r : si470x_t) (v : fm_softmute_attenuation_t)
  : si470x_t :=
  mk_radio (i2c_inst r) (reset_pin r) (sdio_pin r) (sclk_pin r) (enable_pull_ups r)
    (config r) (seek_sensitivity r) (frequency r) (mute r) (softmute r) (softmute_rate r)
    v (mono r) (volext r) (volume r) (regs r) (async r).

Definition with_mono (r : si470x_t) (v : bool) : si470x_t :=
  mk_radio (i2c_inst r) (reset_pin r) (sdio_pin r) (sclk_pin r) (enable_pull_ups r)
    (config r) (seek_sensitivity r) (frequency r) (mute r) (softmute r) (softmute_rate r)
    (softmute_attenuation r) v (volext r) (volume r) (regs r) (async r).

Definition with_volext (r : si470x_t) (v : bool) : si470x_t :=
  mk_radio (i2c_inst r) (reset_pin r) (sdio_pin r) (sclk_pin r) (enable_pull_ups r)
    (config r) (seek_sensitivity r) (frequency r) (mute r) (softmute r) (softmute_rate r)
    (softmute_attenuation r) (mono r) v (volume r) (regs r) (async r).

Definition with_volume (r : si470x_t) (v : Z) : si470x_t :=
  mk_radio (i2c_inst r) (reset_pin r) (sdio_pin r) (sclk_pin r) (enable_pull_ups r)
    (config r) (seek_sensitivity r) (frequency r) (mute r) (softmute r) (softmute_rate r)
    (softmute_attenuation r) (mono r) (volext r) v (regs r) (async r).

Definition with_regs (r : si470x_t) (v : list Z) : si470x_t :=
  mk_radio (i2c_inst r) (reset_pin r) (sdio_pin r) (sclk_pin r) (enable_pull_ups r)
    (config r) (seek_sensitivity r) (frequency r) (mute r) (softmute r) (softmute_rate r)
    (softmute_attenuation r) (mono r) (volext r) (volume r) v (async r).

Definition with_async (r : si470x_t) (v : fm_async_state_t) : si470x_t :=
  mk_radio (i2c_inst r) (reset_pin r) (sdio_pin r) (sclk_pin r) (enable_pull_ups r)
    (config r) (seek_sensitivity r) (frequency r) (mute r) (softmute r) (softmute_rate r)
    (softmute_attenuation r) (mono r) (volext r) (volume r) (regs r) v.

Definition modify (f : si470x_t -> si470x_t) : M unit :=
  fun m => (Ret tt, (f (fst m), snd m)).

(* regs[i] = f(regs[i]) *)
Definition modify_reg (i : Z) (f : Z -> Z) : M unit :=
  modify (fun r => with_regs r (reg_set (regs r) i (f (reg_get (regs r) i)))).

(** ** Pico SDK calls *)

Definition emit (e : event) (w : world) : world :=
  mk_world (time_us w) (bus w) (txn w) (trace w ++ [e]).

Definition next_txn (w : world) : world :=
  mk_world (time_us w) (bus w) (S (txn w)) (trace w).

Definition i2c_read_blocking (len : Z) : M (Z * list Z) :=
  fun m =>
    let w := snd m in
    let '(r, buf) := bus w (txn w) in
    (Ret (r, buf), (fst m, emit (EvRead len r) (next_txn w))).

Definition i2c_write_blocking (data : list Z) : M Z :=
  fun m =>
    let w := snd m in
    let r := fst (bus w (txn w)) in
    (Ret r, (fst m, emit (EvWrite data r) (next_txn w))).

Definition sleep_ms (ms : Z) : M unit :=
  fun m =>
    let w := snd m in
    (Ret tt, (fst m, emit (EvSleep ms)
                       (mk_world (time_us w + ms * 1000) (bus w) (txn w) (trace w)))).

Definition time_us_64 : M Z := fun m => (Ret (u64 (time_us (snd m))), m).

Definition gpio (e : event) : M unit := fun m => (Ret tt, (fst m, emit e (snd m))).

(** ** register access *)

(* buf[i], a uint8_t *)
Definition buf_get (buf : list Z) (i : nat) : Z := u8 (nth i buf 0).

(* The body of the for loop of fm_read_registers, [n] registers to go:
   [i] indexes the buffer, [p] is the register the pointer is at. *)
Fixpoint fm_read_registers_loop (n : nat) (buf : list Z) (i : nat) (p : Z)
    (regs : list Z) : list Z :=
  match n with
  | O => regs
  | S n' =>
      let reg := u16 (Z.shiftl (buf_get buf i) 8) in          (* hi *)
      let reg := u16 (Z.lor reg (buf_get buf (i + 1))) in     (* lo *)
      let regs := reg_set regs p reg in
      let p := if p + 1 =? 16 then 0 else p + 1 in            (* loop back to register 0 *)
      fm_read_registers_loop n' buf (i + 2) p regs
  end.

Definition fm_read_registers (n : Z) : M bool :=
  assert (n <=? 16) ;;
  let data_size := n * 2 in
  rb <- i2c_read_blocking data_size ;;
  if negb (fst rb =? data_size) then ret false   (* failed *)
  else
    modify (fun r => with_regs r
      (fm_read_registers_loop (Z.to_nat n) (snd rb) 0 0xA (regs r))) ;;
    ret true.

Definition fm_read_registers_up_to (reg_index : Z) : M bool :=
  assert (reg_index <? 16) ;;
  let n := if reg_index <? 0xA then reg_index + 7 else reg_index - 9 in
  fm_read_registers n.

(* The body of the for loop of fm_write_registers: the bytes put in the
   buffer for [n] registers from register [p] on. *)
Fixpoint fm_write_registers_loop (n : nat) (regs : list Z) (p : Z) : list Z :=
  match n with
  | O => []
  | S n' =>
      let reg := reg_get regs p in
      u8 (Z.shiftr reg 8) :: u8 (Z.land reg 0xFF)
        :: fm_write_registers_loop n' regs (p + 1)
  end.

Definition fm_write_registers (n : Z) : M bool :=
  assert (n <=? 14) ;;
  let data_size := n * 2 in
  r <- get_radio ;;
  let buf := fm_write_registers_loop (Z.to_nat n) (regs r) 0x2 in
  res <- i2c_write_blocking buf ;;
  ret (res =? data_size).

Definition fm_write_registers_up_to (reg_index : Z) : M bool :=
  assert ((0x2 <=? reg_index) && (reg_index <=? 0xF)) ;;
  let n := reg_index - 1 in
  fm_write_registers n.

Definition fm_set_seek_sensitivity_bits (regs : list Z)
    (seek_sensitivity : fm_seek_sensitivity_t) : list Z :=
  let '(seekth, sksnr, skcnt) :=
    match seek_sensitivity with
    | FM_SEEK_SENSITIVITY_STRONG_ONLY => (0xC, 0x7, 0xF)
    | FM_SEEK_SENSITIVITY_RECOMMENDED => (0x19, 0x4, 0x8)
    | FM_SEEK_SENSITIVITY_MORE => (0xC, 0x4, 0x8)
    | FM_SEEK_SENSITIVITY_MOST => (0x0, 0x4, 0xF)
    end in
  let regs := reg_set regs SYSCONFIG2
                (fm_set_bits (reg_get regs SYSCONFIG2) SEEKTH_BITS SEEKTH_LSB seekth) in
  let regs := reg_set regs SYSCONFIG3
                (fm_set_bits (reg_get regs SYSCONFIG3) SKSNR_BITS SKSNR_LSB sksnr) in
  reg_set regs SYSCONFIG3
    (fm_set_bits (reg_get regs SYSCONFIG3) SKCNT_BITS SKCNT_LSB skcnt).

(** ** public interface *)

Definition fm_init (i2c reset sdio sclk : Z) (pull_ups : bool) : si470x_t :=
  (* memset(radio, 0, sizeof(si470x_t)), then the fields that are set *)
  mk_radio i2c reset sdio sclk pull_ups
    (mk_config FM_BAND_COMMON FM_CHANNEL_SPACING_200 FM_DEEMPHASIS_75)
    FM_SEEK_SENSITIVITY_RECOMMENDED
    F32.zero
    true true
    FM_SOFTMUTE_FASTEST FM_SOFTMUTE_ATTENUATION_16
    false false 0
    (repeat 0 16)
    async_empty.

Definition fm_is_powered_up (radio : si470x_t) : bool :=
  fm_get_bit (reg_get (regs radio) POWERCFG) ENABLE_BIT.

Definition fm_is_rds_supported (radio : si470x_t) : bool :=
  let dev := u8 (fm_get_bits (reg_get (regs radio) CHIPID) DEV_BITS DEV_LSB) in
  dev =? DEV_SI4703.

Definition fm_get_chip_id (radio : si470x_t) : si_chip_id_t :=
  let chipid := reg_get (regs radio) CHIPID in
  mk_chip_id (u8 (fm_get_bits chipid FIRMWARE_BITS FIRMWARE_LSB))
             (u8 (fm_get_bits chipid DEV_BITS DEV_LSB))
             (u8 (fm_get_bits chipid REV_BITS REV_LSB)).

Definition fm_get_config (radio : si470x_t) : fm_config_t := config radio.

Definition fm_get_frequency_range (radio : si470x_t) : fm_frequency_range_t :=
  fm_frequency_range (band (config radio)) (channel_spacing (config radio)).

Definition fm_get_frequency (radio : si470x_t) : F32.float := frequency radio.
Definition fm_get_seek_sensitivity (radio : si470x_t) := seek_sensitivity radio.
Definition fm_get_mute (radio : si470x_t) : bool := mute radio.
Definition fm_get_softmute (radio : si470x_t) : bool := softmute radio.
Definition fm_get_softmute_rate (radio : si470x_t) := softmute_rate radio.
Definition fm_get_softmute_attenuation (radio : si470x_t) := softmute_attenuation radio.
Definition fm_get_mono (radio : si470x_t) : bool := mono radio.
Definition fm_get_volume (radio : si470x_t) : Z := volume radio.
Definition fm_get_volext (radio : si470x_t) : bool := volext radio.

(* do { fm_read_registers_up_to(STATUSRSSI); } while (fm_get_bit(regs[STATUSRSSI], STC)); *)
Fixpoint wait_stc_cleared (fuel : nat) : M unit :=
  match fuel with
  | O => spinning
  | S fuel' =>
      fm_read_registers_up_to STATUSRSSI ;;
      r <- get_radio ;;
      if fm_get_bit (reg_get (regs r) STATUSRSSI) STC_BIT
      then wait_stc_cleared fuel'
      else ret tt
  end.

(* radio->frequency = fm_channel_to_frequency(READCHAN field, range) *)
Definition store_read_channel : M unit :=
  modify (fun r =>
    let channel := u16 (fm_get_bits (reg_get (regs r) READCHAN) READCHAN_BITS READCHAN_LSB) in
    with_frequency r (fm_channel_to_frequency channel (fm_get_frequency_range r))).

Definition set_resume_time (interval_ms : Z) : M unit :=
  now <- time_us_64 ;;
  modify (fun r => with_async r
    (mk_async (task (async r)) (state (async r)) (u64 (now + interval_ms * 1000)))).

Definition fm_set_frequency_async_task (fuel : nat) (cancel : bool)
  : M fm_async_progress_t :=
  r <- get_radio ;;
  assert (task_eqb (task (async r)) fm_set_frequency_async_task_ptr) ;;
  assert (state (async r) =? 1) ;;
  (* [None]: the early return; [Some result]: go on to the clean-up *)
  first <-
    (if cancel then ret (Some (-1))
     else
       fm_read_registers_up_to STATUSRSSI ;;
       r <- get_radio ;;
       if negb (fm_get_bit (reg_get (regs r) STATUSRSSI) STC_BIT) then
         set_resume_time TUNE_POLL_INTERVAL_MS ;;
         ret None
       else ret (Some 0)) ;;
  match first with
  | None => ret (mk_progress false 0)
  | Some result =>
      (* clear tune bit *)
      modify_reg CHANNEL (fun x => fm_set_bit x TUNE_BIT false) ;;
      fm_write_registers_up_to CHANNEL ;;
      (* wait until STC bit cleared *)
      wait_stc_cleared fuel ;;
      fm_read_registers_up_to READCHAN ;;
      store_read_channel ;;
      ret (mk_progress true result)
  end.

Definition fm_set_frequency_async (f : F32.float) : M unit :=
  r <- get_radio ;;
  assert (fm_is_powered_up r) ;;
  assert (task_eqb (task (async r)) NULL) ;;   (* disallowed during async task *)
  match fm_frequency_to_channel f (fm_get_frequency_range r) with
  | None => undefined
  | Some channel =>
      (* set channel and start tuning *)
      modify_reg CHANNEL (fun x => fm_set_bits x CHAN_BITS CHAN_LSB channel) ;;
      modify_reg CHANNEL (fun x => fm_set_bit x TUNE_BIT true) ;;
      fm_write_registers_up_to CHANNEL ;;
      now <- time_us_64 ;;
      modify (fun r => with_async r
        (mk_async fm_set_frequency_async_task_ptr 1
           (u64 (now + TUNE_POLL_INTERVAL_MS * 1000))))
  end.

Definition fm_set_seek_sensitivity (seek_sensitivity : fm_seek_sensitivity_t) : M unit :=
  r <- get_radio ;;
  assert (fm_is_powered_up r) ;;
  assert (task_eqb (task (async r)) NULL) ;;
  if seek_sensitivity_eqb (fm_get_seek_sensitivity r) seek_sensitivity then ret tt
  else
    modify (fun r => with_regs r (fm_set_seek_sensitivity_bits (regs r) seek_sensitivity)) ;;
    fm_write_registers_up_to SYSCONFIG3 ;;
    modify (fun r => with_seek_sensitivity r seek_sensitivity).

Definition fm_seek_async_task (fuel : nat) (cancel : bool) : M fm_async_progress_t :=
  r <- get_radio ;;
  assert (task_eqb (task (async r)) fm_seek_async_task_ptr) ;;
  assert (state (async r) =? 1) ;;
  first <-
    (if cancel then ret (Some (-1))
     else
       fm_read_registers_up_to READCHAN ;;
       r <- get_radio ;;
       if negb (fm_get_bit (reg_get (regs r) STATUSRSSI) STC_BIT) then
         store_read_channel ;;
         set_resume_time SEEK_POLL_INTERVAL_MS ;;
         ret None
       else
         (* seek done, check seek-failed / band-limit flag *)
         if fm_get_bit (reg_get (regs r) STATUSRSSI) SFBL_BIT
         then ret (Some (-1))
         else ret (Some 0)) ;;
  match first with
  | None => ret (mk_progress false 0)
  | Some result =>
      (* clear seek bit *)
      modify_reg POWERCFG (fun x => fm_set_bit x SEEK_BIT false) ;;
      fm_write_registers_up_to POWERCFG ;;
      (* wait until STC bit cleared *)
      wait_stc_cleared fuel ;;
      fm_read_registers_up_to READCHAN ;;
      store_read_channel ;;
      ret (mk_progress true result)
  end.

Definition fm_seek_async (direction : fm_seek_direction_t) : M unit :=
  r <- get_radio ;;
  assert (fm_is_powered_up r) ;;
  assert (task_eqb (task (async r)) NULL) ;;   (* disallowed during async task *)
  modify_reg POWERCFG (fun x => fm_set_bit x SKMODE_BIT false) ;;   (* wrap mode *)
  modify_reg POWERCFG (fun x => fm_set_bit x SEEKUP_BIT
    (match direction with FM_SEEK_UP => true | FM_SEEK_DOWN => false end)) ;;
  modify_reg POWERCFG (fun x => fm_set_bit x SEEK_BIT true) ;;      (* start seek *)
  fm_write_registers_up_to POWERCFG ;;
  now <- time_us_64 ;;
  modify (fun r => with_async r
    (mk_async fm_seek_async_task_ptr 1 (u64 (now + SEEK_POLL_INTERVAL_MS * 1000)))).

(* radio->async.task(radio, cancel) *)
Definition call_task (fuel : nat) (t : fm_async_task_t) (cancel : bool)
  : M fm_async_progress_t :=
  match t with
  | NULL => undefined
  | fm_set_frequency_async_task_ptr => fm_set_frequency_async_task fuel cancel
  | fm_seek_async_task_ptr => fm_seek_async_task fuel cancel
  end.

Definition fm_async_task_tick (fuel : nat) : M fm_async_progress_t :=
  r <- get_radio ;;
  assert (negb (task_eqb (task (async r)) NULL)) ;;   (* must have an async task running *)
  now <- time_us_64 ;;
  if now <? resume_time (async r) then
    (* skip until resume time *)
    ret (mk_progress false 0)
  else
    progress <- call_task fuel (task (async r)) false ;;
    (if done progress then modify (fun r => with_async r async_empty) else ret tt) ;;
    ret progress.

Definition fm_async_task_cancel (fuel : nat) : M unit :=
  r <- get_radio ;;
  assert (negb (task_eqb (task (async r)) NULL)) ;;   (* must have an async task running *)
  call_task fuel (task (async r)) true ;;
  modify (fun r => with_async r async_empty).

(* do { sleep_ms(interval); progress = fm_async_task_tick(radio); } while (!progress.done); *)
Fixpoint tick_until_done (fuel : nat) (interval_ms : Z) (tick_fuel : nat)
  : M fm_async_progress_t :=
  match fuel with
  | O => spinning
  | S fuel' =>
      sleep_ms interval_ms ;;
      progress <- fm_async_task_tick tick_fuel ;;
      if done progress then ret progress
      else tick_until_done fuel' interval_ms tick_fuel
  end.

Definition fm_set_frequency_blocking (fuel : nat) (f : F32.float) : M unit :=
  r <- get_radio ;;
  assert (fm_is_powered_up r) ;;
  assert (task_eqb (task (async r)) NULL) ;;   (* disallowed during async task *)
  if F32.eqb (frequency r) f then ret tt
  else
    fm_set_frequency_async f ;;
    tick_until_done fuel TUNE_POLL_INTERVAL_MS fuel ;;
    ret tt.

Definition fm_seek_blocking (fuel : nat) (direction : fm_seek_direction_t) : M bool :=
  r <- get_radio ;;
  assert (task_eqb (task (async r)) NULL) ;;   (* disallowed during async task *)
  fm_seek_async direction ;;
  progress <- tick_until_done fuel SEEK_POLL_INTERVAL_MS fuel ;;
  ret (result progress =? 0).

Definition fm_set_mute (v : bool) : M unit :=
  r <- get_radio ;;
  assert (fm_is_powered_up r) ;;
  assert (task_eqb (task (async r)) NULL) ;;
  if Bool.eqb (mute r) v then ret tt
  else
    modify_reg POWERCFG (fun x => fm_set_bit x DMUTE_BIT (negb v)) ;;
    fm_write_registers_up_to POWERCFG ;;
    modify (fun r => with_mute r v).

Definition fm_set_softmute (v : bool) : M unit :=
  r <- get_radio ;;
  assert (fm_is_powered_up r) ;;
  assert (task_eqb (task (async r)) NULL) ;;
  if Bool.eqb (softmute r) v then ret tt
  else
    modify_reg POWERCFG (fun x => fm_set_bit x DSMUTE_BIT (negb v)) ;;
    fm_write_registers_up_to POWERCFG ;;
    modify (fun r => with_softmute r v).

Definition fm_set_softmute_rate (v : fm_softmute_rate_t) : M unit :=
  r <- get_radio ;;
  assert (fm_is_powered_up r) ;;
  assert (task_eqb (task (async r)) NULL) ;;
  if rate_val (softmute_rate r) =? rate_val v then ret tt
  else
    modify_reg SYSCONFIG3 (fun x => fm_set_bits x SMUTER_BITS SMUTER_LSB (rate_val v)) ;;
    fm_write_registers_up_to SYSCONFIG3 ;;
    modify (fun r => with_softmute_rate r v).

Definition fm_set_softmute_attenuation (v : fm_softmute_attenuation_t) : M unit :=
  r <- get_radio ;;
  assert (fm_is_powered_up r) ;;
  assert (task_eqb (task (async r)) NULL) ;;
  if attenuation_val (softmute_attenuation r) =? attenuation_val v then ret tt
  else
    modify_reg SYSCONFIG3
      (fun x => fm_set_bits x SMUTEA_BITS SMUTEA_LSB (attenuation_val v)) ;;
    fm_write_registers_up_to SYSCONFIG3 ;;
    modify (fun r => with_softmute_attenuation r v).

Definition fm_set_mono (v : bool) : M unit :=
  r <- get_radio ;;
  assert (fm_is_powered_up r) ;;
  assert (task_eqb (task (async r)) NULL) ;;
  if Bool.eqb (mono r) v then ret tt
  else
    modify_reg POWERCFG (fun x => fm_set_bit x MONO_BIT v) ;;
    fm_write_registers_up_to POWERCFG ;;
    modify (fun r => with_mono r v).

Definition fm_set_volume (vol : Z) (ext : bool) : M unit :=
  r <- get_radio ;;
  assert (fm_is_powered_up r) ;;
  assert (task_eqb (task (async r)) NULL) ;;
  let vol := Z.min vol FM_MAX_VOLUME in
  if (volume r =? vol) && Bool.eqb (volext r) ext then ret tt
  else
    modify_reg SYSCONFIG2 (fun x => fm_set_bits x VOLUME_BITS VOLUME_LSB vol) ;;
    modify_reg SYSCONFIG3 (fun x => fm_set_bit x VOLEXT_BIT ext) ;;
    fm_write_registers_up_to SYSCONFIG3 ;;
    modify (fun r => with_volext (with_volume r vol) ext).

Definition fm_get_rssi : M Z :=
  r <- get_radio ;;
  assert (fm_is_powered_up r) ;;
  fm_read_registers_up_to STATUSRSSI ;;
  r <- get_radio ;;
  ret (u8 (fm_get_bits (reg_get (regs r) STATUSRSSI) RSSI_BITS RSSI_LSB)).

Definition fm_get_stereo_indicator : M bool :=
  r <- get_radio ;;
  assert (fm_is_powered_up r) ;;
  fm_read_registers_up_to STATUSRSSI ;;
  r <- get_radio ;;
  ret (fm_get_bit (reg_get (regs r) STATUSRSSI) ST_BIT).

(* The four blocks are returned instead of being copied to [blocks]. *)
Definition fm_read_rds_group : M (option (list Z)) :=
  r <- get_radio ;;
  assert (fm_is_powered_up r) ;;
  assert (fm_is_rds_supported r) ;;
  fm_read_registers_up_to RDSD ;;
  r <- get_radio ;;
  let rdsr := fm_get_bit (reg_get (regs r) STATUSRSSI) RDSR_BIT in
  if negb rdsr then ret None   (* not ready *)
  else ret (Some (map (reg_get (regs r)) [RDSA; RDSB; RDSC; RDSD])).

Definition fm_power_up (fuel : nat) (cfg : fm_config_t) : M unit :=
  r <- get_radio ;;
  assert (negb (fm_is_powered_up r)) ;;
  if fm_get_bit (reg_get (regs r) POWERCFG) DISABLE_BIT && config_eqb (config r) cfg
  then
    (* waking up after power down, assume registers have been preserved *)
    modify_reg POWERCFG (fun x => fm_set_bit x ENABLE_BIT true) ;;
    modify_reg POWERCFG (fun x => fm_set_bit x DISABLE_BIT false) ;;
    modify_reg POWERCFG (fun x => fm_set_bit x DMUTE_BIT (negb (mute r))) ;;
    fm_write_registers_up_to POWERCFG ;;
    sleep_ms 110 ;;   (* wait for device powerup *)
    (* restore RDS *)
    r <- get_radio ;;
    if fm_is_rds_supported r then
      modify_reg SYSCONFIG1 (fun x => fm_set_bit x RDS_BIT true) ;;
      fm_write_registers_up_to SYSCONFIG1 ;;
      ret tt
    else ret tt
  else
    modify (fun r => with_config r cfg) ;;
    gpio (EvGpioInit (reset_pin r)) ;;
    gpio (EvGpioDirOut (reset_pin r)) ;;
    gpio (EvGpioInit (sdio_pin r)) ;;
    gpio (EvGpioDirOut (sdio_pin r)) ;;
    (* see AN230 - Powerup Configuration Sequence *)
    gpio (EvGpioPut (sdio_pin r) false) ;;
    gpio (EvGpioPut (reset_pin r) false) ;;
    sleep_ms 5 ;;
    gpio (EvGpioPut (reset_pin r) true) ;;
    sleep_ms 5 ;;
    gpio (EvGpioFuncI2C (sdio_pin r)) ;;
    gpio (EvGpioFuncI2C (sclk_pin r)) ;;
    (if enable_pull_ups r then
       gpio (EvGpioPullUp (sdio_pin r)) ;;
       gpio (EvGpioPullUp (sclk_pin r))
     else ret tt) ;;
    ok <- fm_read_registers 16 ;;
    (if negb ok then panic else ret tt) ;;
    r1 <- get_radio ;;
    let mfgid := u16 (fm_get_bits (reg_get (regs r1) DEVICEID) MFGID_BITS MFGID_LSB) in
    let pn := u8 (fm_get_bits (reg_get (regs r1) DEVICEID) PN_BITS PN_LSB) in
    assert (mfgid =? 0x242) ;;   (* manufacturer ID check *)
    assert (pn =? 0x1) ;;        (* part number check *)
    modify_reg TEST1 (fun x => u16 (Z.lor x XOSCEN_BIT)) ;;   (* enable internal oscillator *)
    modify_reg RDSD (fun _ => 0) ;;                           (* Si4703-C19 errata *)
    fm_write_registers_up_to RDSD ;;
    sleep_ms 500 ;;   (* wait for oscillator to stabilize *)
    (* enable *)
    modify_reg POWERCFG (fun _ => ENABLE_BIT) ;;
    fm_write_registers_up_to POWERCFG ;;
    sleep_ms 110 ;;   (* wait for device powerup *)
    fm_read_registers 16 ;;
    r2 <- get_radio ;;
    let dev := u8 (fm_get_bits (reg_get (regs r2) CHIPID) DEV_BITS DEV_LSB) in
    assert ((dev =? DEV_SI4702) || (dev =? DEV_SI4703)) ;;
    (* setup *)
    modify_reg POWERCFG (fun x => fm_set_bit x MONO_BIT (mono r2)) ;;
    modify_reg POWERCFG (fun x => fm_set_bit x DMUTE_BIT (negb (mute r2))) ;;
    modify_reg POWERCFG (fun x => fm_set_bit x DSMUTE_BIT (negb (softmute r2))) ;;
    r3 <- get_radio ;;
    (if fm_is_rds_supported r3
     then modify_reg SYSCONFIG1 (fun x => fm_set_bit x RDS_BIT true)
     else ret tt) ;;
    modify_reg SYSCONFIG1 (fun x => fm_set_bit x DE_BIT
      (match deemphasis cfg with FM_DEEMPHASIS_50 => true | FM_DEEMPHASIS_75 => false end)) ;;
    modify_reg SYSCONFIG2 (fun x => fm_set_bits x VOLUME_BITS VOLUME_LSB (volume r2)) ;;
    modify_reg SYSCONFIG2 (fun x => fm_set_bits x BAND_BITS BAND_LSB (band_val (band cfg))) ;;
    modify_reg SYSCONFIG2
      (fun x => fm_set_bits x SPACE_BITS SPACE_LSB (spacing_val (channel_spacing cfg))) ;;
    modify_reg SYSCONFIG3 (fun x => fm_set_bit x VOLEXT_BIT (volext r2)) ;;
    modify_reg SYSCONFIG3
      (fun x => fm_set_bits x SMUTEA_BITS SMUTEA_LSB (attenuation_val (softmute_attenuation r2))) ;;
    modify_reg SYSCONFIG3
      (fun x => fm_set_bits x SMUTER_BITS SMUTER_LSB (rate_val (softmute_rate r2))) ;;
    modify (fun r => with_regs r (fm_set_seek_sensitivity_bits (regs r) (seek_sensitivity r))) ;;
    fm_write_registers_up_to SYSCONFIG3 ;;
    if negb (F32.eqb (frequency r2) F32.zero) then
      modify (fun r => with_frequency r F32.zero) ;;
      fm_set_frequency_blocking fuel (frequency r2)
    else ret tt.

Definition fm_power_down (fuel : nat) : M unit :=
  r <- get_radio ;;
  assert (fm_is_powered_up r) ;;
  (if negb (task_eqb (task (async r)) NULL) then fm_async_task_cancel fuel else ret tt) ;;
  r <- get_radio ;;
  (if fm_is_rds_supported r then
     (* on Si4703 it's recommended to disable RDS before powering down *)
     modify_reg SYSCONFIG1 (fun x => fm_set_bit x RDS_BIT false) ;;
     fm_write_registers_up_to SYSCONFIG1 ;;
     ret tt
   else ret tt) ;;
  modify_reg POWERCFG (fun x => fm_set_bit x DMUTE_BIT false) ;;
  modify_reg POWERCFG (fun x => fm_set_bit x DISABLE_BIT true) ;;
  fm_write_registers_up_to POWERCFG ;;
  (* update shadow register for internal bookkeeping *)
  modify_reg POWERCFG (fun x => fm_set_bit x ENABLE_BIT false).

(** ** fm_example.c: the volume remapping *)

(* remap volume & volext into a continuous range between 0-30 *)
Definition get_volume (radio : si470x_t) : Z :=
  let vol := fm_get_volume radio in
  if negb (vol =? 0) && negb (fm_get_volext radio) then u8 (vol + 15) else vol.

Definition set_volume (vol : Z) : M unit :=
  assert (vol <=? 30) ;;
  if vol <? 16 then
    (* low volume range *)
    fm_set_volume vol true
  else
    (* high volume range *)
    fm_set_volume (u8 (vol - 15)) false.

(** ** Vocabulary of the properties *)

(* The registers a burst read of [n] registers fills, in order: the pointer
   of the loop of fm_read_registers, which starts at [p]. *)
Fixpoint read_order (n : nat) (p : Z) : list Z :=
  match n with
  | O => []
  | S n' => p :: read_order n' (if p + 1 =? 16 then 0 else p + 1)
  end.

(* The registers a burst write of [n] registers sends, in order: the pointer
   of the loop of fm_write_registers. *)
Fixpoint write_order (n : nat) (p : Z) : list Z :=
  match n with
  | O => []
  | S n' => p :: write_order n' (p + 1)
  end.

Definition reaches (order : nat -> list Z) (n : nat) (r : Z) : bool :=
  existsb (Z.eqb r) (order n).

(* [n] is the least count whose burst reaches register [r]. *)
Definition minimal_count (order : nat -> list Z) (n : nat) (r : Z) : Prop :=
  reaches order n r = true /\
  forall k, (k < n)%nat -> reaches order k r = false.

(* The two bytes of a register on the bus, high byte first. *)
Definition be16 (reg : Z) : list Z := [u8 (Z.shiftr reg 8); u8 (Z.land reg 0xFF)].

(* The handle as the type [si470x_t] has it: sixteen shadow registers. *)
Definition handle_ok (r : si470x_t) : Prop := length (regs r) = 16%nat.

(* A slot that holds a task holds it in state 1, as the two starters leave it. *)
Definition slot_ok (a : fm_async_state_t) : Prop :=
  task a = NULL \/ state a = 1.

(* The register a one-register read leaves in STATUSRSSI. *)
Definition status_of (buf : list Z) : Z :=
  u16 (Z.lor (u16 (Z.shiftl (buf_get buf 0) 8)) (buf_get buf 1)).

(* The bus answers a one-register read in full, with STC clear. *)
Definition stc_clear_reply (rb : Z * list Z) : bool :=
  (fst rb =? 2) && negb (fm_get_bit (status_of (snd rb)) STC_BIT).

(* One of the [n] transactions from the [first]-th on is answered by a status
   read with STC clear: the chip ends its seek/tune-complete phase. *)
Definition chip_settles (w : world) (first n : nat) : Prop :=
  exists k, (k < n)%nat /\ stc_clear_reply (bus w (first + k)%nat) = true.

(* Two register files that differ at most in the registers of [skip]. *)
Definition agree_except (skip : list Z) (l l' : list Z) : Prop :=
  length l' = length l /\
  forall j, 0 <= j -> ~ In j skip -> reg_get l' j = reg_get l j.

(* The last part of both task functions: clear the start bit [bit] of
   register [i], write up to it, wait for STC to clear, read the channel
   back. *)
Definition task_cleanup (i bit : Z) (fuel : nat) (res : Z) : M fm_async_progress_t :=
  modify_reg i (fun x => fm_set_bit x bit false) ;;
  fm_write_registers_up_to i ;;
  wait_stc_cleared fuel ;;
  fm_read_registers_up_to READCHAN ;;
  store_read_channel ;;
  ret (mk_progress true res).

(* The handle fm_seek_async_task looks at after its first read. *)
Definition seek_observed (m : machine) : si470x_t :=
  fst (snd (fm_read_registers_up_to READCHAN m)).

(* What fm_power_down does once no task is in flight. *)
Definition power_down_writes : M unit :=
  r <- get_radio ;;
  (if fm_is_rds_supported r then
     modify_reg SYSCONFIG1 (fun x => fm_set_bit x RDS_BIT false) ;;
     fm_write_registers_up_to SYSCONFIG1 ;;
     ret tt
   else ret tt) ;;
  modify_reg POWERCFG (fun x => fm_set_bit x DMUTE_BIT false) ;;
  modify_reg POWERCFG (fun x => fm_set_bit x DISABLE_BIT true) ;;
  fm_write_registers_up_to POWERCFG ;;
  modify_reg POWERCFG (fun x => fm_set_bit x ENABLE_BIT false).

(** ** Exact values of floats *)

(* The rational a finite float stands for. *)
Definition float_value (x : F32.float) : Q :=
  match x with
  | S754_finite s m e => inject_Z (if s then Zneg m else Zpos m) * Qpower 2 e
  | _ => 0
  end.

(* f is a frequency of the range: bottom <= f <= top. *)
Definition in_range (f : F32.float) (r : fm_frequency_range_t) : bool :=
  F32.leb (bottom r) f && F32.leb f (top r).

(* The round trip of channel [c] gives [c] back. *)
Definition channel_round_trip (r : fm_frequency_range_t) (c : Z) : bool :=
  match fm_frequency_to_channel (fm_channel_to_frequency c r) r with
  | Some c' => c' =? c
  | None => false
  end.

Definition channels_round_trip (r : fm_frequency_range_t) (n : nat) : bool :=
  forallb (fun k => channel_round_trip r (Z.of_nat k)) (seq 0 n).

Definition all_bands : list fm_band_t :=
  [FM_BAND_COMMON; FM_BAND_JAPAN_WIDE; FM_BAND_JAPAN].

Definition all_spacings : list fm_channel_spacing_t :=
  [FM_CHANNEL_SPACING_200; FM_CHANNEL_SPACING_100; FM_CHANNEL_SPACING_50].

(** ** Concrete machines *)

(* Every transaction returns 2, and a read finds two zero bytes: a
   one-register transfer answered in full, with STC clear. *)
Definition bus_two_zero : nat -> Z * list Z := fun _ => (2, [0; 0]).

(* The sixteen registers of a Si4703 as a full read returns them, from
   STATUSRSSI on: manufacturer 0x242, part number 1, device 0b1001. *)
Definition si4703_dump (powercfg : Z) : list Z :=
  [0; 0; 0; 5; 0; 0; 0; 0; 0; 0; 0; 0;
   0x12; 0x42; 0x12; 0x53; 0; powercfg; 0; 0; 0; 0; 0; 0; 0; 0; 0; 0; 0; 0; 0; 0].

(* The bus during a cold power-up of that chip. *)
Definition bus_si4703 (k : nat) : Z * list Z :=
  match k with
  | 0%nat => (32, si4703_dump 0)
  | 1%nat => (28, [])
  | 2%nat => (2, [])
  | 3%nat => (32, si4703_dump 1)
  | 4%nat => (10, [])
  | _ => (2, [0; 0])
  end.

(* A seek that ends at the band limit: the first read finds STC and SFBL. *)
Definition bus_seek_failed (k : nat) : Z * list Z :=
  match k with
  | 0%nat => (4, [0x60; 0x00; 0x00; 0x05])
  | _ => (2, [0; 0])
  end.

Definition world_start (b : nat -> Z * list Z) : world := mk_world 0 b 0 [].

(* The handle after fm_init and a cold power-up with the European settings. *)
Definition radio_on : si470x_t :=
  Eval vm_compute in
    fst (snd (fm_power_up 0 fm_config_europe
                (fm_init 0 15 4 5 true, world_start bus_si4703))).

(* ... then unmuted at full low-range volume, as main() of the example does. *)
Definition radio_playing : si470x_t :=
  Eval vm_compute in
    fst (snd ((fm_set_volume 15 true ;; fm_set_mute false)
                (radio_on, world_start bus_two_zero))).

(* ... then with a seek started. *)
Definition radio_seeking : si470x_t :=
  Eval vm_compute in
    fst (snd (fm_seek_async FM_SEEK_UP (radio_playing, world_start bus_two_zero))).

(* ... or powered down. *)
Definition radio_asleep : si470x_t :=
  Eval vm_compute in
    fst (snd (fm_power_down 0 (radio_playing, world_start bus_two_zero))).


(** ** Vocabulary of the further properties *)

(* Every shadow register holds a 16-bit value, as its type uint16_t has it. *)
Definition regs16 (l : list Z) : Prop := Forall (fun x => 0 <= x < 2 ^ 16) l.

(* The [k]-th register of a buffer received from the bus: two bytes, high
   byte first. *)
Definition rx_reg (buf : list Z) (k : nat) : Z :=
  u16 (Z.lor (u16 (Z.shiftl (buf_get buf (2 * k)) 8)) (buf_get buf (2 * k + 1))).

(* The place of register [j] in the read order: 0 for 0xA, 6 for 0x0. *)
Definition read_position (j : Z) : Z := (j - 0xA) mod 16.

(* The mask of a field of [width] bits at [lsb], as fm_si470x_regs.h writes
   them: (0xF << LSB) is [field 4 LSB]. *)
Definition field (width lsb : Z) : Z := Z.shiftl (Z.ones width) lsb.

(* The thresholds fm_set_seek_sensitivity_bits writes for a sensitivity:
   SEEKTH, SKSNR and SKCNT. *)
Definition seek_thresholds (s : fm_seek_sensitivity_t) : Z * Z * Z :=
  match s with
  | FM_SEEK_SENSITIVITY_STRONG_ONLY => (0xC, 0x7, 0xF)
  | FM_SEEK_SENSITIVITY_RECOMMENDED => (0x19, 0x4, 0x8)
  | FM_SEEK_SENSITIVITY_MORE => (0xC, 0x4, 0x8)
  | FM_SEEK_SENSITIVITY_MOST => (0x0, 0x4, 0xF)
  end.

(* The settings the handle caches are the settings its shadow registers
   hold.  DMUTE is cleared by fm_power_down, so it follows the mute flag
   while the handle is powered up only. *)
Definition settings_in_shadow (r : si470x_t) : Prop :=
  let pc := reg_get (regs r) POWERCFG in
  let sc1 := reg_get (regs r) SYSCONFIG1 in
  let sc2 := reg_get (regs r) SYSCONFIG2 in
  let sc3 := reg_get (regs r) SYSCONFIG3 in
  0 <= volume r <= 15 /\
  (fm_is_powered_up r = true -> fm_get_bit pc DMUTE_BIT = negb (mute r)) /\
  fm_get_bit pc MONO_BIT = mono r /\
  fm_get_bit pc DSMUTE_BIT = negb (softmute r) /\
  fm_get_bit sc1 DE_BIT =
    (match deemphasis (config r) with FM_DEEMPHASIS_50 => true | FM_DEEMPHASIS_75 => false end) /\
  fm_get_bits sc2 VOLUME_BITS VOLUME_LSB = volume r /\
  fm_get_bits sc2 SPACE_BITS SPACE_LSB = spacing_val (channel_spacing (config r)) /\
  fm_get_bits sc2 BAND_BITS BAND_LSB = band_val (band (config r)) /\
  fm_get_bits sc2 SEEKTH_BITS SEEKTH_LSB = fst (fst (seek_thresholds (seek_sensitivity r))) /\
  fm_get_bits sc3 SKSNR_BITS SKSNR_LSB = snd (fst (seek_thresholds (seek_sensitivity r))) /\
  fm_get_bits sc3 SKCNT_BITS SKCNT_LSB = snd (seek_thresholds (seek_sensitivity r)) /\
  fm_get_bit sc3 VOLEXT_BIT = volext r /\
  fm_get_bits sc3 SMUTEA_BITS SMUTEA_LSB = attenuation_val (softmute_attenuation r) /\
  fm_get_bits sc3 SMUTER_BITS SMUTER_LSB = rate_val (softmute_rate r).

(* What a setter leaves behind: a sound handle, powered up, with no task,
   its settings in the shadow, and at most one bus transaction, a write. *)
Definition setter_post (w : world) (r' : si470x_t) (w' : world) : Prop :=
  handle_ok r' /\
  settings_in_shadow r' /\
  fm_is_powered_up r' = true /\
  task (async r') = NULL /\
  (w' = w \/ exists data ret, trace w' = trace w ++ [EvWrite data ret]).

(* The frequency of the channel in the shadow READCHAN. *)
Definition read_channel (r : si470x_t) : F32.float :=
  fm_channel_to_frequency
    (u16 (fm_get_bits (reg_get (regs r) READCHAN) READCHAN_BITS READCHAN_LSB))
    (fm_get_frequency_range r).

(* The poll interval and the length of the poll read of a task. *)
Definition poll_interval_ms (t : fm_async_task_t) : Z :=
  match t with
  | fm_seek_async_task_ptr => SEEK_POLL_INTERVAL_MS
  | _ => TUNE_POLL_INTERVAL_MS
  end.

Definition poll_bytes (t : fm_async_task_t) : Z :=
  match t with fm_seek_async_task_ptr => 4 | _ => 2 end.

(* The settings a handle caches. *)
Definition cache_of (r : si470x_t) :=
  (config r, seek_sensitivity r, mute r, softmute r, softmute_rate r,
   softmute_attenuation r, mono r, volext r, volume r).

(* The bits of POWERCFG that hold a setting or the power state: ENABLE,
   DISABLE, MONO, DMUTE and DSMUTE. *)
Definition power_setting_bits : list Z := [0; 6; 13; 14; 15].

(* Two register files with the same settings: CHIPID, the three SYSCONFIG
   registers and the setting bits of POWERCFG. *)
Definition regs_kept (l l' : list Z) : Prop :=
  length l' = length l /\
  reg_get l' CHIPID = reg_get l CHIPID /\
  reg_get l' SYSCONFIG1 = reg_get l SYSCONFIG1 /\
  reg_get l' SYSCONFIG2 = reg_get l SYSCONFIG2 /\
  reg_get l' SYSCONFIG3 = reg_get l SYSCONFIG3 /\
  forall k, In k power_setting_bits ->
    fm_get_bit (reg_get l' POWERCFG) (Z.shiftl 1 k) =
    fm_get_bit (reg_get l POWERCFG) (Z.shiftl 1 k).

Definition settings_kept (r r' : si470x_t) : Prop :=
  cache_of r' = cache_of r /\ regs_kept (regs r) (regs r').

(* The start bit a task clears and the register it is in. *)
Definition start_register (t : fm_async_task_t) : Z :=
  match t with fm_seek_async_task_ptr => POWERCFG | _ => CHANNEL end.

Definition start_bit (t : fm_async_task_t) : Z :=
  match t with fm_seek_async_task_ptr => SEEK_BIT | _ => TUNE_BIT end.

(* The answer to a poll of task [t]: in full, with STC as [stc]. *)
Definition poll_reply (t : fm_async_task_t) (rb : Z * list Z) (stc : bool) : Prop :=
  fst rb = poll_bytes t /\ fm_get_bit (status_of (snd rb)) STC_BIT = stc.

(* From transaction [first] on the chip answers [k] polls of [t] with STC
   clear and the next one with STC set; after the write that clears the
   start bit it clears STC within [n] reads. *)
Definition completes_after (w : world) (t : fm_async_task_t) (first k n : nat) : Prop :=
  (forall j, (j < k)%nat -> poll_reply t (bus w (first + j)%nat) false) /\
  poll_reply t (bus w (first + k)%nat) true /\
  chip_settles w (first + k + 2)%nat n.

(* A slot whose task, with poll interval [iv], is due [iv] milliseconds
   after the clock of [w]. *)
Definition task_due_after (iv : Z) (r : si470x_t) (w : world) : Prop :=
  handle_ok r /\ task (async r) <> NULL /\ state (async r) = 1 /\
  poll_interval_ms (task (async r)) = iv /\
  resume_time (async r) = u64 (u64 (time_us w) + iv * 1000).

(** ** Further concrete machines *)

(* A tune to channel 81 of the band started on the playing handle. *)
Definition radio_tuning : si470x_t :=
  Eval vm_compute in
    fst (snd (fm_set_frequency_async
                (fm_channel_to_frequency 81 (fm_get_frequency_range radio_playing))
                (radio_playing, world_start bus_two_zero))).

(* A tune that is complete at the first poll. *)
Definition bus_tune_done (k : nat) : Z * list Z :=
  match k with
  | 0%nat => (2, [0x40; 0x00])
  | _ => (2, [0; 0])
  end.

(* A seek started at transaction 0 that is still under way at the first
   poll and has found channel 7 at the second. *)
Definition bus_seek_found (k : nat) : Z * list Z :=
  match k with
  | 1%nat => (4, [0x00; 0x00; 0x00; 0x05])
  | 2%nat => (4, [0x40; 0x00; 0x00; 0x07])
  | _ => (2, [0; 0])
  end.

(** ** Vocabulary of the cold power-up *)

(* The register file a read of all sixteen registers decodes from a
   buffer. *)
Definition dump (buf : list Z) : list Z :=
  fm_read_registers_loop 16 buf 0 0xA (repeat 0 16).

(* The reset sequence of AN230 as fm_power_up runs it, up to the first bus
   transaction. *)
Definition cold_start_events (r : si470x_t) : list event :=
  [EvGpioInit (reset_pin r); EvGpioDirOut (reset_pin r);
   EvGpioInit (sdio_pin r); EvGpioDirOut (sdio_pin r);
   EvGpioPut (sdio_pin r) false; EvGpioPut (reset_pin r) false; EvSleep 5;
   EvGpioPut (reset_pin r) true; EvSleep 5;
   EvGpioFuncI2C (sdio_pin r); EvGpioFuncI2C (sclk_pin r)]
  ++ (if enable_pull_ups r
      then [EvGpioPullUp (sdio_pin r); EvGpioPullUp (sclk_pin r)]
      else []).

(* The manufacturer and part number fm_power_up checks, and the device
   of CHIPID. *)
Definition mfgid_of (l : list Z) : Z :=
  u16 (fm_get_bits (reg_get l DEVICEID) MFGID_BITS MFGID_LSB).

Definition pn_of (l : list Z) : Z :=
  u8 (fm_get_bits (reg_get l DEVICEID) PN_BITS PN_LSB).

Definition dev_of (l : list Z) : Z :=
  u8 (fm_get_bits (reg_get l CHIPID) DEV_BITS DEV_LSB).

(* The shadow the setup block of fm_power_up leaves: the registers the chip
   returned, with the cached settings and the configuration written into
   POWERCFG and the three SYSCONFIG registers. *)
Definition setup_shadow (cfg : fm_config_t) (r : si470x_t) (chip : list Z) : list Z :=
  let pc :=
    fm_set_bit (fm_set_bit (fm_set_bit (reg_get chip POWERCFG)
                  MONO_BIT (mono r)) DMUTE_BIT (negb (mute r)))
      DSMUTE_BIT (negb (softmute r)) in
  let sc1 :=
    fm_set_bit
      (if dev_of chip =? DEV_SI4703
       then fm_set_bit (reg_get chip SYSCONFIG1) RDS_BIT true
       else reg_get chip SYSCONFIG1)
      DE_BIT
      (match deemphasis cfg with FM_DEEMPHASIS_50 => true | FM_DEEMPHASIS_75 => false end) in
  let sc2 :=
    fm_set_bits
      (fm_set_bits
         (fm_set_bits
            (fm_set_bits (reg_get chip SYSCONFIG2) VOLUME_BITS VOLUME_LSB (volume r))
            BAND_BITS BAND_LSB (band_val (band cfg)))
         SPACE_BITS SPACE_LSB (spacing_val (channel_spacing cfg)))
      SEEKTH_BITS SEEKTH_LSB (fst (fst (seek_thresholds (seek_sensitivity r)))) in
  let sc3 :=
    fm_set_bits
      (fm_set_bits
         (fm_set_bits
            (fm_set_bits
               (fm_set_bit (reg_get chip SYSCONFIG3) VOLEXT_BIT (volext r))
               SMUTEA_BITS SMUTEA_LSB (attenuation_val (softmute_attenuation r)))
            SMUTER_BITS SMUTER_LSB (rate_val (softmute_rate r)))
         SKSNR_BITS SKSNR_LSB (snd (fst (seek_thresholds (seek_sensitivity r)))))
      SKCNT_BITS SKCNT_LSB (snd (seek_thresholds (seek_sensitivity r))) in
  reg_set (reg_set (reg_set (reg_set chip POWERCFG pc) SYSCONFIG1 sc1) SYSCONFIG2 sc2)
    SYSCONFIG3 sc3.

(* What fm_power_up does on its cold path once the reset sequence is over:
   probe the device, start the oscillator, enable, set up. *)
Definition power_up_probe (fuel : nat) (cfg : fm_config_t) : M unit :=
  ok <- fm_read_registers 16 ;;
  (if negb ok then panic else ret tt) ;;
  r1 <- get_radio ;;
  let mfgid := u16 (fm_get_bits (reg_get (regs r1) DEVICEID) MFGID_BITS MFGID_LSB) in
  let pn := u8 (fm_get_bits (reg_get (regs r1) DEVICEID) PN_BITS PN_LSB) in
  assert (mfgid =? 0x242) ;;
  assert (pn =? 0x1) ;;
  modify_reg TEST1 (fun x => u16 (Z.lor x XOSCEN_BIT)) ;;
  modify_reg RDSD (fun _ => 0) ;;
  fm_write_registers_up_to RDSD ;;
  sleep_ms 500 ;;
  modify_reg POWERCFG (fun _ => ENABLE_BIT) ;;
  fm_write_registers_up_to POWERCFG ;;
  sleep_ms 110 ;;
  fm_read_registers 16 ;;
  r2 <- get_radio ;;
  let dev := u8 (fm_get_bits (reg_get (regs r2) CHIPID) DEV_BITS DEV_LSB) in
  assert ((dev =? DEV_SI4702) || (dev =? DEV_SI4703)) ;;
  modify_reg POWERCFG (fun x => fm_set_bit x MONO_BIT (mono r2)) ;;
  modify_reg POWERCFG (fun x => fm_set_bit x DMUTE_BIT (negb (mute r2))) ;;
  modify_reg POWERCFG (fun x => fm_set_bit x DSMUTE_BIT (negb (softmute r2))) ;;
  r3 <- get_radio ;;
  (if fm_is_rds_supported r3
   then modify_reg SYSCONFIG1 (fun x => fm_set_bit x RDS_BIT true)
   else ret tt) ;;
  modify_reg SYSCONFIG1 (fun x => fm_set_bit x DE_BIT
    (match deemphasis cfg with FM_DEEMPHASIS_50 => true | FM_DEEMPHASIS_75 => false end)) ;;
  modify_reg SYSCONFIG2 (fun x => fm_set_bits x VOLUME_BITS VOLUME_LSB (volume r2)) ;;
  modify_reg SYSCONFIG2 (fun x => fm_set_bits x BAND_BITS BAND_LSB (band_val (band cfg))) ;;
  modify_reg SYSCONFIG2
    (fun x => fm_set_bits x SPACE_BITS SPACE_LSB (spacing_val (channel_spacing cfg))) ;;
  modify_reg SYSCONFIG3 (fun x => fm_set_bit x VOLEXT_BIT (volext r2)) ;;
  modify_reg SYSCONFIG3
    (fun x => fm_set_bits x SMUTEA_BITS SMUTEA_LSB (attenuation_val (softmute_attenuation r2))) ;;
  modify_reg SYSCONFIG3
    (fun x => fm_set_bits x SMUTER_BITS SMUTER_LSB (rate_val (softmute_rate r2))) ;;
  modify (fun r => with_regs r (fm_set_seek_sensitivity_bits (regs r) (seek_sensitivity r))) ;;
  fm_write_registers_up_to SYSCONFIG3 ;;
  if negb (F32.eqb (frequency r2) F32.zero) then
    modify (fun r => with_frequency r F32.zero) ;;
    fm_set_frequency_blocking fuel (frequency r2)
  else ret tt.

(** ** Vocabulary of the bands *)

(* The channel fm_frequency_to_channel gives for the top of a band. *)
Definition top_channel (b : fm_band_t) (s : fm_channel_spacing_t) : option Z :=
  fm_frequency_to_channel (top (fm_frequency_range b s)) (fm_frequency_range b s).

(* The frequencies of the channels below [n] all lie in the band. *)
Definition channels_in_band (b : fm_band_t) (s : fm_channel_spacing_t) (n : nat) : bool :=
  forallb (fun k => in_range (fm_channel_to_frequency (Z.of_nat k) (fm_frequency_range b s))
                      (fm_frequency_range b s))
    (seq 0 n).

(* The one band and spacing whose top is not the frequency of a channel. *)
Definition top_off_grid (b : fm_band_t) (s : fm_channel_spacing_t) : bool :=
  match b, s with
  | FM_BAND_COMMON, FM_CHANNEL_SPACING_200 => true
  | _, _ => false
  end.

(* A read of the six registers from STATUSRSSI on that finds an RDS group
   ready. *)
Definition bus_rds_group : nat -> Z * list Z :=
  fun _ => (12, [0x80; 0x00; 0x00; 0x00; 0x12; 0x34; 0x56; 0x78; 0x9A; 0xBC; 0xDE; 0xF0]).

(** ** Vocabulary of the round trip *)

(* The mantissa and the exponent of a finite float. *)
Definition mantissa (x : F32.float) : Z :=
  match x with S754_finite _ m _ => Zpos m | _ => 0 end.

Definition exponent (x : F32.float) : Z :=
  match x with S754_finite _ _ e => e | _ => 0 end.

(* A positive float with exponent -17, as the frequencies from 64 MHz to
   128 MHz are: its value in units of 2^-17 MHz. *)
Definition mhz_units (x : F32.float) : option Z :=
  match x with
  | S754_finite false m e => if e =? -17 then Some (Zpos m) else None
  | _ => None
  end.

(* The furthest the frequency of its channel is from a frequency of the
   band, in units of 2^-17 MHz: half the spacing rounded down with 200 kHz,
   rounded up with 100 kHz and 50 kHz. *)
Definition reach (s : fm_channel_spacing_t) : Z :=
  match s with
  | FM_CHANNEL_SPACING_200 => 13107
  | FM_CHANNEL_SPACING_100 => 6554
  | FM_CHANNEL_SPACING_50 => 3277
  end.

(* The exponent of the three spacings. *)
Definition spacing_exponent (s : fm_channel_spacing_t) : Z :=
  match s with
  | FM_CHANNEL_SPACING_200 => -26
  | FM_CHANNEL_SPACING_100 => -27
  | FM_CHANNEL_SPACING_50 => -28
  end.

(* The quotient (f - bottom) / spacing of a frequency [d] units above the
   bottom of the band is d * 2^-17 / (ms * 2^es); the division and roundf
   give it channel [c] only if, [d] scaled by [quotient_scale],
   (2c - 1) * ms * (2^24 - 1) <= d * scale < (2c + 1) * ms * (2^24 + 1). *)
Definition quotient_scale (r : fm_frequency_range_t) : Z :=
  2 ^ (8 - exponent (spacing r)).

Definition channel_low (r : fm_frequency_range_t) (c : Z) : Z :=
  (2 * c - 1) * (mantissa (spacing r) * (2 ^ 24 - 1)).

Definition channel_high (r : fm_frequency_range_t) (c : Z) : Z :=
  (2 * c + 1) * (mantissa (spacing r) * (2 ^ 24 + 1)).

(* The frequency of channel [c] is within [reach] of every frequency of the
   band that those bounds leave to the channel. *)
Definition channel_reaches (b : fm_band_t) (s : fm_channel_spacing_t) (c : Z) : bool :=
  let r := fm_frequency_range b s in
  let k := quotient_scale r in
  let width := mantissa (top r) - mantissa (bottom r) in
  (width * k <? channel_low r c) ||
  match mhz_units (fm_channel_to_frequency c r) with
  | Some mc =>
      let d := mc - mantissa (bottom r) in
      ((d - reach s <=? 0) || ((d - reach s - 1) * k <? channel_low r c)) &&
      ((width <=? d + reach s) || (channel_high r c <=? (d + reach s + 1) * k))
  | None => false
  end.

Definition channels_reach (b : fm_band_t) (s : fm_channel_spacing_t) (n : nat) : bool :=
  forallb (fun k => channel_reaches b s (Z.of_nat k)) (seq 0 n).

(* The frequency of channel [c] as the exact sum, and what binary32 makes
   of it, differ by at most [err]. *)
Definition channel_frequency_error (r : fm_frequency_range_t) (c : Z) : Q :=
  Qabs (float_value (fm_channel_to_frequency c r)
        - (inject_Z c * float_value (spacing r) + float_value (bottom r))).

Definition channel_frequencies_exact (r : fm_frequency_range_t) (err : Q) (n : nat) : bool :=
  forallb (fun k => Qle_bool (channel_frequency_error r (Z.of_nat k)) err) (seq 0 n).
(** ** Running driver code *)

Ltac run :=
  unfold bind, get_radio, put_radio, assert, ret, modify; cbn [fst snd].

(** * Properties *)

(** ** Basic facts *)

Lemma task_eqb_eq (a b : fm_async_task_t) : task_eqb a b = true <-> a = b.
Proof. destruct a, b; simpl; split; congruence. Qed.

Lemma task_eqb_NULL_false (a : fm_async_task_t) :
  a <> NULL -> task_eqb a NULL = false.
Proof. destruct a; simpl; congruence. Qed.

Lemma seek_sensitivity_eqb_refl (a : fm_seek_sensitivity_t) :
  seek_sensitivity_eqb a a = true.
Proof. destruct a; reflexivity. Qed.

Lemma config_eqb_eq (a b : fm_config_t) : config_eqb a b = true <-> a = b.
Proof.
  destruct a as [b1 s1 d1], b as [b2 s2 d2]; split.
  - destruct b1, b2, s1, s2, d1, d2; cbn; intros E; (reflexivity || discriminate E).
  - intros E; inversion E; subst. destruct b2, s2, d2; reflexivity.
Qed.

(** ** The async slot gate *)

(** C4. Called while the clock is strictly before the slot's resume time,
    fm_async_task_tick returns [{done = false}] at once: the handle and the
    world, and with it the trace of bus transactions, are what they were. *)
Theorem tick_before_resume_time (fuel : nat) (r : si470x_t) (w : world) :
  task (async r) <> NULL ->
  u64 (time_us w) < resume_time (async r) ->
  fm_async_task_tick fuel (r, w) = (Ret (mk_progress false 0), (r, w)) /\
  bus_transactions (snd (snd (fm_async_task_tick fuel (r, w)))) = bus_transactions w.
Proof.
  intros Ht Hlt.
  assert (E : fm_async_task_tick fuel (r, w) = (Ret (mk_progress false 0), (r, w))).
  { unfold fm_async_task_tick, time_us_64. run.
    rewrite (task_eqb_NULL_false _ Ht). cbn.
    apply Z.ltb_lt in Hlt. rewrite Hlt. reflexivity. }
  rewrite E. auto.
Qed.

(** C3. A call of fm_set_frequency_async or of fm_seek_async while the slot
    holds a task stops at the assertion, before anything is changed: the
    handle and the world, and with it the trace of bus transactions, are what
    they were.  No call made with a task in the slot returns: starting a task
    requires the slot to be empty. *)
Theorem async_start_requires_empty_slot
    (f : F32.float) (d : fm_seek_direction_t) (r : si470x_t) (w : world) :
  task (async r) <> NULL ->
  fm_set_frequency_async f (r, w) = (AssertFailed, (r, w)) /\
  fm_seek_async d (r, w) = (AssertFailed, (r, w)) /\
  (forall m', fm_set_frequency_async f (r, w) <> (Ret tt, m')) /\
  (forall m', fm_seek_async d (r, w) <> (Ret tt, m')).
Proof.
  intros Ht.
  assert (A : fm_set_frequency_async f (r, w) = (AssertFailed, (r, w)) /\
              fm_seek_async d (r, w) = (AssertFailed, (r, w))).
  { unfold fm_set_frequency_async, fm_seek_async. run.
    rewrite (task_eqb_NULL_false _ Ht).
    destruct (fm_is_powered_up r); auto. }
  destruct A as [A1 A2]. rewrite A1, A2.
  repeat split; intros m' E; discriminate E.
Qed.

(** ** Register window *)

Lemma fm_write_registers_up_to_run (i : Z) (r : si470x_t) (w : world) :
  2 <= i <= 15 ->
  fm_write_registers_up_to i (r, w) =
    (Ret (fst (bus w (txn w)) =? (i - 1) * 2),
     (r, emit (EvWrite (fm_write_registers_loop (Z.to_nat (i - 1)) (regs r) 2)
                       (fst (bus w (txn w))))
              (next_txn w))).
Proof.
  intros Hi. unfold fm_write_registers_up_to, fm_write_registers, i2c_write_blocking. run.
  replace (2 <=? i) with true by (symmetry; apply Z.leb_le; lia).
  replace (i <=? 15) with true by (symmetry; apply Z.leb_le; lia).
  cbn. replace (i - 1 <=? 14) with true by (symmetry; apply Z.leb_le; lia).
  reflexivity.
Qed.

Lemma fm_read_registers_up_to_run (i : Z) (r : si470x_t) (w : world) :
  0 <= i < 16 ->
  fm_read_registers_up_to i (r, w) =
    let n := if i <? 0xA then i + 7 else i - 9 in
    let rb := bus w (txn w) in
    let w' := emit (EvRead (n * 2) (fst rb)) (next_txn w) in
    if fst rb =? n * 2
    then (Ret true,
          (with_regs r (fm_read_registers_loop (Z.to_nat n) (snd rb) 0 0xA (regs r)), w'))
    else (Ret false, (r, w')).
Proof.
  intros Hi. unfold fm_read_registers_up_to, fm_read_registers, i2c_read_blocking. run.
  replace (i <? 16) with true by (symmetry; apply Z.ltb_lt; lia).
  cbn zeta.
  set (n := if i <? 10 then i + 7 else i - 9).
  assert (Hn : n <= 16) by (subst n; destruct (Z.ltb_spec i 10); lia).
  replace (n <=? 16) with true by (symmetry; apply Z.leb_le; lia).
  cbn [fst snd]. destruct (bus w (txn w)) as [res buf]. cbn [fst snd].
  destruct (res =? n * 2); reflexivity.
Qed.

Lemma fm_write_registers_loop_order (n : nat) (regs : list Z) (p : Z) :
  fm_write_registers_loop n regs p =
  flat_map be16 (map (reg_get regs) (write_order n p)).
Proof.
  revert p. induction n as [|n IH]; intros p; simpl; [reflexivity|].
  rewrite IH. reflexivity.
Qed.

Lemma fm_write_registers_loop_length (n : nat) (regs : list Z) (p : Z) :
  length (fm_write_registers_loop n regs p) = (2 * n)%nat.
Proof.
  revert p. induction n as [|n IH]; intros p; simpl; [reflexivity|].
  rewrite IH. lia.
Qed.

Lemma minimal_count_by_computation (order : nat -> list Z) (n : nat) (r : Z) :
  reaches order n r = true ->
  forallb (fun k => negb (reaches order k r)) (seq 0 n) = true ->
  minimal_count order n r.
Proof.
  intros Hr Hall. split; [exact Hr|].
  intros k Hk. rewrite forallb_forall in Hall.
  specialize (Hall k). rewrite in_seq in Hall.
  apply negb_true_iff. apply Hall. lia.
Qed.

Lemma small_index_cases (i : Z) (P : Z -> Prop) :
  0 <= i <= 15 ->
  P 0 -> P 1 -> P 2 -> P 3 -> P 4 -> P 5 -> P 6 -> P 7 ->
  P 8 -> P 9 -> P 10 -> P 11 -> P 12 -> P 13 -> P 14 -> P 15 -> P i.
Proof.
  intros Hi.
  assert (E : i = 0 \/ i = 1 \/ i = 2 \/ i = 3 \/ i = 4 \/ i = 5 \/ i = 6 \/ i = 7 \/
              i = 8 \/ i = 9 \/ i = 10 \/ i = 11 \/ i = 12 \/ i = 13 \/ i = 14 \/ i = 15)
    by lia.
  intuition (subst; assumption).
Qed.

Lemma read_count_formula (i : Z) :
  0 <= i <= 15 -> (if i <? 0xA then i + 7 else i - 9) = (i - 0xA) mod 16 + 1.
Proof.
  intros Hi. pattern i. apply small_index_cases; [exact Hi | reflexivity ..].
Qed.

Lemma read_count_minimal (i : Z) :
  0 <= i <= 15 ->
  minimal_count (fun k => read_order k 0xA) (Z.to_nat ((i - 0xA) mod 16 + 1)) i.
Proof.
  intros Hi. pattern i. apply small_index_cases; [exact Hi | ..];
    apply minimal_count_by_computation; vm_compute; reflexivity.
Qed.

Lemma write_count_minimal (i : Z) :
  2 <= i <= 15 ->
  minimal_count (fun k => write_order k 0x2) (Z.to_nat (i - 1)) i.
Proof.
  intros Hi.
  assert (Hi' : 0 <= i <= 15) by lia.
  revert Hi. pattern i. apply small_index_cases; [exact Hi' | ..]; intros Hi;
    try lia; apply minimal_count_by_computation; vm_compute; reflexivity.
Qed.

Lemma list16 (l : list Z) :
  length l = 16%nat ->
  exists a0 a1 a2 a3 a4 a5 a6 a7 a8 a9 a10 a11 a12 a13 a14 a15,
    l = [a0; a1; a2; a3; a4; a5; a6; a7; a8; a9; a10; a11; a12; a13; a14; a15].
Proof.
  intros H.
  do 16 (destruct l as [|? l]; [discriminate H|]).
  destruct l; [|discriminate H].
  repeat eexists.
Qed.

Lemma list_set_length (l : list Z) (i : nat) (v : Z) :
  length (list_set l i v) = length l.
Proof.
  revert i; induction l as [|h t IH]; intros [|i]; simpl; auto.
Qed.

Lemma reg_set_length (l : list Z) (i v : Z) : length (reg_set l i v) = length l.
Proof. apply list_set_length. Qed.

Lemma fm_read_registers_loop_length (n : nat) (buf : list Z) (i : nat) (p : Z)
    (l : list Z) :
  length (fm_read_registers_loop n buf i p l) = length l.
Proof.
  revert i p l. induction n as [|n IH]; intros i p l; simpl; [reflexivity|].
  rewrite IH. apply reg_set_length.
Qed.

(* The register a burst read of [n] registers ends on holds the last two
   bytes received. *)
Lemma read_reaches_target (i : Z) (buf l : list Z) :
  0 <= i <= 15 -> length l = 16%nat ->
  let n := Z.to_nat ((i - 0xA) mod 16 + 1) in
  reg_get (fm_read_registers_loop n buf 0 0xA l) i =
  u16 (Z.lor (u16 (Z.shiftl (buf_get buf (2 * (n - 1))) 8))
             (buf_get buf (2 * (n - 1) + 1))).
Proof.
  intros Hi Hl.
  destruct (list16 l Hl) as
    (a0 & a1 & a2 & a3 & a4 & a5 & a6 & a7 & a8 & a9 & a10 & a11 & a12 & a13 & a14 & a15 & ->).
  pattern i. apply small_index_cases; [exact Hi | reflexivity ..].
Qed.

(** C8. For a target register [i] in 0x0..0xF, fm_read_registers_up_to makes
    one bus transaction, a read of [((i - 0xA) mod 16) + 1] registers (two
    bytes each); that count is the least that reaches [i] in the read order,
    which starts at 0xA and goes from 0xF on to 0x0, and a read answered in
    full leaves the last register received in [regs[i]].  For [i] in 0x2..0xF,
    fm_write_registers_up_to makes one bus transaction, a write of [i - 1]
    registers, the shadow registers 0x2 to [i] high byte first; that count is
    the least that reaches [i] in the write order, which starts at 0x2. *)
Theorem burst_count_minimal (r : si470x_t) (w : world) (i : Z) :
  handle_ok r ->
  0 <= i <= 0xF ->
  (let n := (i - 0xA) mod 16 + 1 in
   let rb := bus w (txn w) in
   exists ok r',
     fm_read_registers_up_to i (r, w) =
       (Ret ok, (r', emit (EvRead (n * 2) (fst rb)) (next_txn w))) /\
     minimal_count (fun k => read_order k 0xA) (Z.to_nat n) i /\
     (ok = true ->
      reg_get (regs r') i =
      u16 (Z.lor (u16 (Z.shiftl (buf_get (snd rb) (2 * (Z.to_nat n - 1))) 8))
                 (buf_get (snd rb) (2 * (Z.to_nat n - 1) + 1))))) /\
  (0x2 <= i ->
   let n := i - 1 in
   exists ok data,
     fm_write_registers_up_to i (r, w) =
       (Ret ok, (r, emit (EvWrite data (fst (bus w (txn w)))) (next_txn w))) /\
     data = flat_map be16 (map (reg_get (regs r)) (write_order (Z.to_nat n) 0x2)) /\
     Z.of_nat (length data) = n * 2 /\
     minimal_count (fun k => write_order k 0x2) (Z.to_nat n) i).
Proof.
  intros Hok Hi. split; [|intros Hi2]; cbn zeta.
  - rewrite fm_read_registers_up_to_run by lia. cbn zeta.
    rewrite (read_count_formula i Hi).
    destruct (fst (bus w (txn w)) =? ((i - 10) mod 16 + 1) * 2) eqn:E.
    + eexists true, _. split; [reflexivity|]. split; [apply read_count_minimal; exact Hi|].
      intros _. cbn [regs]. apply read_reaches_target; assumption.
    + eexists false, _. split; [reflexivity|]. split; [apply read_count_minimal; exact Hi|].
      discriminate.
  - rewrite fm_write_registers_up_to_run by lia.
    eexists _, _. split; [reflexivity|].
    split; [apply fm_write_registers_loop_order|].
    split; [|apply write_count_minimal; lia].
    rewrite fm_write_registers_loop_length. lia.
Qed.

(** ** Setting a value to what it is *)

(* roundf goes to the nearest integer, and away from zero halfway. *)
Lemma F32_roundf_examples :
  F32.roundf (F32.div (F32.of_int 1) (F32.of_int 2)) = F32.of_int 1 /\
  F32.roundf (F32.div (F32.of_int 5) (F32.of_int 2)) = F32.of_int 3 /\
  F32.roundf (F32.div (F32.of_int (-5)) (F32.of_int 2)) = F32.of_int (-3) /\
  F32.roundf (F32.div (F32.of_int 7) (F32.of_int 5)) = F32.of_int 1 /\
  F32.roundf (F32.div (F32.of_int 8) (F32.of_int 5)) = F32.of_int 2 /\
  F32.roundf (F32.of_int 1023) = F32.of_int 1023 /\
  F32.to_uint16 (F32.of_int 1023) = Some 1023 /\
  F32.to_uint16 (F32.of_int (-1)) = None /\
  F32.to_uint16 (F32.of_int 65536) = None.
Proof. vm_compute. repeat split. Qed.

(* The float literals of the source are the correctly rounded quotients. *)
Lemma F32_literals :
  F32.f0_2 = F32.div (F32.of_int 1) (F32.of_int 5) /\
  F32.f0_1 = F32.div (F32.of_int 1) (F32.of_int 10) /\
  F32.f0_05 = F32.div (F32.of_int 1) (F32.of_int 20) /\
  F32.f87_5 = F32.div (F32.of_int 175) (F32.of_int 2) /\
  F32.f76_0 = F32.of_int 76 /\ F32.f90_0 = F32.of_int 90 /\ F32.f108_0 = F32.of_int 108.
Proof. vm_compute. repeat split. Qed.

Lemma F32_eqb_refl_finite (x : F32.float) :
  x <> S754_nan -> F32.eqb x x = true.
Proof.
  unfold F32.eqb, SFeqb. destruct x as [s|s| |s m e]; intros H; simpl.
  - reflexivity.
  - destruct s; reflexivity.
  - congruence.
  - rewrite Z.compare_refl. destruct s; simpl;
      rewrite ?Pos.compare_cont_refl; reflexivity.
Qed.

(** C10. Each setter, called on a powered-up handle with no task in flight
    and with the value the handle has cached, returns at once: the handle
    and the world, and with it the trace of bus transactions, are what they
    were.  For fm_set_volume the value is the pair of the volume clamped to
    15 and the volext flag; for fm_set_frequency_blocking equality is that of
    the C operator [==] on floats. *)
Theorem setters_skip_cached_value (fuel : nat) (r : si470x_t) (w : world) :
  fm_is_powered_up r = true ->
  task (async r) = NULL ->
  fm_set_mute (fm_get_mute r) (r, w) = (Ret tt, (r, w)) /\
  fm_set_softmute (fm_get_softmute r) (r, w) = (Ret tt, (r, w)) /\
  fm_set_softmute_rate (fm_get_softmute_rate r) (r, w) = (Ret tt, (r, w)) /\
  fm_set_softmute_attenuation (fm_get_softmute_attenuation r) (r, w) = (Ret tt, (r, w)) /\
  fm_set_mono (fm_get_mono r) (r, w) = (Ret tt, (r, w)) /\
  fm_set_seek_sensitivity (fm_get_seek_sensitivity r) (r, w) = (Ret tt, (r, w)) /\
  (forall v, Z.min v FM_MAX_VOLUME = fm_get_volume r ->
     fm_set_volume v (fm_get_volext r) (r, w) = (Ret tt, (r, w))) /\
  (forall f, F32.eqb (fm_get_frequency r) f = true ->
     fm_set_frequency_blocking fuel f (r, w) = (Ret tt, (r, w))) /\
  (fm_get_frequency r <> S754_nan ->
     fm_set_frequency_blocking fuel (fm_get_frequency r) (r, w) = (Ret tt, (r, w))).
Proof.
  intros Hp Ht.
  unfold fm_set_mute, fm_set_softmute, fm_set_softmute_rate,
    fm_set_softmute_attenuation, fm_set_mono, fm_set_seek_sensitivity,
    fm_set_volume, fm_set_frequency_blocking,
    fm_get_mute, fm_get_softmute, fm_get_softmute_rate,
    fm_get_softmute_attenuation, fm_get_mono, fm_get_seek_sensitivity,
    fm_get_volume, fm_get_volext, fm_get_frequency.
  run. rewrite Hp, Ht. cbn [task_eqb].
  rewrite !Bool.eqb_reflx, !Z.eqb_refl, seek_sensitivity_eqb_refl.
  repeat split.
  - intros v Hv. rewrite Hv, Z.eqb_refl. reflexivity.
  - intros f Hf. rewrite Hf. reflexivity.
  - intros Hn. rewrite (F32_eqb_refl_finite _ Hn). reflexivity.
Qed.

(** ** Volume remapping *)

Lemma fm_set_volume_run (v : Z) (ext : bool) (r : si470x_t) (w : world) :
  fm_is_powered_up r = true ->
  task (async r) = NULL ->
  exists r' w',
    fm_set_volume v ext (r, w) = (Ret tt, (r', w')) /\
    volume r' = Z.min v FM_MAX_VOLUME /\ volext r' = ext.
Proof.
  intros Hp Ht. unfold fm_set_volume. run. rewrite Hp, Ht. cbn [task_eqb].
  destruct ((volume r =? Z.min v FM_MAX_VOLUME) && Bool.eqb (volext r) ext) eqn:E.
  - exists r, w. apply andb_true_iff in E. destruct E as [E1 E2].
    apply Z.eqb_eq in E1. apply Bool.eqb_prop in E2. auto.
  - unfold modify_reg. run. rewrite fm_write_registers_up_to_run by (cbv; split; discriminate).
    eexists _, _. split; [reflexivity|]. split; reflexivity.
Qed.

(** C1. On a powered-up handle with no task in flight, set_volume with a
    volume in 0..30 returns, and get_volume then gives that volume back.
    The handle keeps a hardware level in 0..15 and the extension flag:
    volumes 1..15 are levels 1..15 with the flag set, volumes 16..30 are
    levels 1..15 with the flag clear, and level 0 reads as volume 0 with
    either flag. *)
Theorem volume_round_trip (r : si470x_t) (w : world) (v : Z) :
  fm_is_powered_up r = true ->
  task (async r) = NULL ->
  0 <= v <= 30 ->
  exists r' w',
    set_volume v (r, w) = (Ret tt, (r', w')) /\
    get_volume r' = v /\
    0 <= fm_get_volume r' <= 15 /\
    (1 <= v <= 15 -> fm_get_volume r' = v /\ fm_get_volext r' = true) /\
    (16 <= v -> fm_get_volume r' = v - 15 /\ fm_get_volext r' = false) /\
    (v = 0 -> fm_get_volume r' = 0 /\
              get_volume (with_volext r' true) = 0 /\
              get_volume (with_volext r' false) = 0).
Proof.
  intros Hp Ht Hv. unfold set_volume. run.
  replace (v <=? 30) with true by (symmetry; apply Z.leb_le; lia).
  destruct (Z.ltb_spec v 16) as [Hlo | Hhi].
  - destruct (fm_set_volume_run v true r w Hp Ht) as (r' & w' & E & Hvol & Hext).
    exists r', w'. rewrite E.
    assert (Hvol' : volume r' = v) by (rewrite Hvol; unfold FM_MAX_VOLUME; lia).
    unfold get_volume, fm_get_volume, fm_get_volext. cbn [volume volext with_volext].
    rewrite Hvol', Hext.
    split; [reflexivity|]. split; [rewrite andb_false_r; reflexivity|].
    split; [lia|]. split; [auto|]. split; [lia|].
    intros H0. rewrite H0. repeat split; reflexivity.
  - assert (Hu : u8 (v - 15) = v - 15) by (unfold u8; apply Z.mod_small; lia).
    rewrite Hu.
    destruct (fm_set_volume_run (v - 15) false r w Hp Ht) as (r' & w' & E & Hvol & Hext).
    exists r', w'. rewrite E.
    assert (Hvol' : volume r' = v - 15) by (rewrite Hvol; unfold FM_MAX_VOLUME; lia).
    unfold get_volume, fm_get_volume, fm_get_volext. cbn [volume volext with_volext].
    rewrite Hvol', Hext.
    replace (v - 15 =? 0) with false by (symmetry; apply Z.eqb_neq; lia).
    cbn [negb andb].
    replace (u8 (v - 15 + 15)) with v by (unfold u8; rewrite Z.mod_small; lia).
    split; [reflexivity|]. split; [reflexivity|].
    split; [lia|]. split; [lia|]. split; [auto|]. lia.
Qed.

(** ** Bit fields *)

Lemma fm_get_bit_testbit (x k : Z) :
  0 <= k -> fm_get_bit x (Z.shiftl 1 k) = Z.testbit x k.
Proof.
  intros Hk. unfold fm_get_bit. rewrite Z.shiftl_1_l.
  destruct (Z.testbit x k) eqn:E.
  - apply negb_true_iff, Z.eqb_neq. intros H0.
    assert (B : Z.testbit (Z.land x (2 ^ k)) k = true)
      by (rewrite Z.land_spec, E, Z.pow2_bits_true by lia; reflexivity).
    rewrite H0, Z.bits_0 in B. discriminate.
  - apply negb_false_iff, Z.eqb_eq. apply Z.bits_inj'. intros n Hn.
    rewrite Z.land_spec, Z.bits_0, Z.pow2_bits_eqb by lia.
    destruct (Z.eqb_spec k n); [subst; rewrite E; reflexivity | apply andb_false_r].
Qed.

Lemma u16_testbit (x j : Z) : 0 <= j < 16 -> Z.testbit (u16 x) j = Z.testbit x j.
Proof. intros Hj. unfold u16. apply Z.mod_pow2_bits_low. lia. Qed.

Lemma fm_set_bit_testbit (x k j : Z) (v : bool) :
  0 <= k < 16 -> 0 <= j < 16 ->
  Z.testbit (fm_set_bit x (Z.shiftl 1 k) v) j =
  if j =? k then v else Z.testbit x j.
Proof.
  intros Hk Hj. unfold fm_set_bit. rewrite Z.shiftl_1_l.
  destruct v; rewrite u16_testbit by lia.
  - rewrite Z.lor_spec, Z.pow2_bits_eqb by lia. rewrite (Z.eqb_sym k j).
    destruct (j =? k); [apply orb_true_r | apply orb_false_r].
  - rewrite Z.land_spec, Z.lnot_spec, Z.pow2_bits_eqb by lia. rewrite (Z.eqb_sym k j).
    destruct (j =? k); [apply andb_false_r | apply andb_true_r].
Qed.

Lemma fm_get_set_bit (x k j : Z) (v : bool) :
  0 <= k < 16 -> 0 <= j < 16 ->
  fm_get_bit (fm_set_bit x (Z.shiftl 1 k) v) (Z.shiftl 1 j) =
  if j =? k then v else fm_get_bit x (Z.shiftl 1 j).
Proof.
  intros Hk Hj. rewrite !fm_get_bit_testbit by lia. apply fm_set_bit_testbit; assumption.
Qed.

(** ** The register shadow *)

Lemma list_set_nth_same (l : list Z) (i : nat) (v d : Z) :
  (i < length l)%nat -> nth i (list_set l i v) d = v.
Proof.
  revert i; induction l as [|h t IH]; intros [|i] H; simpl in *; try lia; auto.
  apply IH. lia.
Qed.

Lemma list_set_nth_other (l : list Z) (i j : nat) (v d : Z) :
  i <> j -> nth j (list_set l i v) d = nth j l d.
Proof.
  revert i j; induction l as [|h t IH]; intros [|i] [|j] H; simpl; auto; try lia.
Qed.

Lemma reg_get_set_same (l : list Z) (i v : Z) :
  0 <= i < Z.of_nat (length l) -> reg_get (reg_set l i v) i = v.
Proof. intros H. apply list_set_nth_same. lia. Qed.

Lemma reg_get_set_other (l : list Z) (i j v : Z) :
  0 <= i -> 0 <= j -> i <> j -> reg_get (reg_set l i v) j = reg_get l j.
Proof. intros Hi Hj H. apply list_set_nth_other. lia. Qed.

Lemma with_regs_same (r : si470x_t) : with_regs r (regs r) = r.
Proof. destruct r; reflexivity. Qed.

Lemma agree_except_refl (skip l : list Z) : agree_except skip l l.
Proof. split; auto. Qed.

Lemma agree_except_trans (skip l1 l2 l3 : list Z) :
  agree_except skip l1 l2 -> agree_except skip l2 l3 -> agree_except skip l1 l3.
Proof.
  intros [L1 A1] [L2 A2]. split; [congruence|].
  intros j Hj Hn. rewrite A2, A1; auto.
Qed.

Lemma agree_except_weaken (s1 s2 l l' : list Z) :
  incl s1 s2 -> agree_except s1 l l' -> agree_except s2 l l'.
Proof.
  intros Hs [L A]. split; [exact L|]. intros j Hj Hn. apply A; auto.
Qed.

Lemma agree_except_reg_set (skip l : list Z) (i v : Z) :
  0 <= i -> In i skip -> agree_except skip l (reg_set l i v).
Proof.
  intros Hi Hin. split; [apply reg_set_length|].
  intros j Hj Hn. apply reg_get_set_other; auto. intros ->. contradiction.
Qed.

Lemma read_one_register (buf l : list Z) :
  fm_read_registers_loop (Z.to_nat 1) buf 0 0xA l = reg_set l STATUSRSSI (status_of buf).
Proof. reflexivity. Qed.

Lemma read_two_registers (buf l : list Z) :
  agree_except [STATUSRSSI; READCHAN] l (fm_read_registers_loop (Z.to_nat 2) buf 0 0xA l).
Proof.
  cbn. eapply agree_except_trans; apply agree_except_reg_set; cbn; auto; lia.
Qed.

(* What a read up to READCHAN may change: registers 0xA and 0xB. *)
Lemma read_up_to_READCHAN_frame (r : si470x_t) (w : world) :
  exists ok l',
    fm_read_registers_up_to READCHAN (r, w) =
      (Ret ok, (with_regs r l', emit (EvRead 4 (fst (bus w (txn w)))) (next_txn w))) /\
    agree_except [STATUSRSSI; READCHAN] (regs r) l'.
Proof.
  rewrite fm_read_registers_up_to_run by (cbv; split; [discriminate | reflexivity]).
  cbn zeta. change (if READCHAN <? 10 then READCHAN + 7 else READCHAN - 9) with 2.
  change (2 * 2) with 4.
  destruct (fst (bus w (txn w)) =? 4).
  - eexists _, _. split; [reflexivity|]. apply read_two_registers.
  - exists false, (regs r). rewrite with_regs_same.
    split; [reflexivity | apply agree_except_refl].
Qed.


(** ** The wait for STC to clear *)

Lemma wait_stc_cleared_step (fuel : nat) (r : si470x_t) (w : world) :
  wait_stc_cleared (S fuel) (r, w) =
    let rb := bus w (txn w) in
    let w' := emit (EvRead 2 (fst rb)) (next_txn w) in
    let r' := if fst rb =? 2
              then with_regs r (reg_set (regs r) STATUSRSSI (status_of (snd rb)))
              else r in
    if fm_get_bit (reg_get (regs r') STATUSRSSI) STC_BIT
    then wait_stc_cleared fuel (r', w')
    else (Ret tt, (r', w')).
Proof.
  cbn [wait_stc_cleared]. unfold bind at 1.
  rewrite fm_read_registers_up_to_run by (cbv; split; [discriminate | reflexivity]).
  cbn zeta. change (if STATUSRSSI <? 10 then STATUSRSSI + 7 else STATUSRSSI - 9) with 1.
  change (1 * 2) with 2.
  destruct (fst (bus w (txn w)) =? 2); run; rewrite ?read_one_register;
    match goal with |- context [fm_get_bit ?a ?b] => destruct (fm_get_bit a b) end;
    reflexivity.
Qed.

(* Whatever the bus answers, the wait either returns with STC clear in the
   shadow or outlives the fuel; it changes STATUSRSSI only. *)
Lemma wait_stc_cleared_frame (fuel : nat) (r : si470x_t) (w : world) :
  exists l' w',
    agree_except [STATUSRSSI] (regs r) l' /\
    ((wait_stc_cleared fuel (r, w) = (Ret tt, (with_regs r l', w')) /\
      fm_get_bit (reg_get l' STATUSRSSI) STC_BIT = false) \/
     wait_stc_cleared fuel (r, w) = (Spinning, (with_regs r l', w'))).
Proof.
  revert r w. induction fuel as [|fuel IH]; intros r w.
  - exists (regs r), w. rewrite with_regs_same.
    split; [apply agree_except_refl | right; reflexivity].
  - rewrite wait_stc_cleared_step. cbn zeta.
    set (w1 := emit _ _).
    destruct (fst (bus w (txn w)) =? 2).
    + set (l1 := reg_set (regs r) STATUSRSSI _).
      assert (A1 : agree_except [STATUSRSSI] (regs r) l1)
        by (apply agree_except_reg_set; cbn; auto; discriminate).
      cbn [regs with_regs].
      destruct (fm_get_bit (reg_get l1 STATUSRSSI) STC_BIT) eqn:E.
      * destruct (IH (with_regs r l1) w1) as (l' & w' & A & H).
        exists l', w'. split; [eapply agree_except_trans; eassumption|].
        exact H.
      * exists l1, w1. split; [exact A1 | left; split; [reflexivity | exact E]].
    + destruct (fm_get_bit (reg_get (regs r) STATUSRSSI) STC_BIT) eqn:E.
      * apply IH.
      * exists (regs r), w1. rewrite with_regs_same.
        split; [apply agree_except_refl | left; split; [reflexivity | exact E]].
Qed.

(* With a chip that settles within the fuel, the wait returns. *)
Lemma wait_stc_cleared_returns (fuel : nat) (r : si470x_t) (w : world) (n : nat) :
  handle_ok r -> chip_settles w (txn w) n -> (n <= fuel)%nat ->
  exists m', wait_stc_cleared fuel (r, w) = (Ret tt, m').
Proof.
  revert r w n. induction fuel as [|fuel IH]; intros r w n Hok (k & Hk & Hs) Hn.
  - lia.
  - rewrite wait_stc_cleared_step. cbn zeta.
    set (w1 := emit _ _).
    assert (Hlen : 0 <= STATUSRSSI < Z.of_nat (length (regs r)))
      by (rewrite Hok; cbv; split; [discriminate | reflexivity]).
    destruct (fst (bus w (txn w)) =? 2) eqn:E2.
    + cbn [regs with_regs]. rewrite reg_get_set_same by exact Hlen.
      destruct (fm_get_bit (status_of (snd (bus w (txn w)))) STC_BIT) eqn:E;
        [|eexists; reflexivity].
      destruct k as [|k].
      * rewrite Nat.add_0_r in Hs. unfold stc_clear_reply in Hs.
        rewrite E, andb_false_r in Hs. discriminate.
      * apply (IH _ w1 (Nat.pred n)); [| exists k; split; [lia|] | lia].
        -- unfold handle_ok. cbn [regs with_regs]. rewrite reg_set_length. exact Hok.
        -- subst w1. cbn [bus txn emit next_txn].
           replace (S (txn w) + k)%nat with (txn w + S k)%nat by lia. exact Hs.
    + destruct (fm_get_bit (reg_get (regs r) STATUSRSSI) STC_BIT) eqn:E;
        [|eexists; reflexivity].
      destruct k as [|k].
      * rewrite Nat.add_0_r in Hs. unfold stc_clear_reply in Hs.
        rewrite E2 in Hs. discriminate.
      * apply (IH _ w1 (Nat.pred n)); [exact Hok | exists k; split; [lia|] | lia].
        subst w1. cbn [bus txn emit next_txn].
        replace (S (txn w) + k)%nat with (txn w + S k)%nat by lia. exact Hs.
Qed.

(** ** The task functions *)

Lemma task_cleanup_frame (i bit : Z) (fuel : nat) (res : Z) (r : si470x_t) (w : world) :
  2 <= i <= 15 ->
  exists l' w',
    agree_except [STATUSRSSI; READCHAN]
      (reg_set (regs r) i (fm_set_bit (reg_get (regs r) i) bit false)) l' /\
    ((exists f',
        task_cleanup i bit fuel res (r, w) =
          (Ret (mk_progress true res), (with_frequency (with_regs r l') f', w'))) \/
     task_cleanup i bit fuel res (r, w) = (Spinning, (with_regs r l', w'))).
Proof.
  intros Hi.
  remember (task_cleanup i bit fuel res (r, w)) as X eqn:EX.
  unfold task_cleanup, modify_reg in EX.
  unfold bind at 1 in EX. unfold modify at 1 in EX. cbn [fst snd] in EX.
  unfold bind at 1 in EX. rewrite fm_write_registers_up_to_run in EX by exact Hi.
  set (r1 := with_regs r _) in EX. set (w1 := emit _ _) in EX.
  unfold bind at 1 in EX.
  destruct (wait_stc_cleared_frame fuel r1 w1) as (l2 & w2 & A2 & [[E2 _] | E2]);
    rewrite E2 in EX.
  - unfold bind at 1 in EX.
    destruct (read_up_to_READCHAN_frame (with_regs r1 l2) w2) as (ok & l3 & E3 & A3).
    rewrite E3 in EX. unfold store_read_channel in EX. revert EX. run. intros EX.
    exists l3; eexists; split.
    + eapply agree_except_trans; [|exact A3].
      eapply agree_except_weaken; [|exact A2].
      intros x [<- | []]; left; reflexivity.
    + left. eexists. exact EX.
  - exists l2, w2. split; [|right; exact EX].
    eapply agree_except_weaken; [|exact A2].
    intros x [<- | []]; left; reflexivity.
Qed.

Lemma task_cleanup_returns (i bit : Z) (fuel : nat) (res : Z) (r : si470x_t)
    (w : world) (n : nat) :
  2 <= i <= 15 -> handle_ok r -> chip_settles w (S (txn w)) n -> (n <= fuel)%nat ->
  exists m', task_cleanup i bit fuel res (r, w) = (Ret (mk_progress true res), m').
Proof.
  intros Hi Hok Hs Hn. unfold task_cleanup, modify_reg.
  unfold bind at 1. unfold modify at 1. cbn [fst snd].
  unfold bind at 1. rewrite fm_write_registers_up_to_run by exact Hi.
  set (r1 := with_regs r _). set (w1 := emit _ _).
  unfold bind at 1.
  destruct (wait_stc_cleared_returns fuel r1 w1 n) as ([r2 w2] & E2); [| exact Hs | exact Hn |].
  { unfold handle_ok. subst r1. cbn [regs with_regs]. rewrite reg_set_length. exact Hok. }
  rewrite E2. unfold bind at 1.
  destruct (read_up_to_READCHAN_frame r2 w2) as (ok & l3 & E3 & A3).
  rewrite E3. unfold store_read_channel. run. eexists. reflexivity.
Qed.

Lemma fm_set_frequency_async_task_cancel (fuel : nat) (r : si470x_t) (w : world) :
  task (async r) = fm_set_frequency_async_task_ptr -> state (async r) = 1 ->
  fm_set_frequency_async_task fuel true (r, w) =
  task_cleanup CHANNEL TUNE_BIT fuel (-1) (r, w).
Proof.
  intros Ht Hs. unfold fm_set_frequency_async_task. run. rewrite Ht, Hs. reflexivity.
Qed.

Lemma fm_seek_async_task_cancel (fuel : nat) (r : si470x_t) (w : world) :
  task (async r) = fm_seek_async_task_ptr -> state (async r) = 1 ->
  fm_seek_async_task fuel true (r, w) =
  task_cleanup POWERCFG SEEK_BIT fuel (-1) (r, w).
Proof.
  intros Ht Hs. unfold fm_seek_async_task. run. rewrite Ht, Hs. reflexivity.
Qed.

(* The cancel path of either task, as the function pointer calls it. *)
Lemma call_task_cancel (fuel : nat) (r : si470x_t) (w : world) :
  task (async r) <> NULL -> state (async r) = 1 ->
  exists i bit, 2 <= i <= 15 /\
    (i = POWERCFG -> bit = SEEK_BIT) /\
    call_task fuel (task (async r)) true (r, w) = task_cleanup i bit fuel (-1) (r, w).
Proof.
  intros Ht Hs. destruct (task (async r)) eqn:E; [contradiction | |]; cbn [call_task].
  - exists CHANNEL, TUNE_BIT. split; [cbv; split; discriminate|].
    split; [discriminate|]. apply fm_set_frequency_async_task_cancel; assumption.
  - exists POWERCFG, SEEK_BIT. split; [cbv; split; discriminate|].
    split; [reflexivity|]. apply fm_seek_async_task_cancel; assumption.
Qed.

(* Clearing a start bit leaves the ENABLE bit of the shadow as it was. *)
Lemma cleanup_keeps_power (i bit : Z) (r : si470x_t) (l' : list Z) :
  handle_ok r -> 2 <= i <= 15 -> (i = POWERCFG -> bit = SEEK_BIT) ->
  agree_except [STATUSRSSI; READCHAN]
    (reg_set (regs r) i (fm_set_bit (reg_get (regs r) i) bit false)) l' ->
  fm_get_bit (reg_get l' POWERCFG) ENABLE_BIT = fm_is_powered_up r.
Proof.
  intros Hok Hi Hbit [_ A]. unfold fm_is_powered_up.
  rewrite A; [| cbv; discriminate | cbv; intuition discriminate].
  destruct (Z.eq_dec i POWERCFG) as [-> | Hne].
  - rewrite reg_get_set_same by (rewrite Hok; cbv; split; [discriminate | reflexivity]).
    rewrite (Hbit eq_refl).
    exact (fm_get_set_bit _ 8 0 false ltac:(lia) ltac:(lia)).
  - rewrite reg_get_set_other; [reflexivity | lia | cbv; discriminate | exact Hne].
Qed.

(* What a cancellation that returns leaves behind. *)
Lemma cancel_frame (fuel : nat) (r : si470x_t) (w : world) (n : nat) :
  handle_ok r -> fm_is_powered_up r = true ->
  task (async r) <> NULL -> state (async r) = 1 ->
  chip_settles w (S (txn w)) n -> (n <= fuel)%nat ->
  exists r1 w1,
    fm_async_task_cancel fuel (r, w) = (Ret tt, (r1, w1)) /\
    async r1 = async_empty /\ handle_ok r1 /\ fm_is_powered_up r1 = true.
Proof.
  intros Hok Hp Ht Hs Hset Hn.
  assert (E0 : fm_async_task_cancel fuel (r, w) =
    (call_task fuel (task (async r)) true ;;
     modify (fun r => with_async r async_empty)) (r, w)).
  { unfold fm_async_task_cancel. run. rewrite (task_eqb_NULL_false _ Ht). reflexivity. }
  destruct (call_task_cancel fuel r w Ht Hs) as (i & bit & Hi & Hbit & Ec).
  rewrite E0. unfold bind. rewrite Ec.
  destruct (task_cleanup_returns i bit fuel (-1) r w n Hi Hok Hset Hn) as (m' & E1).
  destruct (task_cleanup_frame i bit fuel (-1) r w Hi) as (l' & w' & A & [[f' E2] | E2]);
    rewrite E2 in E1; [|discriminate E1].
  rewrite E2. run. eexists _, _. split; [reflexivity|].
  split; [reflexivity|]. split.
  - unfold handle_ok. cbn [regs with_async with_frequency with_regs].
    destruct A as [L _]. rewrite L, reg_set_length. exact Hok.
  - unfold fm_is_powered_up. cbn [regs with_async with_frequency with_regs].
    rewrite (cleanup_keeps_power i bit r l' Hok Hi Hbit A). exact Hp.
Qed.

Lemma fm_seek_async_starts (d : fm_seek_direction_t) (r : si470x_t) (w : world) :
  fm_is_powered_up r = true -> task (async r) = NULL ->
  exists m', fm_seek_async d (r, w) = (Ret tt, m') /\
             task (async (fst m')) = fm_seek_async_task_ptr /\
             state (async (fst m')) = 1.
Proof.
  intros Hp Ht. unfold fm_seek_async, modify_reg. run. rewrite Hp, Ht. cbn [task_eqb].
  rewrite fm_write_registers_up_to_run by (cbv; split; discriminate).
  unfold time_us_64. cbn [fst snd].
  eexists. split; [reflexivity|]. split; reflexivity.
Qed.

Lemma fm_set_frequency_async_starts (f : F32.float) (c : Z) (r : si470x_t) (w : world) :
  fm_is_powered_up r = true -> task (async r) = NULL ->
  fm_frequency_to_channel f (fm_get_frequency_range r) = Some c ->
  exists m', fm_set_frequency_async f (r, w) = (Ret tt, m') /\
             task (async (fst m')) = fm_set_frequency_async_task_ptr /\
             state (async (fst m')) = 1.
Proof.
  intros Hp Ht Hc. unfold fm_set_frequency_async, modify_reg. run.
  rewrite Hp, Ht, Hc. cbn [task_eqb].
  rewrite fm_write_registers_up_to_run by (cbv; split; discriminate).
  unfold time_us_64. cbn [fst snd].
  eexists. split; [reflexivity|]. split; reflexivity.
Qed.

(** ** The seek task *)

Lemma seek_observed_eq (r : si470x_t) (w : world) :
  exists ok l',
    fm_read_registers_up_to READCHAN (r, w) =
      (Ret ok, (with_regs r l', emit (EvRead 4 (fst (bus w (txn w)))) (next_txn w))) /\
    seek_observed (r, w) = with_regs r l' /\
    length l' = length (regs r).
Proof.
  destruct (read_up_to_READCHAN_frame r w) as (ok & l' & E & [L _]).
  exists ok, l'. split; [exact E|]. unfold seek_observed. rewrite E. auto.
Qed.

(* fm_seek_async_task with [cancel = false], after its first read. *)
Lemma fm_seek_async_task_poll (fuel : nat) (r : si470x_t) (w : world) :
  task (async r) = fm_seek_async_task_ptr -> state (async r) = 1 ->
  let m1 := snd (fm_read_registers_up_to READCHAN (r, w)) in
  let st := reg_get (regs (seek_observed (r, w))) STATUSRSSI in
  fm_seek_async_task fuel false (r, w) =
    if fm_get_bit st STC_BIT
    then task_cleanup POWERCFG SEEK_BIT fuel (if fm_get_bit st SFBL_BIT then -1 else 0) m1
    else (Ret (mk_progress false 0),
          snd ((store_read_channel ;; set_resume_time SEEK_POLL_INTERVAL_MS) m1)).
Proof.
  intros Ht Hs. cbn zeta.
  destruct (seek_observed_eq r w) as (ok & l' & E & Eo & _). rewrite Eo, E.
  unfold fm_seek_async_task. run. rewrite Ht, Hs. cbn [task_eqb Z.eqb Pos.eqb].
  rewrite E. cbn [fst snd regs with_regs].
  destruct (fm_get_bit (reg_get l' STATUSRSSI) STC_BIT); cbn [negb].
  - destruct (fm_get_bit (reg_get l' STATUSRSSI) SFBL_BIT); reflexivity.
  - reflexivity.
Qed.

(** C6. fm_seek_async_task, run on a slot that holds it, ends in one of two
    ways only: it returns a progress value, or it is still waiting for STC to
    clear; it raises no assertion and does not panic.  The progress it returns
    is decided by the shadow after its first read: with STC set it is done,
    with result 0 when SFBL is clear and -1 when SFBL is set; with STC clear
    it is not done; called with [cancel = true] it is done with result -1.
    It returns as soon as the chip clears STC within the fuel. *)
Theorem seek_task_reports_by_result (fuel : nat) (r : si470x_t) (w : world) (n : nat) :
  handle_ok r ->
  task (async r) = fm_seek_async_task_ptr ->
  state (async r) = 1 ->
  let st := reg_get (regs (seek_observed (r, w))) STATUSRSSI in
  let stc := fm_get_bit st STC_BIT in
  let sfbl := fm_get_bit st SFBL_BIT in
  (forall cancel,
     (exists p m', fm_seek_async_task fuel cancel (r, w) = (Ret p, m')) \/
     (exists m', fm_seek_async_task fuel cancel (r, w) = (Spinning, m'))) /\
  (forall p m', fm_seek_async_task fuel true (r, w) = (Ret p, m') ->
     p = mk_progress true (-1)) /\
  (forall p m', fm_seek_async_task fuel false (r, w) = (Ret p, m') ->
     p = if stc then mk_progress true (if sfbl then -1 else 0)
         else mk_progress false 0) /\
  (chip_settles w (S (txn w)) n -> (n <= fuel)%nat ->
   exists m', fm_seek_async_task fuel true (r, w) = (Ret (mk_progress true (-1)), m')) /\
  (chip_settles w (S (S (txn w))) n -> (n <= fuel)%nat ->
   exists m', fm_seek_async_task fuel false (r, w) =
     (Ret (if stc then mk_progress true (if sfbl then -1 else 0)
           else mk_progress false 0), m')).
Proof.
  intros Hok Ht Hs. cbn zeta.
  assert (Hi : 2 <= POWERCFG <= 15) by (cbv; split; discriminate).
  pose proof (fm_seek_async_task_cancel fuel r w Ht Hs) as Ec.
  pose proof (fm_seek_async_task_poll fuel r w Ht Hs) as Ep. cbn zeta in Ep.
  destruct (seek_observed_eq r w) as (ok & l' & E & Eo & L).
  rewrite E in Ep. cbn [snd] in Ep.
  set (st := reg_get (regs (seek_observed (r, w))) STATUSRSSI) in *.
  set (res := if fm_get_bit st SFBL_BIT then -1 else 0) in *.
  set (r1 := with_regs r l') in *. set (w1 := emit _ _) in *.
  assert (Hok1 : handle_ok r1)
    by (unfold handle_ok; subst r1; cbn [regs with_regs]; congruence).
  repeat split.
  - intros [|].
    + rewrite Ec.
      destruct (task_cleanup_frame POWERCFG SEEK_BIT fuel (-1) r w Hi)
        as (l2 & w2 & _ & [[f' E1] | E1]); rewrite E1; eauto.
    + rewrite Ep. destruct (fm_get_bit st STC_BIT); [|eauto].
      destruct (task_cleanup_frame POWERCFG SEEK_BIT fuel res r1 w1 Hi)
        as (l2 & w2 & _ & [[f' E1] | E1]); rewrite E1; eauto.
  - intros p m'. rewrite Ec.
    destruct (task_cleanup_frame POWERCFG SEEK_BIT fuel (-1) r w Hi)
      as (l2 & w2 & _ & [[f' E1] | E1]); rewrite E1; congruence.
  - intros p m'. rewrite Ep. destruct (fm_get_bit st STC_BIT); [|congruence].
    destruct (task_cleanup_frame POWERCFG SEEK_BIT fuel res r1 w1 Hi)
      as (l2 & w2 & _ & [[f' E1] | E1]); rewrite E1; congruence.
  - intros Hset Hn. rewrite Ec. apply (task_cleanup_returns _ _ _ _ _ _ n); assumption.
  - intros Hset Hn. rewrite Ep. destruct (fm_get_bit st STC_BIT); [|eauto].
    apply (task_cleanup_returns _ _ _ _ _ _ n); try assumption.
Qed.

(** ** Power down *)

Lemma fm_power_down_unfold (fuel : nat) (r : si470x_t) (w : world) :
  fm_is_powered_up r = true ->
  fm_power_down fuel (r, w) =
    ((if negb (task_eqb (task (async r)) NULL)
      then fm_async_task_cancel fuel else ret tt) ;;
     power_down_writes) (r, w).
Proof.
  intros Hp. unfold fm_power_down. run. rewrite Hp. reflexivity.
Qed.

Lemma power_down_writes_run (r : si470x_t) (w : world) :
  handle_ok r ->
  let rds := fm_is_rds_supported r in
  let sc1 := fm_set_bit (reg_get (regs r) SYSCONFIG1) RDS_BIT false in
  let pc := fm_set_bit (fm_set_bit (reg_get (regs r) POWERCFG) DMUTE_BIT false)
              DISABLE_BIT true in
  let l1 := if rds then reg_set (regs r) SYSCONFIG1 sc1 else regs r in
  let l2 := reg_set l1 POWERCFG (fm_set_bit pc ENABLE_BIT false) in
  exists w',
    power_down_writes (r, w) = (Ret tt, (with_regs r l2, w')) /\
    trace w' =
      trace w
      ++ (if rds
          then [EvWrite (be16 (reg_get (regs r) POWERCFG)
                           ++ be16 (reg_get (regs r) CHANNEL) ++ be16 sc1)
                        (fst (bus w (txn w)))]
          else [])
      ++ [EvWrite (be16 pc)
                  (fst (bus w (if rds then S (txn w) else txn w)))].
Proof.
  intros Hok. cbn zeta.
  destruct (list16 (regs r) Hok) as
    (a0 & a1 & a2 & a3 & a4 & a5 & a6 & a7 & a8 & a9 & a10 & a11 & a12 & a13 & a14 & a15 & El).
  unfold power_down_writes, modify_reg. run.
  destruct (fm_is_rds_supported r); run;
    rewrite ?fm_write_registers_up_to_run by (cbv; split; discriminate);
    cbn [fst snd regs with_regs]; rewrite El;
    (eexists; split; [reflexivity|]);
    cbn [trace emit next_txn txn bus]; rewrite <- ?app_assoc; reflexivity.
Qed.

(** C7. On a powered-up handle, fm_power_down first cancels the task in
    flight, if there is one, which leaves the slot empty.  It then makes
    bus writes only, in this order: on a chip with RDS, the registers
    POWERCFG to SYSCONFIG1 with the RDS bit clear; then POWERCFG with DMUTE
    clear and DISABLE set (and ENABLE still set).  Last it clears ENABLE in
    the shadow alone, so that fm_is_powered_up is false.  With no task in
    flight the call always returns; with one it returns when the chip clears
    STC within the fuel. *)
Theorem power_down_sequence (fuel : nat) (r : si470x_t) (w : world) (n : nat) :
  handle_ok r ->
  slot_ok (async r) ->
  fm_is_powered_up r = true ->
  task (async r) = NULL \/ (chip_settles w (S (txn w)) n /\ (n <= fuel)%nat) ->
  exists r1 w1 r' w',
    (if task_eqb (task (async r)) NULL
     then (r1, w1) = (r, w)
     else fm_async_task_cancel fuel (r, w) = (Ret tt, (r1, w1))) /\
    task (async r1) = NULL /\
    fm_power_down fuel (r, w) = (Ret tt, (r', w')) /\
    let rds := fm_is_rds_supported r1 in
    let sc1 := fm_set_bit (reg_get (regs r1) SYSCONFIG1) RDS_BIT false in
    let pc := fm_set_bit (fm_set_bit (reg_get (regs r1) POWERCFG) DMUTE_BIT false)
                DISABLE_BIT true in
    trace w' =
      trace w1
      ++ (if rds
          then [EvWrite (be16 (reg_get (regs r1) POWERCFG)
                           ++ be16 (reg_get (regs r1) CHANNEL) ++ be16 sc1)
                        (fst (bus w1 (txn w1)))]
          else [])
      ++ [EvWrite (be16 pc)
                  (fst (bus w1 (if rds then S (txn w1) else txn w1)))] /\
    fm_get_bit sc1 RDS_BIT = false /\
    fm_get_bit pc DMUTE_BIT = false /\
    fm_get_bit pc DISABLE_BIT = true /\
    fm_get_bit pc ENABLE_BIT = true /\
    reg_get (regs r') POWERCFG = fm_set_bit pc ENABLE_BIT false /\
    task (async r') = NULL /\
    fm_is_powered_up r' = false.
Proof.
  intros Hok Hslot Hp Hrun.
  (* the cancellation *)
  assert (C : exists r1 w1,
    (if task_eqb (task (async r)) NULL
     then (r1, w1) = (r, w)
     else fm_async_task_cancel fuel (r, w) = (Ret tt, (r1, w1))) /\
    ((if negb (task_eqb (task (async r)) NULL)
      then fm_async_task_cancel fuel else ret tt) (r, w) = (Ret tt, (r1, w1))) /\
    task (async r1) = NULL /\ handle_ok r1 /\ fm_is_powered_up r1 = true).
  { destruct (task_eqb (task (async r)) NULL) eqn:Et.
    - apply task_eqb_eq in Et. exists r, w. cbn [negb]. auto.
    - assert (Ht : task (async r) <> NULL)
        by (intros H; rewrite H in Et; discriminate Et).
      assert (Hs : state (async r) = 1) by (destruct Hslot; [contradiction | assumption]).
      destruct Hrun as [H | [Hset Hn]]; [contradiction|].
      destruct (cancel_frame fuel r w n Hok Hp Ht Hs Hset Hn) as (r1 & w1 & E & A & L & P).
      exists r1, w1. cbn [negb]. rewrite A. auto. }
  destruct C as (r1 & w1 & C1 & C2 & T1 & Hok1 & Hp1).
  destruct (power_down_writes_run r1 w1 Hok1) as (w' & E & Htr). cbn zeta in E, Htr.
  eexists r1, w1, _, w'.
  split; [exact C1|]. split; [exact T1|].
  split; [rewrite (fm_power_down_unfold fuel r w Hp); unfold bind; rewrite C2; exact E|].
  cbn zeta. split; [exact Htr|].
  assert (Hl : 0 <= POWERCFG < Z.of_nat (length (regs r1)))
    by (rewrite Hok1; cbv; split; [discriminate | reflexivity]).
  split; [exact (fm_get_set_bit _ 12 12 false ltac:(lia) ltac:(lia))|].
  split.
  { etransitivity; [exact (fm_get_set_bit _ 6 14 true ltac:(lia) ltac:(lia))|].
    exact (fm_get_set_bit _ 14 14 false ltac:(lia) ltac:(lia)). }
  split; [exact (fm_get_set_bit _ 6 6 true ltac:(lia) ltac:(lia))|].
  split.
  { etransitivity; [exact (fm_get_set_bit _ 6 0 true ltac:(lia) ltac:(lia))|].
    etransitivity; [exact (fm_get_set_bit _ 14 0 false ltac:(lia) ltac:(lia))|].
    exact Hp1. }
  assert (Hget : reg_get
    (reg_set (if fm_is_rds_supported r1
              then reg_set (regs r1) SYSCONFIG1
                     (fm_set_bit (reg_get (regs r1) SYSCONFIG1) RDS_BIT false)
              else regs r1) POWERCFG
       (fm_set_bit (fm_set_bit (fm_set_bit (reg_get (regs r1) POWERCFG) DMUTE_BIT false)
                      DISABLE_BIT true) ENABLE_BIT false)) POWERCFG =
    fm_set_bit (fm_set_bit (fm_set_bit (reg_get (regs r1) POWERCFG) DMUTE_BIT false)
                  DISABLE_BIT true) ENABLE_BIT false).
  { apply reg_get_set_same. destruct (fm_is_rds_supported r1);
      rewrite ?reg_set_length; exact Hl. }
  cbn [regs with_regs async]. split; [exact Hget|]. split; [exact T1|].
  unfold fm_is_powered_up. cbn [regs with_regs]. rewrite Hget.
  exact (fm_get_set_bit _ 0 0 false ltac:(lia) ltac:(lia)).
Qed.

(** ** Power up after power down *)

(** C2 (as the code has it). When fm_power_up is called on a handle that is
    not powered up, whose shadow POWERCFG has DISABLE set, with the
    configuration the handle holds, the fast path is taken: ENABLE is set,
    DISABLE cleared and DMUTE set to the negation of the cached mute flag in
    the shadow, POWERCFG alone is written over the bus, and a sleep of 110 ms
    follows.  On a chip without RDS that is all; on a chip with RDS the RDS bit
    is then set in the shadow SYSCONFIG1 and a second write sends POWERCFG,
    CHANNEL and SYSCONFIG1.  The cached mute flag and the configuration are
    unchanged and the handle is powered up. *)
Theorem power_up_fast_path (fuel : nat) (cfg : fm_config_t) (r : si470x_t) (w : world) :
  handle_ok r ->
  fm_is_powered_up r = false ->
  fm_get_bit (reg_get (regs r) POWERCFG) DISABLE_BIT = true ->
  config r = cfg ->
  let rds := fm_is_rds_supported r in
  let pc := fm_set_bit (fm_set_bit (fm_set_bit (reg_get (regs r) POWERCFG)
                                      ENABLE_BIT true) DISABLE_BIT false)
              DMUTE_BIT (negb (mute r)) in
  let sc1 := fm_set_bit (reg_get (regs r) SYSCONFIG1) RDS_BIT true in
  exists r' w',
    fm_power_up fuel cfg (r, w) = (Ret tt, (r', w')) /\
    trace w' =
      trace w
      ++ [EvWrite (be16 pc) (fst (bus w (txn w))); EvSleep 110]
      ++ (if rds
          then [EvWrite (be16 pc ++ be16 (reg_get (regs r) CHANNEL) ++ be16 sc1)
                        (fst (bus w (S (txn w))))]
          else []) /\
    regs r' = (if rds
               then reg_set (reg_set (regs r) POWERCFG pc) SYSCONFIG1 sc1
               else reg_set (regs r) POWERCFG pc) /\
    fm_get_bit pc ENABLE_BIT = true /\
    fm_get_bit pc DISABLE_BIT = false /\
    fm_get_bit pc DMUTE_BIT = negb (mute r) /\
    fm_get_mute r' = fm_get_mute r /\
    fm_get_config r' = cfg /\
    fm_is_powered_up r' = true.
Proof.
  intros Hok Hp Hd Hc. cbn zeta.
  set (pc := fm_set_bit (fm_set_bit (fm_set_bit (reg_get (regs r) POWERCFG)
                                       ENABLE_BIT true) DISABLE_BIT false)
               DMUTE_BIT (negb (mute r))).
  assert (Ben : fm_get_bit pc ENABLE_BIT = true).
  { etransitivity; [exact (fm_get_set_bit _ 14 0 _ ltac:(lia) ltac:(lia))|].
    etransitivity; [exact (fm_get_set_bit _ 6 0 _ ltac:(lia) ltac:(lia))|].
    exact (fm_get_set_bit _ 0 0 true ltac:(lia) ltac:(lia)). }
  assert (Bdis : fm_get_bit pc DISABLE_BIT = false).
  { etransitivity; [exact (fm_get_set_bit _ 14 6 _ ltac:(lia) ltac:(lia))|].
    exact (fm_get_set_bit _ 6 6 false ltac:(lia) ltac:(lia)). }
  assert (Bdm : fm_get_bit pc DMUTE_BIT = negb (mute r))
    by exact (fm_get_set_bit _ 14 14 _ ltac:(lia) ltac:(lia)).
  destruct (list16 (regs r) Hok) as
    (a0 & a1 & a2 & a3 & a4 & a5 & a6 & a7 & a8 & a9 & a10 & a11 & a12 & a13 & a14 & a15 & El).
  assert (Eq : exists r' w',
    fm_power_up fuel cfg (r, w) = (Ret tt, (r', w')) /\
    trace w' =
      trace w
      ++ [EvWrite (be16 pc) (fst (bus w (txn w))); EvSleep 110]
      ++ (if fm_is_rds_supported r
          then [EvWrite (be16 pc ++ be16 (reg_get (regs r) CHANNEL)
                           ++ be16 (fm_set_bit (reg_get (regs r) SYSCONFIG1) RDS_BIT true))
                        (fst (bus w (S (txn w))))]
          else []) /\
    regs r' = (if fm_is_rds_supported r
               then reg_set (reg_set (regs r) POWERCFG pc) SYSCONFIG1
                      (fm_set_bit (reg_get (regs r) SYSCONFIG1) RDS_BIT true)
               else reg_set (regs r) POWERCFG pc) /\
    mute r' = mute r /\ config r' = config r).
  { unfold fm_power_up, modify_reg. run.
    rewrite Hp, Hd. cbn [negb andb].
    rewrite (proj2 (config_eqb_eq (config r) cfg) Hc).
    rewrite fm_write_registers_up_to_run by (cbv; split; discriminate).
    unfold sleep_ms. cbn [fst snd].
    match goal with
    | |- context [fm_is_rds_supported ?x] =>
        replace (fm_is_rds_supported x) with (fm_is_rds_supported r)
          by (unfold fm_is_rds_supported; cbn [regs with_regs]; rewrite El; reflexivity)
    end.
    subst pc.
    destruct (fm_is_rds_supported r); run;
      rewrite ?fm_write_registers_up_to_run by (cbv; split; discriminate);
      cbn [fst snd regs with_regs]; rewrite El;
      (eexists _, _; split; [reflexivity|]);
      cbn [trace emit next_txn txn bus time_us regs mute config with_regs];
      rewrite <- ?app_assoc; repeat split; reflexivity. }
  destruct Eq as (r' & w' & E & Htr & Hregs & Hm & Hcfg).
  exists r', w'. split; [exact E|]. split; [exact Htr|]. split; [exact Hregs|].
  split; [exact Ben|]. split; [exact Bdis|]. split; [exact Bdm|].
  split; [exact Hm|]. split; [unfold fm_get_config; congruence|].
  unfold fm_is_powered_up. rewrite Hregs.
  assert (Hl : 0 <= POWERCFG < Z.of_nat (length (regs r)))
    by (rewrite Hok; cbv; split; [discriminate | reflexivity]).
  destruct (fm_is_rds_supported r).
  - rewrite reg_get_set_other by (cbv; discriminate).
    rewrite reg_get_set_same by exact Hl. exact Ben.
  - rewrite reg_get_set_same by exact Hl. exact Ben.
Qed.

(** ** Channels and frequencies *)

Lemma channels_round_trip_all :
  forallb (fun b => forallb (fun s =>
    channels_round_trip (fm_frequency_range b s) 1024) all_spacings) all_bands = true.
Proof. vm_compute. reflexivity. Qed.

Lemma channel_round_trip_1024 (b : fm_band_t) (s : fm_channel_spacing_t) (c : Z) :
  0 <= c <= 1023 -> channel_round_trip (fm_frequency_range b s) c = true.
Proof.
  intros Hc. pose proof channels_round_trip_all as H.
  rewrite forallb_forall in H.
  assert (Hb : In b all_bands) by (destruct b; cbn; auto).
  specialize (H b Hb). rewrite forallb_forall in H.
  assert (Hs : In s all_spacings) by (destruct s; cbn; auto).
  specialize (H s Hs). unfold channels_round_trip in H. rewrite forallb_forall in H.
  specialize (H (Z.to_nat c)). rewrite Z2Nat.id in H by lia.
  apply H. apply in_seq. lia.
Qed.

(** C9, where the claim fails: 87.52500152587890625 MHz is a frequency of
    the common band; with 50 kHz spacing its channel is 1, and the frequency
    of channel 1 is 87.5500030517578125 MHz, which is
    0.02500152587890625 MHz away: more than half the spacing, both for the
    exact values and as a test in binary32 arithmetic computes it. *)
Lemma half_spacing_exceeded :
  let r := fm_frequency_range FM_BAND_COMMON FM_CHANNEL_SPACING_50 in
  let f := S754_finite false 11472077 (-17) in
  in_range f r = true /\
  fm_frequency_to_channel f r = Some 1 /\
  fm_channel_to_frequency 1 r = S754_finite false 11475354 (-17) /\
  (float_value (spacing r) / 2
   < Qabs (float_value (fm_channel_to_frequency 1 r) - float_value f))%Q /\
  F32.ltb (F32.div (spacing r) (F32.of_int 2))
          (SFabs (F32.sub (fm_channel_to_frequency 1 r) f)) = true.
Proof. vm_compute. repeat split. Qed.

(** ** The properties at concrete machines *)

Lemma volume_round_trip_witness :
  fm_is_powered_up radio_on = true /\
  task (async radio_on) = NULL /\
  0 <= 20 <= 30 /\
  exists r' w',
    set_volume 20 (radio_on, world_start bus_two_zero) = (Ret tt, (r', w')) /\
    get_volume r' = 20 /\
    fm_get_volume r' = 20 - 15 /\
    fm_get_volext r' = false.
Proof.
  split; [reflexivity|]. split; [reflexivity|]. split; [lia|].
  destruct (volume_round_trip radio_on (world_start bus_two_zero) 20
              eq_refl eq_refl ltac:(lia))
    as (r' & w' & E & G & _ & _ & H16 & _).
  exists r', w'. destruct (H16 ltac:(lia)) as [A B]. auto.
Defined.

Lemma power_up_fast_path_witness :
  handle_ok radio_asleep /\
  fm_is_powered_up radio_asleep = false /\
  fm_get_bit (reg_get (regs radio_asleep) POWERCFG) DISABLE_BIT = true /\
  config radio_asleep = fm_config_europe /\
  (exists r' w',
     fm_power_up 0 fm_config_europe (radio_asleep, world_start bus_two_zero)
       = (Ret tt, (r', w')) /\
     fm_get_mute r' = fm_get_mute radio_asleep /\
     fm_is_powered_up r' = true) /\
  fm_get_mute radio_asleep = false /\
  regs (fst (snd (fm_power_up 0 fm_config_europe
                    (radio_asleep, world_start bus_two_zero)))) = regs radio_playing.
Proof.
  split; [reflexivity|]. split; [reflexivity|]. split; [reflexivity|].
  split; [reflexivity|].
  split; [|split; vm_compute; reflexivity].
  destruct (power_up_fast_path 0 fm_config_europe radio_asleep (world_start bus_two_zero)
              eq_refl eq_refl eq_refl eq_refl)
    as (r' & w' & E & _ & _ & _ & _ & _ & M & _ & P).
  exists r', w'. auto.
Defined.

(** C2, where the claim fails: on a Si4703 that was powered down, the fast
    path of fm_power_up makes two bus writes, and the second sends three
    registers (POWERCFG, CHANNEL, SYSCONFIG1), not POWERCFG alone. *)
Lemma fast_path_writes_three_registers :
  fm_is_powered_up radio_asleep = false /\
  fm_get_bit (reg_get (regs radio_asleep) POWERCFG) DISABLE_BIT = true /\
  config_eqb (config radio_asleep) fm_config_europe = true /\
  fm_is_rds_supported radio_asleep = true /\
  fst (fm_power_up 0 fm_config_europe (radio_asleep, world_start bus_two_zero)) = Ret tt /\
  trace (snd (snd (fm_power_up 0 fm_config_europe
                     (radio_asleep, world_start bus_two_zero)))) =
    [EvWrite [0x40; 0x01] 2; EvSleep 110;
     EvWrite [0x40; 0x01; 0x00; 0x00; 0x18; 0x00] 2].
Proof. vm_compute. repeat split. Qed.

Lemma async_start_requires_empty_slot_witness :
  task (async radio_seeking) <> NULL /\
  fm_set_frequency_async F32.f90_0 (radio_seeking, world_start bus_two_zero)
    = (AssertFailed, (radio_seeking, world_start bus_two_zero)) /\
  fm_seek_async FM_SEEK_DOWN (radio_seeking, world_start bus_two_zero)
    = (AssertFailed, (radio_seeking, world_start bus_two_zero)).
Proof.
  split; [discriminate|].
  destruct (async_start_requires_empty_slot F32.f90_0 FM_SEEK_DOWN radio_seeking
              (world_start bus_two_zero) ltac:(discriminate)) as (A & B & _).
  auto.
Defined.

Lemma tick_before_resume_time_witness :
  task (async radio_seeking) <> NULL /\
  u64 (time_us (world_start bus_two_zero)) < resume_time (async radio_seeking) /\
  fm_async_task_tick 1 (radio_seeking, world_start bus_two_zero)
    = (Ret (mk_progress false 0), (radio_seeking, world_start bus_two_zero)).
Proof.
  split; [discriminate|]. split; [reflexivity|].
  apply (tick_before_resume_time 1 radio_seeking (world_start bus_two_zero));
    [discriminate | reflexivity].
Defined.

Lemma chip_settles_two_zero (first : nat) :
  chip_settles (world_start bus_two_zero) first 1.
Proof. exists 0%nat. split; [lia | reflexivity]. Defined.

Lemma seek_task_reports_by_result_witness :
  handle_ok radio_seeking /\
  task (async radio_seeking) = fm_seek_async_task_ptr /\
  state (async radio_seeking) = 1 /\
  chip_settles (world_start bus_seek_failed) 2 1 /\
  exists m',
    fm_seek_async_task 1 false (radio_seeking, world_start bus_seek_failed)
      = (Ret (mk_progress true (-1)), m').
Proof.
  assert (S : chip_settles (world_start bus_seek_failed) 2 1)
    by (exists 0%nat; split; [lia | reflexivity]).
  split; [reflexivity|]. split; [reflexivity|]. split; [reflexivity|].
  split; [exact S|].
  destruct (seek_task_reports_by_result 1 radio_seeking (world_start bus_seek_failed) 1
              eq_refl eq_refl eq_refl) as (_ & _ & _ & _ & Poll).
  exact (Poll S (le_n 1)).
Defined.

Lemma power_down_sequence_witness :
  handle_ok radio_seeking /\
  slot_ok (async radio_seeking) /\
  fm_is_powered_up radio_seeking = true /\
  chip_settles (world_start bus_two_zero) 1 1 /\
  (exists r' w',
     fm_power_down 1 (radio_seeking, world_start bus_two_zero) = (Ret tt, (r', w')) /\
     task (async r') = NULL /\
     fm_is_powered_up r' = false) /\
  trace (snd (snd (fm_power_down 1 (radio_seeking, world_start bus_two_zero)))) =
    [EvWrite [0x42; 0x01] 2; EvRead 2 2; EvRead 4 2;
     EvWrite [0x42; 0x01; 0x00; 0x00; 0x08; 0x00] 2;
     EvWrite [0x02; 0x41] 2].
Proof.
  split; [reflexivity|]. split; [right; reflexivity|]. split; [reflexivity|].
  split; [apply chip_settles_two_zero|].
  split; [|vm_compute; reflexivity].
  destruct (power_down_sequence 1 radio_seeking (world_start bus_two_zero) 1
              eq_refl (or_intror eq_refl) eq_refl
              (or_intror (conj (chip_settles_two_zero 1) (le_n 1))))
    as (r1 & w1 & r' & w' & _ & _ & E & _ & _ & _ & _ & _ & _ & T & P).
  exists r', w'. auto.
Defined.

Lemma burst_count_minimal_witness :
  handle_ok radio_on /\
  0 <= READCHAN <= 0xF /\
  0x2 <= READCHAN /\
  (exists ok r',
     fm_read_registers_up_to READCHAN (radio_on, world_start bus_two_zero) =
       (Ret ok, (r', emit (EvRead (2 * 2) 2) (next_txn (world_start bus_two_zero))))) /\
  (exists ok data,
     fm_write_registers_up_to READCHAN (radio_on, world_start bus_two_zero) =
       (Ret ok, (radio_on,
                 emit (EvWrite data 2) (next_txn (world_start bus_two_zero)))) /\
     Z.of_nat (length data) = 10 * 2).
Proof.
  assert (H1 : 0 <= READCHAN <= 0xF) by (cbv; split; discriminate).
  assert (H2 : 0x2 <= READCHAN) by (cbv; discriminate).
  split; [reflexivity|]. split; [exact H1|]. split; [exact H2|].
  destruct (burst_count_minimal radio_on (world_start bus_two_zero) READCHAN eq_refl H1)
    as [Rd Wr].
  split.
  - destruct Rd as (ok & r' & E & _). exists ok, r'. exact E.
  - destruct (Wr H2) as (ok & data & E & _ & L & _). exists ok, data. auto.
Defined.

Lemma setters_skip_cached_value_witness :
  fm_is_powered_up radio_playing = true /\
  task (async radio_playing) = NULL /\
  fm_set_mute false (radio_playing, world_start bus_two_zero)
    = (Ret tt, (radio_playing, world_start bus_two_zero)) /\
  fm_set_volume 200 true (radio_playing, world_start bus_two_zero)
    = (Ret tt, (radio_playing, world_start bus_two_zero)).
Proof.
  split; [reflexivity|]. split; [reflexivity|].
  destruct (setters_skip_cached_value 0 radio_playing (world_start bus_two_zero)
              eq_refl eq_refl) as (M & _ & _ & _ & _ & _ & V & _).
  split; [exact M | exact (V 200 eq_refl)].
Defined.

(** * Further properties *)

(** ** Bit fields, continued *)

Lemma field_testbit (w lsb j : Z) :
  0 <= w -> 0 <= lsb -> 0 <= j ->
  Z.testbit (field w lsb) j = (lsb <=? j) && (j <? lsb + w).
Proof.
  intros Hw Hl Hj. unfold field. rewrite Z.shiftl_spec by lia.
  destruct (Z.leb_spec lsb j).
  - rewrite Z.testbit_ones_nonneg by lia. cbn [andb].
    destruct (Z.ltb_spec (j - lsb) w), (Z.ltb_spec j (lsb + w)); try lia; reflexivity.
  - rewrite Z.testbit_neg_r by lia. reflexivity.
Qed.

Lemma small_testbit (v w i : Z) :
  0 <= v < 2 ^ w -> 0 <= w -> w <= i -> Z.testbit v i = false.
Proof.
  intros Hv Hw Hi. destruct (Z.eq_dec v 0) as [-> | Hne]; [apply Z.bits_0|].
  apply Z.bits_above_log2; [lia|].
  apply Z.lt_le_trans with w; [|exact Hi]. apply Z.log2_lt_pow2; lia.
Qed.

Lemma fm_get_bits_testbit (x w lsb i : Z) :
  0 <= w -> 0 <= lsb -> 0 <= i ->
  Z.testbit (fm_get_bits x (field w lsb) lsb) i = Z.testbit x (i + lsb) && (i <? w).
Proof.
  intros Hw Hl Hi. unfold fm_get_bits.
  rewrite Z.shiftr_spec, Z.land_spec, field_testbit by lia.
  replace (lsb <=? i + lsb) with true by (symmetry; apply Z.leb_le; lia).
  cbn [andb]. f_equal.
  destruct (Z.ltb_spec (i + lsb) (lsb + w)), (Z.ltb_spec i w); try lia; reflexivity.
Qed.

Lemma fm_set_bits_testbit (x w lsb v j : Z) :
  0 <= w -> 0 <= lsb -> 0 <= v < 2 ^ w -> 0 <= j < 16 ->
  Z.testbit (fm_set_bits x (field w lsb) lsb v) j =
  if (lsb <=? j) && (j <? lsb + w) then Z.testbit v (j - lsb) else Z.testbit x j.
Proof.
  intros Hw Hl Hv Hj. unfold fm_set_bits.
  rewrite u16_testbit, Z.lor_spec, u16_testbit, Z.land_spec, Z.lnot_spec by lia.
  rewrite field_testbit by lia.
  destruct (Z.leb_spec lsb j); cbn [andb].
  - rewrite Z.shiftl_spec by lia.
    destruct (Z.ltb_spec j (lsb + w)); cbn [negb].
    + rewrite andb_false_r. reflexivity.
    + rewrite andb_true_r. rewrite (small_testbit v w (j - lsb)) by lia. apply orb_false_r.
  - rewrite Z.shiftl_spec by lia. rewrite (Z.testbit_neg_r v) by lia.
    cbn [negb]. rewrite andb_true_r. apply orb_false_r.
Qed.

Lemma fm_set_bits_range (x bits lsb v : Z) : 0 <= fm_set_bits x bits lsb v < 2 ^ 16.
Proof. unfold fm_set_bits, u16. apply Z.mod_pos_bound. lia. Qed.

Lemma fm_set_bit_range (x bit : Z) (b : bool) : 0 <= fm_set_bit x bit b < 2 ^ 16.
Proof. unfold fm_set_bit, u16. destruct b; apply Z.mod_pos_bound; lia. Qed.

(* A field read depends on the bits of the field only. *)
Lemma fm_get_bits_ext (x y w lsb : Z) :
  0 <= w -> 0 <= lsb ->
  (forall j, lsb <= j < lsb + w -> Z.testbit x j = Z.testbit y j) ->
  fm_get_bits x (field w lsb) lsb = fm_get_bits y (field w lsb) lsb.
Proof.
  intros Hw Hl H. apply Z.bits_inj'. intros i Hi.
  rewrite !fm_get_bits_testbit by lia.
  destruct (Z.ltb_spec i w); [|rewrite !andb_false_r; reflexivity].
  rewrite H by lia. reflexivity.
Qed.

Lemma fm_get_bit_ext (x y k : Z) :
  0 <= k -> Z.testbit x k = Z.testbit y k ->
  fm_get_bit x (Z.shiftl 1 k) = fm_get_bit y (Z.shiftl 1 k).
Proof. intros Hk H. rewrite !fm_get_bit_testbit by lia. exact H. Qed.

Lemma fm_get_set_bits_same (x w lsb v : Z) :
  0 <= w -> 0 <= lsb -> lsb + w <= 16 -> 0 <= v < 2 ^ w ->
  fm_get_bits (fm_set_bits x (field w lsb) lsb v) (field w lsb) lsb = v.
Proof.
  intros Hw Hl Hfit Hv. apply Z.bits_inj'. intros i Hi.
  rewrite fm_get_bits_testbit by lia.
  destruct (Z.ltb_spec i w).
  - rewrite andb_true_r, fm_set_bits_testbit by lia.
    replace (lsb <=? i + lsb) with true by (symmetry; apply Z.leb_le; lia).
    replace (i + lsb <? lsb + w) with true by (symmetry; apply Z.ltb_lt; lia).
    cbn [andb]. f_equal. lia.
  - rewrite andb_false_r. symmetry. apply (small_testbit v w); lia.
Qed.

Lemma fm_set_bits_testbit_other (x w lsb v j : Z) :
  0 <= w -> 0 <= lsb -> 0 <= v < 2 ^ w -> 0 <= j < 16 -> j < lsb \/ lsb + w <= j ->
  Z.testbit (fm_set_bits x (field w lsb) lsb v) j = Z.testbit x j.
Proof.
  intros Hw Hl Hv Hj Hout. rewrite fm_set_bits_testbit by lia.
  destruct (Z.leb_spec lsb j), (Z.ltb_spec j (lsb + w)); cbn [andb]; try reflexivity; lia.
Qed.

Lemma fm_set_bit_testbit_other (x k j : Z) (b : bool) :
  0 <= k < 16 -> 0 <= j < 16 -> j <> k ->
  Z.testbit (fm_set_bit x (Z.shiftl 1 k) b) j = Z.testbit x j.
Proof.
  intros Hk Hj Hne. rewrite fm_set_bit_testbit by lia.
  replace (j =? k) with false by (symmetry; apply Z.eqb_neq; exact Hne). reflexivity.
Qed.

Lemma fm_get_bits_set_bits_other (x w lsb v w2 lsb2 : Z) :
  0 <= w -> 0 <= lsb -> 0 <= v < 2 ^ w ->
  0 <= w2 -> 0 <= lsb2 -> lsb2 + w2 <= 16 ->
  lsb2 + w2 <= lsb \/ lsb + w <= lsb2 ->
  fm_get_bits (fm_set_bits x (field w lsb) lsb v) (field w2 lsb2) lsb2
  = fm_get_bits x (field w2 lsb2) lsb2.
Proof.
  intros. apply fm_get_bits_ext; [lia | lia |]. intros j Hj.
  apply fm_set_bits_testbit_other; lia.
Qed.

Lemma fm_get_bits_set_bit_other (x k w2 lsb2 : Z) (b : bool) :
  0 <= k < 16 -> 0 <= w2 -> 0 <= lsb2 -> lsb2 + w2 <= 16 ->
  k < lsb2 \/ lsb2 + w2 <= k ->
  fm_get_bits (fm_set_bit x (Z.shiftl 1 k) b) (field w2 lsb2) lsb2
  = fm_get_bits x (field w2 lsb2) lsb2.
Proof.
  intros. apply fm_get_bits_ext; [lia | lia |]. intros j Hj.
  apply fm_set_bit_testbit_other; lia.
Qed.

Lemma fm_get_bit_set_bits_other (x w lsb v j : Z) :
  0 <= w -> 0 <= lsb -> 0 <= v < 2 ^ w -> 0 <= j < 16 -> j < lsb \/ lsb + w <= j ->
  fm_get_bit (fm_set_bits x (field w lsb) lsb v) (Z.shiftl 1 j)
  = fm_get_bit x (Z.shiftl 1 j).
Proof.
  intros. apply fm_get_bit_ext; [lia|]. apply fm_set_bits_testbit_other; lia.
Qed.

(** X1. Writing a value that fits a field with fm_set_bits and reading the
    field with fm_get_bits gives the value back; the bits of the register
    outside the field are what they were, and the register stays a 16-bit
    value.  The same holds for a single bit with fm_set_bit and fm_get_bit. *)
Theorem bit_field_round_trip (reg w lsb v : Z) :
  0 < w -> 0 <= lsb -> lsb + w <= 16 -> 0 <= v < 2 ^ w ->
  fm_get_bits (fm_set_bits reg (field w lsb) lsb v) (field w lsb) lsb = v /\
  (forall j, 0 <= j < 16 -> ~ (lsb <= j < lsb + w) ->
     Z.testbit (fm_set_bits reg (field w lsb) lsb v) j = Z.testbit reg j) /\
  0 <= fm_set_bits reg (field w lsb) lsb v < 2 ^ 16 /\
  (forall k b, 0 <= k < 16 ->
     fm_get_bit (fm_set_bit reg (Z.shiftl 1 k) b) (Z.shiftl 1 k) = b /\
     (forall j, 0 <= j < 16 -> j <> k ->
        Z.testbit (fm_set_bit reg (Z.shiftl 1 k) b) j = Z.testbit reg j)).
Proof.
  intros Hw Hl Hfit Hv. split; [|split; [|split]].
  - apply fm_get_set_bits_same; lia.
  - intros j Hj Hout. apply fm_set_bits_testbit_other; lia.
  - apply fm_set_bits_range.
  - intros k b Hk. split.
    + rewrite fm_get_set_bit by lia. rewrite Z.eqb_refl. reflexivity.
    + intros j Hj Hne. apply fm_set_bit_testbit_other; lia.
Qed.

(** ** Burst transfers *)

Lemma regs16_get (l : list Z) (i : Z) : regs16 l -> 0 <= reg_get l i < 2 ^ 16.
Proof.
  intros H. unfold reg_get. destruct (nth_in_or_default (Z.to_nat i) l 0) as [Hin | ->].
  - unfold regs16 in H. rewrite Forall_forall in H. apply H. exact Hin.
  - lia.
Qed.

Lemma regs16_list_set (l : list Z) (i : nat) (v : Z) :
  regs16 l -> 0 <= v < 2 ^ 16 -> regs16 (list_set l i v).
Proof.
  unfold regs16. intros H Hv. revert i.
  induction H as [|x l Hx Hl IH]; intros [|i]; cbn [list_set].
  - constructor.
  - constructor.
  - constructor; assumption.
  - constructor; [exact Hx | apply IH].
Qed.

Lemma regs16_reg_set (l : list Z) (i v : Z) :
  regs16 l -> 0 <= v < 2 ^ 16 -> regs16 (reg_set l i v).
Proof. apply regs16_list_set. Qed.

Lemma u16_range (x : Z) : 0 <= u16 x < 2 ^ 16.
Proof. unfold u16. apply Z.mod_pos_bound. lia. Qed.

Lemma u8_range (x : Z) : 0 <= u8 x < 2 ^ 8.
Proof. unfold u8. apply Z.mod_pos_bound. lia. Qed.

Lemma regs16_read_loop (n : nat) (buf : list Z) (i : nat) (p : Z) (l : list Z) :
  regs16 l -> regs16 (fm_read_registers_loop n buf i p l).
Proof.
  revert i p l. induction n as [|n IH]; intros i p l H; cbn [fm_read_registers_loop];
    [exact H|].
  apply IH. apply regs16_reg_set; [exact H | apply u16_range].
Qed.

Lemma small_count_cases (n : nat) (P : nat -> Prop) :
  (n <= 16)%nat ->
  P 0%nat -> P 1%nat -> P 2%nat -> P 3%nat -> P 4%nat -> P 5%nat -> P 6%nat ->
  P 7%nat -> P 8%nat -> P 9%nat -> P 10%nat -> P 11%nat -> P 12%nat -> P 13%nat ->
  P 14%nat -> P 15%nat -> P 16%nat -> P n.
Proof.
  intros Hn. do 17 (destruct n as [|n]; [intros; assumption|]). lia.
Qed.

(* The loop of fm_read_registers, register by register: the first [n]
   registers of the read order take the registers of the buffer, in order. *)
Lemma read_loop_spec (n : nat) (buf l : list Z) (j : Z) :
  (n <= 16)%nat -> length l = 16%nat -> 0 <= j <= 15 ->
  reg_get (fm_read_registers_loop n buf 0 0xA l) j =
  if read_position j <? Z.of_nat n
  then rx_reg buf (Z.to_nat (read_position j))
  else reg_get l j.
Proof.
  intros Hn Hl Hj.
  destruct (list16 l Hl) as
    (a0 & a1 & a2 & a3 & a4 & a5 & a6 & a7 & a8 & a9 & a10 & a11 & a12 & a13 & a14 & a15 & ->).
  pattern n. apply small_count_cases; [exact Hn | ..];
    (pattern j; apply small_index_cases; [exact Hj | reflexivity ..]).
Qed.

(** X2. A burst read of [n] registers, 0 <= n <= 16, makes one bus read of
    2n bytes.  When the bus returns 2n, the call returns true and the shadow
    takes the registers received, high byte first, in the order 0xA..0xF,
    0x0..0x9: register [j] takes the one at place [(j - 0xA) mod 16] when that
    place is below [n], and is what it was otherwise.  When the bus returns
    anything else, the call returns false and the handle is unchanged. *)
Theorem read_burst_decodes (n : Z) (r : si470x_t) (w : world) :
  handle_ok r -> 0 <= n <= 16 ->
  let rb := bus w (txn w) in
  let w' := emit (EvRead (n * 2) (fst rb)) (next_txn w) in
  (fst rb = n * 2 ->
   exists l',
     fm_read_registers n (r, w) = (Ret true, (with_regs r l', w')) /\
     length l' = 16%nat /\
     (regs16 (regs r) -> regs16 l') /\
     forall j, 0 <= j <= 15 ->
       reg_get l' j = if read_position j <? n
                      then rx_reg (snd rb) (Z.to_nat (read_position j))
                      else reg_get (regs r) j) /\
  (fst rb <> n * 2 -> fm_read_registers n (r, w) = (Ret false, (r, w'))).
Proof.
  intros Hok Hn. cbn zeta.
  assert (E : fm_read_registers n (r, w) =
    if fst (bus w (txn w)) =? n * 2
    then (Ret true,
          (with_regs r (fm_read_registers_loop (Z.to_nat n) (snd (bus w (txn w))) 0 0xA (regs r)),
           emit (EvRead (n * 2) (fst (bus w (txn w)))) (next_txn w)))
    else (Ret false, (r, emit (EvRead (n * 2) (fst (bus w (txn w)))) (next_txn w)))).
  { unfold fm_read_registers, i2c_read_blocking. run.
    replace (n <=? 16) with true by (symmetry; apply Z.leb_le; lia).
    cbn [fst snd]. destruct (bus w (txn w)) as [res buf]. cbn [fst snd].
    destruct (res =? n * 2); reflexivity. }
  rewrite E. split; intros Hres.
  - rewrite (proj2 (Z.eqb_eq _ _) Hres).
    eexists. split; [reflexivity|].
    split; [rewrite fm_read_registers_loop_length; exact Hok|].
    split; [apply regs16_read_loop|].
    intros j Hj. rewrite read_loop_spec by (try assumption; lia).
    rewrite Z2Nat.id by lia. reflexivity.
  - rewrite (proj2 (Z.eqb_neq _ _) Hres). reflexivity.
Qed.

Lemma u8_testbit (x j : Z) :
  0 <= j -> Z.testbit (u8 x) j = Z.testbit x j && (j <? 8).
Proof.
  intros Hj. unfold u8. destruct (Z.ltb_spec j 8).
  - rewrite Z.mod_pow2_bits_low by lia. symmetry. apply andb_true_r.
  - rewrite Z.mod_pow2_bits_high by lia. symmetry. apply andb_false_r.
Qed.

Lemma be16_decodes (x : Z) :
  0 <= x < 2 ^ 16 ->
  u16 (Z.lor (u16 (Z.shiftl (u8 (u8 (Z.shiftr x 8))) 8)) (u8 (u8 (Z.land x 0xFF)))) = x.
Proof.
  intros Hx. apply Z.bits_inj'. intros i Hi.
  destruct (Z.ltb_spec i 16) as [Hlt | Hge].
  - rewrite u16_testbit, Z.lor_spec, u16_testbit by lia.
    rewrite !u8_testbit by lia.
    destruct (Z.ltb_spec i 8) as [H8 | H8].
    + rewrite Z.shiftl_spec_low by lia. cbn [orb].
      rewrite Z.land_spec. change 0xFF with (Z.ones 8).
      rewrite Z.testbit_ones_nonneg by lia.
      replace (i <? 8) with true by (symmetry; apply Z.ltb_lt; lia).
      rewrite !andb_true_r. reflexivity.
    + rewrite !andb_false_r, orb_false_r.
      rewrite Z.shiftl_spec by lia. rewrite !u8_testbit by lia.
      replace (i - 8 <? 8) with true by (symmetry; apply Z.ltb_lt; lia).
      rewrite !andb_true_r. rewrite Z.shiftr_spec by lia. f_equal. lia.
  - unfold u16 at 1. rewrite Z.mod_pow2_bits_high by lia.
    symmetry. apply (small_testbit x 16); lia.
Qed.

Lemma write_loop_bytes (n : nat) (l : list Z) (p : Z) (k : nat) :
  (k < n)%nat ->
  nth (2 * k) (fm_write_registers_loop n l p) 0 = u8 (Z.shiftr (reg_get l (p + Z.of_nat k)) 8) /\
  nth (2 * k + 1) (fm_write_registers_loop n l p) 0 = u8 (Z.land (reg_get l (p + Z.of_nat k)) 0xFF).
Proof.
  revert p k. induction n as [|n IH]; intros p k Hk; [lia|].
  destruct k as [|k].
  - cbn [fm_write_registers_loop]. rewrite Z.add_0_r. split; reflexivity.
  - cbn [fm_write_registers_loop].
    replace (2 * S k)%nat with (S (S (2 * k))) by lia.
    replace (S (S (2 * k)) + 1)%nat with (S (S (2 * k + 1))) by lia.
    cbn [nth]. replace (p + Z.of_nat (S k)) with (p + 1 + Z.of_nat k) by lia.
    apply IH. lia.
Qed.

Lemma rx_reg_write_loop (n : nat) (l : list Z) (p : Z) (k : nat) :
  regs16 l -> (k < n)%nat ->
  rx_reg (fm_write_registers_loop n l p) k = reg_get l (p + Z.of_nat k).
Proof.
  intros H16 Hk. unfold rx_reg, buf_get.
  destruct (write_loop_bytes n l p k Hk) as [-> ->].
  apply be16_decodes. apply regs16_get. exact H16.
Qed.

(** X3. The bytes fm_write_registers puts on the bus and the decoding of
    fm_read_registers are inverse to each other: in the buffer of a write of
    [n] registers the [k]-th pair of bytes decodes to shadow register
    [0x2 + k], and a read loop run over that buffer stores that value in the
    [k]-th register of the read order. *)
Theorem write_read_round_trip (l shadow : list Z) (n k : nat) :
  regs16 l -> length shadow = 16%nat -> (n <= 14)%nat -> (k < n)%nat ->
  rx_reg (fm_write_registers_loop n l 0x2) k = reg_get l (0x2 + Z.of_nat k) /\
  reg_get (fm_read_registers_loop n (fm_write_registers_loop n l 0x2) 0 0xA shadow)
          ((0xA + Z.of_nat k) mod 16)
  = reg_get l (0x2 + Z.of_nat k).
Proof.
  intros H16 Hs Hn Hk.
  assert (E := rx_reg_write_loop n l 0x2 k H16 Hk).
  split; [exact E|].
  rewrite read_loop_spec; [| lia | exact Hs | pose proof (Z.mod_pos_bound (10 + Z.of_nat k) 16); lia].
  assert (Hp : read_position ((10 + Z.of_nat k) mod 16) = Z.of_nat k).
  { unfold read_position. rewrite Zminus_mod_idemp_l.
    replace (10 + Z.of_nat k - 10) with (Z.of_nat k) by lia.
    apply Z.mod_small. lia. }
  rewrite Hp. replace (Z.of_nat k <? Z.of_nat n) with true by (symmetry; apply Z.ltb_lt; lia).
  rewrite Nat2Z.id. exact E.
Qed.

(** ** Cached settings and shadow registers *)

Lemma reg_get_set (l : list Z) (i j v : Z) :
  0 <= i < Z.of_nat (length l) -> 0 <= j ->
  reg_get (reg_set l i v) j = if j =? i then v else reg_get l j.
Proof.
  intros Hi Hj. destruct (Z.eqb_spec j i) as [-> | Hne].
  - apply reg_get_set_same. exact Hi.
  - apply reg_get_set_other; lia.
Qed.

Lemma enum_val_ranges :
  (forall b, 0 <= band_val b < 2 ^ 2) /\
  (forall s, 0 <= spacing_val s < 2 ^ 2) /\
  (forall a, 0 <= attenuation_val a < 2 ^ 2) /\
  (forall x, 0 <= rate_val x < 2 ^ 2) /\
  (forall s, 0 <= fst (fst (seek_thresholds s)) < 2 ^ 8 /\
             0 <= snd (fst (seek_thresholds s)) < 2 ^ 4 /\
             0 <= snd (seek_thresholds s) < 2 ^ 4).
Proof.
  repeat split; try (destruct b; cbn; lia); try (destruct s; cbn; lia);
    try (destruct a; cbn; lia); try (destruct x; cbn; lia).
Qed.

(* The masks of the header as fields. *)
Ltac as_fields :=
  change VOLUME_BITS with (field 4 0) in *; change VOLUME_LSB with 0 in *;
  change SPACE_BITS with (field 2 4) in *; change SPACE_LSB with 4 in *;
  change BAND_BITS with (field 2 6) in *; change BAND_LSB with 6 in *;
  change SEEKTH_BITS with (field 8 8) in *; change SEEKTH_LSB with 8 in *;
  change SKCNT_BITS with (field 4 0) in *; change SKCNT_LSB with 0 in *;
  change SKSNR_BITS with (field 4 4) in *; change SKSNR_LSB with 4 in *;
  change SMUTEA_BITS with (field 2 12) in *; change SMUTEA_LSB with 12 in *;
  change SMUTER_BITS with (field 2 14) in *; change SMUTER_LSB with 14 in *;
  change CHAN_BITS with (field 10 0) in *; change CHAN_LSB with 0 in *;
  unfold ENABLE_BIT, DISABLE_BIT, SEEK_BIT, SEEKUP_BIT, SKMODE_BIT, MONO_BIT,
    DMUTE_BIT, DSMUTE_BIT, TUNE_BIT, DE_BIT, RDS_BIT, VOLEXT_BIT in *.

(* Reads of bits and fields after fm_set_bit / fm_set_bits, side conditions
   by arithmetic. *)
Ltac read_after_set :=
  repeat first
    [ rewrite fm_get_set_bit by lia
    | rewrite fm_get_set_bits_same by (try lia; cbn; lia)
    | rewrite fm_get_bits_set_bits_other by (try lia; cbn; lia)
    | rewrite fm_get_bits_set_bit_other by lia
    | rewrite fm_get_bit_set_bits_other by (try lia; cbn; lia) ];
  cbn [Z.eqb Pos.eqb].

Lemma enum_val_inj :
  (forall a b, rate_val a = rate_val b -> a = b) /\
  (forall a b, attenuation_val a = attenuation_val b -> a = b) /\
  (forall a b, seek_sensitivity_eqb a b = true -> a = b).
Proof.
  repeat split; intros a b; destruct a, b; cbn; intros H;
    first [reflexivity | discriminate H].
Qed.

(* After a setter's writes: every part of [setter_post] from the handle's. *)
Ltac setter_changed Hok Hl :=
  rewrite fm_write_registers_up_to_run by (cbv; split; discriminate);
  cbn [fst snd];
  eexists _, _; split; [reflexivity|]; split; [repeat split; reflexivity|];
  unfold setter_post, handle_ok, settings_in_shadow, fm_is_powered_up in *;
  cbn [regs mute mono softmute volume volext config seek_sensitivity
       softmute_attenuation softmute_rate async
       with_regs with_mute with_mono with_softmute with_volume with_volext
       with_seek_sensitivity with_softmute_attenuation with_softmute_rate] in *;
  unfold POWERCFG, SYSCONFIG1, SYSCONFIG2, SYSCONFIG3 in *;
  rewrite ?reg_get_set by (rewrite ?reg_set_length; try apply Hl; lia);
  cbn [Z.eqb Pos.eqb];
  as_fields; read_after_set;
  rewrite ?reg_set_length;
  repeat match goal with H : _ /\ _ |- _ => destruct H end;
  repeat split; try assumption; try reflexivity; try lia; try tauto;
  try (right; eexists _, _; reflexivity).

(** X4. On a sound, powered-up handle with no task in flight whose cached
    settings agree with its shadow registers, each setter returns, the
    matching getter then gives the value set (for the volume: clamped to 15),
    and the handle is again sound and powered up with no task and with its
    cached settings in the shadow; the call makes at most one bus
    transaction, a write. *)
Theorem setters_keep_settings_in_shadow (r : si470x_t) (w : world) :
  handle_ok r ->
  settings_in_shadow r ->
  fm_is_powered_up r = true ->
  task (async r) = NULL ->
  (forall v, exists r' w',
     fm_set_mute v (r, w) = (Ret tt, (r', w')) /\ fm_get_mute r' = v /\
     setter_post w r' w') /\
  (forall v, exists r' w',
     fm_set_softmute v (r, w) = (Ret tt, (r', w')) /\ fm_get_softmute r' = v /\
     setter_post w r' w') /\
  (forall v, exists r' w',
     fm_set_mono v (r, w) = (Ret tt, (r', w')) /\ fm_get_mono r' = v /\
     setter_post w r' w') /\
  (forall v, exists r' w',
     fm_set_softmute_rate v (r, w) = (Ret tt, (r', w')) /\
     fm_get_softmute_rate r' = v /\ setter_post w r' w') /\
  (forall v, exists r' w',
     fm_set_softmute_attenuation v (r, w) = (Ret tt, (r', w')) /\
     fm_get_softmute_attenuation r' = v /\ setter_post w r' w') /\
  (forall v, exists r' w',
     fm_set_seek_sensitivity v (r, w) = (Ret tt, (r', w')) /\
     fm_get_seek_sensitivity r' = v /\ setter_post w r' w') /\
  (forall v ext, 0 <= v -> exists r' w',
     fm_set_volume v ext (r, w) = (Ret tt, (r', w')) /\
     (fm_get_volume r' = Z.min v 15 /\ fm_get_volext r' = ext) /\
     setter_post w r' w').
Proof.
  intros Hok Hs Hp Ht.
  assert (Hl : forall i, 0 <= i < 16 -> 0 <= i < Z.of_nat (length (regs r)))
    by (intros i Hi; rewrite Hok; exact Hi).
  assert (Same : setter_post w r w) by (unfold setter_post; auto 10).
  destruct enum_val_ranges as (Rb & Rs & Ra & Rr & Rt).
  destruct enum_val_inj as (Ir & Ia & Is).
  repeat split; intros v.
  - unfold fm_set_mute, modify_reg. run. rewrite Hp, Ht. cbn [task_eqb].
    destruct (Bool.eqb (mute r) v) eqn:E.
    + apply Bool.eqb_prop in E. exists r, w. auto.
    + setter_changed Hok Hl.
  - unfold fm_set_softmute, modify_reg. run. rewrite Hp, Ht. cbn [task_eqb].
    destruct (Bool.eqb (softmute r) v) eqn:E.
    + apply Bool.eqb_prop in E. exists r, w. auto.
    + setter_changed Hok Hl.
  - unfold fm_set_mono, modify_reg. run. rewrite Hp, Ht. cbn [task_eqb].
    destruct (Bool.eqb (mono r) v) eqn:E.
    + apply Bool.eqb_prop in E. exists r, w. auto.
    + setter_changed Hok Hl.
  - unfold fm_set_softmute_rate, modify_reg. run. rewrite Hp, Ht. cbn [task_eqb].
    destruct (rate_val (softmute_rate r) =? rate_val v) eqn:E.
    + apply Z.eqb_eq, Ir in E. exists r, w. auto.
    + pose proof (Rr v). setter_changed Hok Hl.
  - unfold fm_set_softmute_attenuation, modify_reg. run. rewrite Hp, Ht. cbn [task_eqb].
    destruct (attenuation_val (softmute_attenuation r) =? attenuation_val v) eqn:E.
    + apply Z.eqb_eq, Ia in E. exists r, w. auto.
    + pose proof (Ra v). setter_changed Hok Hl.
  - unfold fm_set_seek_sensitivity, fm_get_seek_sensitivity. run.
    rewrite Hp, Ht. cbn [task_eqb].
    destruct (seek_sensitivity_eqb (seek_sensitivity r) v) eqn:E.
    + apply Is in E. exists r, w. auto.
    + destruct v; unfold fm_set_seek_sensitivity_bits; cbn [fst snd];
        setter_changed Hok Hl.
  - intros ext Hv. unfold fm_set_volume, modify_reg, FM_MAX_VOLUME. run.
    rewrite Hp, Ht. cbn [task_eqb].
    destruct ((volume r =? Z.min v 15) && Bool.eqb (volext r) ext) eqn:E.
    + apply andb_true_iff in E. destruct E as [E1 E2].
      apply Z.eqb_eq in E1. apply Bool.eqb_prop in E2. exists r, w. auto.
    + assert (Hm : 0 <= Z.min v 15 < 2 ^ 4) by lia.
      setter_changed Hok Hl.
Qed.

(** ** Polling *)

Lemma wait_stc_cleared_world (fuel : nat) (r : si470x_t) (w : world)
    (o : outcome unit) (m' : machine) :
  wait_stc_cleared fuel (r, w) = (o, m') ->
  bus (snd m') = bus w /\ time_us (snd m') = time_us w.
Proof.
  revert r w. induction fuel as [|fuel IH]; intros r w E.
  - cbn in E. inversion E; subst. auto.
  - rewrite wait_stc_cleared_step in E. cbn zeta in E.
    destruct (fm_get_bit _ _).
    + apply IH in E. cbn [bus time_us emit next_txn] in E. exact E.
    + inversion E; subst. cbn. auto.
Qed.

(* What the clean-up of a task leaves when it returns. *)
Lemma task_cleanup_post (i bit : Z) (fuel : nat) (res : Z) (r : si470x_t) (w : world)
    (p : fm_async_progress_t) (m' : machine) :
  2 <= i <= 15 ->
  task_cleanup i bit fuel res (r, w) = (Ret p, m') ->
  p = mk_progress true res /\
  bus (snd m') = bus w /\ time_us (snd m') = time_us w /\
  exists l',
    agree_except [STATUSRSSI; READCHAN]
      (reg_set (regs r) i (fm_set_bit (reg_get (regs r) i) bit false)) l' /\
    fst m' = with_frequency (with_regs r l') (read_channel (with_regs r l')).
Proof.
  intros Hi EX.
  unfold task_cleanup, modify_reg in EX.
  unfold bind at 1 in EX. unfold modify at 1 in EX. cbn [fst snd] in EX.
  unfold bind at 1 in EX. rewrite fm_write_registers_up_to_run in EX by exact Hi.
  set (r1 := with_regs r _) in EX. set (w1 := emit _ _) in EX.
  unfold bind at 1 in EX.
  destruct (wait_stc_cleared fuel (r1, w1)) as [o [r2 w2]] eqn:E2.
  destruct (wait_stc_cleared_world _ _ _ _ _ E2) as [B2 T2].
  destruct (wait_stc_cleared_frame fuel r1 w1) as (l2 & w2' & A2 & [[E2' _] | E2']);
    rewrite E2' in E2; inversion E2; subst o r2 w2; [|discriminate EX].
  unfold bind at 1 in EX.
  destruct (read_up_to_READCHAN_frame (with_regs r1 l2) w2') as (ok & l3 & E3 & A3).
  rewrite E3 in EX. unfold store_read_channel in EX. revert EX. run. intros EX.
  inversion EX; subst p m'; clear EX. cbn [fst snd bus time_us emit next_txn].
  split; [reflexivity|]. split; [exact B2|]. split; [exact T2|].
  exists l3. split; [|reflexivity].
  eapply agree_except_trans; [|exact A3].
  eapply agree_except_weaken; [|exact A2].
  intros x [<- | []]; left; reflexivity.
Qed.

(* fm_set_frequency_async_task with [cancel = false], after its first read. *)
Lemma tune_poll_run (fuel : nat) (r : si470x_t) (w : world) :
  task (async r) = fm_set_frequency_async_task_ptr -> state (async r) = 1 ->
  let rb := bus w (txn w) in
  let w1 := emit (EvRead 2 (fst rb)) (next_txn w) in
  let r1 := if fst rb =? 2
            then with_regs r (reg_set (regs r) STATUSRSSI (status_of (snd rb)))
            else r in
  fm_set_frequency_async_task fuel false (r, w) =
    if fm_get_bit (reg_get (regs r1) STATUSRSSI) STC_BIT
    then task_cleanup CHANNEL TUNE_BIT fuel 0 (r1, w1)
    else (Ret (mk_progress false 0),
          (with_async r1
             (mk_async fm_set_frequency_async_task_ptr 1
                (u64 (u64 (time_us w) + TUNE_POLL_INTERVAL_MS * 1000))), w1)).
Proof.
  intros Ht Hs. cbn zeta.
  unfold fm_set_frequency_async_task. run. rewrite Ht, Hs. cbn [task_eqb Z.eqb Pos.eqb].
  rewrite fm_read_registers_up_to_run by (cbv; split; [discriminate | reflexivity]).
  cbn zeta. change (if STATUSRSSI <? 10 then STATUSRSSI + 7 else STATUSRSSI - 9) with 1.
  change (1 * 2) with 2.
  destruct (fst (bus w (txn w)) =? 2); cbn [fst snd]; rewrite ?read_one_register;
    (match goal with |- context [fm_get_bit ?a STC_BIT] => destruct (fm_get_bit a STC_BIT) end;
     cbn [negb]; [reflexivity|]);
    unfold set_resume_time, time_us_64; run; unfold with_regs;
    cbn [async task state time_us emit next_txn];
    rewrite ?Ht, ?Hs; reflexivity.
Qed.

Lemma agree_except_get (skip l l' : list Z) (j : Z) :
  agree_except skip l l' -> 0 <= j -> ~ In j skip -> reg_get l' j = reg_get l j.
Proof. intros [_ A]. apply A. Qed.

Lemma agree_except_set_left (skip l l' : list Z) (i v : Z) :
  In i skip -> 0 <= i -> agree_except skip (reg_set l i v) l' -> agree_except skip l l'.
Proof.
  intros Hin Hi A. eapply agree_except_trans; [|exact A].
  apply agree_except_reg_set; assumption.
Qed.

(** X5. fm_set_frequency_async_task, polled on a slot that holds it, reads
    STATUSRSSI alone and decides by the STC bit of the shadow, which is the
    old one when the read fails.  With STC clear it is not done: the
    frequency and every register but STATUSRSSI are as before and the resume
    time is the clock plus the tune interval.  With STC set, whenever it
    returns it is done with result 0 (the SFBL flag plays no part, unlike in
    a seek), the TUNE bit of the shadow is clear, the frequency is the one of
    the channel in the shadow READCHAN, only CHANNEL, STATUSRSSI and READCHAN
    may differ and the slot is untouched; and it returns as soon as the chip
    clears STC within the fuel. *)
Theorem tune_task_outcomes (fuel : nat) (r : si470x_t) (w : world) (n : nat) :
  handle_ok r ->
  task (async r) = fm_set_frequency_async_task_ptr -> state (async r) = 1 ->
  let rb := bus w (txn w) in
  let status := if fst rb =? 2 then status_of (snd rb) else reg_get (regs r) STATUSRSSI in
  let w1 := emit (EvRead 2 (fst rb)) (next_txn w) in
  (fm_get_bit status STC_BIT = false ->
   exists r',
     fm_set_frequency_async_task fuel false (r, w) = (Ret (mk_progress false 0), (r', w1)) /\
     frequency r' = frequency r /\
     async r' = mk_async fm_set_frequency_async_task_ptr 1
                  (u64 (u64 (time_us w) + TUNE_POLL_INTERVAL_MS * 1000)) /\
     agree_except [STATUSRSSI] (regs r) (regs r') /\
     reg_get (regs r') STATUSRSSI = status) /\
  (fm_get_bit status STC_BIT = true ->
   (forall p m',
      fm_set_frequency_async_task fuel false (r, w) = (Ret p, m') ->
      p = mk_progress true 0 /\
      frequency (fst m') = read_channel (fst m') /\
      fm_get_bit (reg_get (regs (fst m')) CHANNEL) TUNE_BIT = false /\
      agree_except [CHANNEL; STATUSRSSI; READCHAN] (regs r) (regs (fst m')) /\
      async (fst m') = async r) /\
   (chip_settles w (S (S (txn w))) n -> (n <= fuel)%nat ->
    exists m', fm_set_frequency_async_task fuel false (r, w) =
                 (Ret (mk_progress true 0), m'))).
Proof.
  intros Hok Ht Hs. cbn zeta.
  pose proof (tune_poll_run fuel r w Ht Hs) as Ep. cbn zeta in Ep.
  set (rb := bus w (txn w)) in *. set (w1 := emit _ _) in *.
  set (r1 := if fst rb =? 2 then _ else r) in *.
  assert (Hlen : 0 <= STATUSRSSI < Z.of_nat (length (regs r)))
    by (rewrite Hok; cbv; split; [discriminate | reflexivity]).
  assert (Est : reg_get (regs r1) STATUSRSSI =
                if fst rb =? 2 then status_of (snd rb) else reg_get (regs r) STATUSRSSI).
  { subst r1. destruct (fst rb =? 2); [|reflexivity].
    cbn [regs with_regs]. apply reg_get_set_same. exact Hlen. }
  assert (A1 : agree_except [STATUSRSSI] (regs r) (regs r1)).
  { subst r1. destruct (fst rb =? 2); [|apply agree_except_refl].
    cbn [regs with_regs]. apply agree_except_reg_set; cbn; auto; discriminate. }
  assert (Hok1 : handle_ok r1)
    by (unfold handle_ok; destruct A1 as [L _]; rewrite L; exact Hok).
  assert (Ef1 : frequency r1 = frequency r /\ async r1 = async r)
    by (subst r1; destruct (fst rb =? 2); split; reflexivity).
  rewrite <- Est. split.
  - intros Hstc. rewrite Hstc in Ep. eexists. split; [exact Ep|].
    cbn [frequency async regs with_async].
    split; [apply Ef1|]. split; [reflexivity|]. split; [exact A1 | reflexivity].
  - intros Hstc. rewrite Hstc in Ep.
    assert (Hi : 2 <= CHANNEL <= 15) by (cbv; split; discriminate).
    split.
    + intros p m' E. rewrite Ep in E.
      destruct (task_cleanup_post _ _ _ _ _ _ _ _ Hi E) as (Hp & _ & _ & l' & A & Em).
      rewrite Em. cbn [frequency async regs with_regs with_frequency].
      split; [exact Hp|]. split; [reflexivity|]. split; [|split].
      * rewrite (agree_except_get _ _ _ CHANNEL A);
          [| cbv; discriminate | cbv; intuition discriminate].
        rewrite reg_get_set_same
          by (rewrite Hok1; cbv; split; [discriminate | reflexivity]).
        exact (fm_get_set_bit _ 15 15 false ltac:(lia) ltac:(lia)).
      * eapply agree_except_trans.
        -- eapply agree_except_weaken; [|exact A1].
           intros x [<- | []]; right; left; reflexivity.
        -- eapply agree_except_set_left; [left; reflexivity | cbv; discriminate |].
           eapply agree_except_weaken; [|exact A].
           intros x Hx; right; exact Hx.
      * apply Ef1.
    + intros Hset Hn. rewrite Ep.
      apply (task_cleanup_returns _ _ _ _ _ _ n); assumption.
Qed.

(* fm_seek_async_task with [cancel = false], after its first read. *)
Lemma seek_poll_run (fuel : nat) (r : si470x_t) (w : world) :
  task (async r) = fm_seek_async_task_ptr -> state (async r) = 1 ->
  let rb := bus w (txn w) in
  let w1 := emit (EvRead 4 (fst rb)) (next_txn w) in
  let r1 := if fst rb =? 4
            then with_regs r (fm_read_registers_loop (Z.to_nat 2) (snd rb) 0 0xA (regs r))
            else r in
  let st := reg_get (regs r1) STATUSRSSI in
  fm_seek_async_task fuel false (r, w) =
    if fm_get_bit st STC_BIT
    then task_cleanup POWERCFG SEEK_BIT fuel (if fm_get_bit st SFBL_BIT then -1 else 0) (r1, w1)
    else (Ret (mk_progress false 0),
          (with_async (with_frequency r1 (read_channel r1))
             (mk_async fm_seek_async_task_ptr 1
                (u64 (u64 (time_us w) + SEEK_POLL_INTERVAL_MS * 1000))), w1)).
Proof.
  intros Ht Hs. cbn zeta.
  unfold fm_seek_async_task. run. rewrite Ht, Hs. cbn [task_eqb Z.eqb Pos.eqb].
  rewrite fm_read_registers_up_to_run by (cbv; split; [discriminate | reflexivity]).
  cbn zeta. change (if READCHAN <? 10 then READCHAN + 7 else READCHAN - 9) with 2.
  change (2 * 2) with 4.
  destruct (fst (bus w (txn w)) =? 4); cbn [fst snd regs with_regs];
    (match goal with |- context [fm_get_bit ?a STC_BIT] => destruct (fm_get_bit a STC_BIT) end;
     cbn [negb];
     [match goal with |- context [fm_get_bit ?a SFBL_BIT] => destruct (fm_get_bit a SFBL_BIT) end;
      reflexivity|]);
    unfold store_read_channel, set_resume_time, time_us_64; run;
    unfold read_channel, with_frequency, with_regs;
    cbn [async task state regs config time_us emit next_txn];
    rewrite ?Ht, ?Hs; reflexivity.
Qed.

(** ** Settings are kept *)

Lemma regs_kept_refl (l : list Z) : regs_kept l l.
Proof. unfold regs_kept. auto 10. Qed.

Lemma regs_kept_trans (l1 l2 l3 : list Z) :
  regs_kept l1 l2 -> regs_kept l2 l3 -> regs_kept l1 l3.
Proof.
  intros (L1 & A1 & B1 & C1 & D1 & E1) (L2 & A2 & B2 & C2 & D2 & E2).
  unfold regs_kept. repeat split; try congruence.
  intros k Hk. rewrite E2, E1; auto.
Qed.

Lemma regs_kept_agree (skip l l' : list Z) :
  agree_except skip l l' ->
  (forall j, In j [CHIPID; POWERCFG; SYSCONFIG1; SYSCONFIG2; SYSCONFIG3] -> ~ In j skip) ->
  regs_kept l l'.
Proof.
  intros [L A] Hs. unfold regs_kept.
  split; [exact L|].
  rewrite !A; try (cbv; discriminate); try (apply Hs; cbn; auto 10).
  repeat split. 
Qed.

Lemma regs_kept_set_other (l : list Z) (i v : Z) :
  0 <= i -> ~ In i [CHIPID; POWERCFG; SYSCONFIG1; SYSCONFIG2; SYSCONFIG3] ->
  regs_kept l (reg_set l i v).
Proof.
  intros Hi Hn. apply (regs_kept_agree [i]).
  - apply agree_except_reg_set; [exact Hi | left; reflexivity].
  - intros j Hj [<- | []]. contradiction.
Qed.

Lemma regs_kept_set_bit (l : list Z) (k : Z) (b : bool) :
  0 <= k < 16 -> ~ In k power_setting_bits ->
  regs_kept l (reg_set l POWERCFG (fm_set_bit (reg_get l POWERCFG) (Z.shiftl 1 k) b)).
Proof.
  intros Hk Hn. unfold regs_kept. split; [apply reg_set_length|].
  rewrite !reg_get_set_other by (cbv; discriminate).
  repeat split.
  intros j Hj.
  destruct (Z_lt_dec 2 (Z.of_nat (length l))) as [Hl | Hl].
  - rewrite reg_get_set_same by (split; [cbv; discriminate | exact Hl]).
    rewrite fm_get_set_bit;
      [| exact Hk | cbn in Hj; decompose [or] Hj; subst; try lia; contradiction].
    destruct (Z.eqb_spec j k) as [-> | _]; [contradiction | reflexivity].
  - assert (E : reg_set l POWERCFG (fm_set_bit (reg_get l POWERCFG) (Z.shiftl 1 k) b) = l).
    { unfold reg_set. change (Z.to_nat POWERCFG) with 2%nat.
      destruct l as [|a [|a' [|a'' t]]]; cbn in Hl |- *; try reflexivity. lia. }
    rewrite E. reflexivity.
Qed.

Lemma settings_kept_refl (r : si470x_t) : settings_kept r r.
Proof. split; [reflexivity | apply regs_kept_refl]. Qed.

Lemma settings_kept_trans (r1 r2 r3 : si470x_t) :
  settings_kept r1 r2 -> settings_kept r2 r3 -> settings_kept r1 r3.
Proof.
  intros [C1 K1] [C2 K2]. split; [congruence | eapply regs_kept_trans; eassumption].
Qed.

(* A handle with the settings of a sound one is as sound. *)
Lemma settings_kept_sound (r r' : si470x_t) :
  settings_kept r r' ->
  (handle_ok r -> handle_ok r') /\
  fm_is_powered_up r' = fm_is_powered_up r /\
  fm_is_rds_supported r' = fm_is_rds_supported r /\
  (settings_in_shadow r -> settings_in_shadow r').
Proof.
  intros [C (L & A & B & Cc & D & E)].
  unfold cache_of in C. inversion C as [[C1 C2 C3 C4 C5 C6 C7 C8 C9]].
  assert (Ek : forall k, In k power_setting_bits ->
            fm_get_bit (reg_get (regs r') POWERCFG) (Z.shiftl 1 k) =
            fm_get_bit (reg_get (regs r) POWERCFG) (Z.shiftl 1 k)) by exact E.
  assert (Ep : fm_is_powered_up r' = fm_is_powered_up r)
    by (apply (Ek 0); cbn; auto).
  split; [unfold handle_ok; congruence|].
  split; [exact Ep|].
  split; [unfold fm_is_rds_supported; rewrite A; reflexivity|].
  unfold settings_in_shadow. cbn zeta.
  rewrite B, Cc, D, Ep, C1, C2, C3, C4, C5, C6, C7, C8, C9.
  change DMUTE_BIT with (Z.shiftl 1 14). change MONO_BIT with (Z.shiftl 1 13).
  change DSMUTE_BIT with (Z.shiftl 1 15).
  rewrite (Ek 14), (Ek 13), (Ek 15) by (cbn; auto 10).
  exact (fun H => H).
Qed.

(** ** Starting a task *)

Lemma with_regs_with_regs (r : si470x_t) (a b : list Z) :
  with_regs (with_regs r a) b = with_regs r b.
Proof. reflexivity. Qed.

Lemma fm_seek_async_run (d : fm_seek_direction_t) (r : si470x_t) (w : world) :
  fm_is_powered_up r = true -> task (async r) = NULL ->
  let up := match d with FM_SEEK_UP => true | FM_SEEK_DOWN => false end in
  let pc := fm_set_bit (fm_set_bit (fm_set_bit (reg_get (regs r) POWERCFG)
                          SKMODE_BIT false) SEEKUP_BIT up) SEEK_BIT true in
  let l' := reg_set (regs r) POWERCFG pc in
  handle_ok r ->
  fm_seek_async d (r, w) =
    (Ret tt,
     (with_async (with_regs r l')
        (mk_async fm_seek_async_task_ptr 1
           (u64 (u64 (time_us w) + SEEK_POLL_INTERVAL_MS * 1000))),
      emit (EvWrite (be16 pc) (fst (bus w (txn w)))) (next_txn w))).
Proof.
  intros Hp Ht up pc l' Hok. unfold fm_seek_async, modify_reg. run. rewrite Hp, Ht.
  cbn [task_eqb].
  rewrite fm_write_registers_up_to_run by (cbv; split; discriminate).
  unfold time_us_64. cbn [fst snd regs with_regs time_us emit next_txn].
  assert (Hl : forall l v, length l = 16%nat ->
            reg_set (reg_set l POWERCFG v) POWERCFG = reg_set l POWERCFG)
    by (intros l v Hlen; apply list16 in Hlen; destruct Hlen as (x0 & x1 & x2 & x3 & x4 & x5 & x6 &
          x7 & x8 & x9 & xa & xb & xc & xd & xe & xf & ->); reflexivity).
  assert (Hg : forall l v, length l = 16%nat -> reg_get (reg_set l POWERCFG v) POWERCFG = v)
    by (intros l v Hlen; apply reg_get_set_same; rewrite Hlen; cbv; split;
        [discriminate | reflexivity]).
  rewrite !Hg by (rewrite ?reg_set_length; exact Hok).
  rewrite !Hl by (rewrite ?reg_set_length; exact Hok).
  fold up. fold pc. fold l'.
  change (Z.to_nat (POWERCFG - 1)) with 1%nat. cbn [fm_write_registers_loop].
  rewrite !with_regs_with_regs.
  change (reg_get l' 2) with (reg_get l' POWERCFG).
  replace (reg_get l' POWERCFG) with pc by (symmetry; apply Hg; exact Hok).
  reflexivity.
Qed.

Lemma fm_set_frequency_async_run (f : F32.float) (c : Z) (r : si470x_t) (w : world) :
  fm_is_powered_up r = true -> task (async r) = NULL ->
  fm_frequency_to_channel f (fm_get_frequency_range r) = Some c ->
  let ch := fm_set_bit (fm_set_bits (reg_get (regs r) CHANNEL) CHAN_BITS CHAN_LSB c)
              TUNE_BIT true in
  let l' := reg_set (regs r) CHANNEL ch in
  handle_ok r ->
  fm_set_frequency_async f (r, w) =
    (Ret tt,
     (with_async (with_regs r l')
        (mk_async fm_set_frequency_async_task_ptr 1
           (u64 (u64 (time_us w) + TUNE_POLL_INTERVAL_MS * 1000))),
      emit (EvWrite (be16 (reg_get (regs r) POWERCFG) ++ be16 ch) (fst (bus w (txn w))))
        (next_txn w))).
Proof.
  intros Hp Ht Hc ch l' Hok. unfold fm_set_frequency_async, modify_reg. run.
  rewrite Hp, Ht, Hc. cbn [task_eqb].
  rewrite fm_write_registers_up_to_run by (cbv; split; discriminate).
  unfold time_us_64. cbn [fst snd regs with_regs time_us emit next_txn].
  assert (Hl : forall l v, length l = 16%nat ->
            reg_set (reg_set l CHANNEL v) CHANNEL = reg_set l CHANNEL)
    by (intros l v Hlen; apply list16 in Hlen; destruct Hlen as (x0 & x1 & x2 & x3 & x4 & x5 & x6 &
          x7 & x8 & x9 & xa & xb & xc & xd & xe & xf & ->); reflexivity).
  assert (Hg : forall l v, length l = 16%nat -> reg_get (reg_set l CHANNEL v) CHANNEL = v)
    by (intros l v Hlen; apply reg_get_set_same; rewrite Hlen; cbv; split;
        [discriminate | reflexivity]).
  rewrite !Hg by (rewrite ?reg_set_length; exact Hok).
  rewrite !Hl by (rewrite ?reg_set_length; exact Hok).
  fold ch. fold l'.
  change (Z.to_nat (CHANNEL - 1)) with 2%nat. cbn [fm_write_registers_loop].
  rewrite !with_regs_with_regs.
  change (reg_get l' 2) with (reg_get l' POWERCFG).
  change (reg_get l' (2 + 1)) with (reg_get l' CHANNEL).
  replace (reg_get l' CHANNEL) with ch by (symmetry; apply Hg; exact Hok).
  replace (reg_get l' POWERCFG) with (reg_get (regs r) POWERCFG)
    by (symmetry; apply reg_get_set_other; cbv; discriminate).
  reflexivity.
Qed.

(* Neither starter touches a setting. *)
Lemma seek_start_kept (r : si470x_t) (up : bool) (a : fm_async_state_t) :
  handle_ok r ->
  settings_kept r
    (with_async
       (with_regs r
          (reg_set (regs r) POWERCFG
             (fm_set_bit (fm_set_bit (fm_set_bit (reg_get (regs r) POWERCFG)
                                        SKMODE_BIT false) SEEKUP_BIT up) SEEK_BIT true))) a).
Proof.
  intros Hok.
  assert (H2 : 0 <= POWERCFG < Z.of_nat (length (regs r)))
    by (rewrite Hok; cbv; split; [discriminate | reflexivity]).
  split; [reflexivity|]. cbn [regs with_async with_regs].
  unfold regs_kept. split; [apply reg_set_length|].
  rewrite !reg_get_set_other by (cbv; discriminate).
  rewrite reg_get_set_same by exact H2.
  repeat split. intros k Hk.
  assert (Hk16 : 0 <= k < 16 /\ k <> 8 /\ k <> 9 /\ k <> 10)
    by (cbn in Hk; decompose [or] Hk; subst; try lia; contradiction).
  change SEEK_BIT with (Z.shiftl 1 8). change SEEKUP_BIT with (Z.shiftl 1 9).
  change SKMODE_BIT with (Z.shiftl 1 10).
  rewrite !fm_get_set_bit by lia.
  replace (k =? 8) with false by (symmetry; apply Z.eqb_neq; lia).
  replace (k =? 9) with false by (symmetry; apply Z.eqb_neq; lia).
  replace (k =? 10) with false by (symmetry; apply Z.eqb_neq; lia).
  reflexivity.
Qed.

Lemma tune_start_kept (r : si470x_t) (v : Z) (a : fm_async_state_t) :
  settings_kept r (with_async (with_regs r (reg_set (regs r) CHANNEL v)) a).
Proof.
  split; [reflexivity|]. cbn [regs with_async with_regs].
  apply regs_kept_set_other; [cbv; discriminate | cbv; intuition discriminate].
Qed.

(** X6. On a powered-up handle with an empty slot, fm_seek_async makes one
    bus transaction, a write of POWERCFG alone, with SEEK set, SKMODE clear
    and SEEKUP as the direction asks; fm_set_frequency_async, for a frequency
    whose channel fits the ten bits of CHAN, makes one write of POWERCFG and
    CHANNEL, with TUNE set and CHAN the channel, whether or not the frequency
    lies in the band.  Both put their task in the slot, due one poll interval
    after the clock, keep every setting and leave the cached frequency alone;
    neither looks at the result of the write. *)
Theorem async_start_writes_start_bit (r : si470x_t) (w : world) :
  handle_ok r -> fm_is_powered_up r = true -> task (async r) = NULL ->
  (forall d, exists r' data,
     fm_seek_async d (r, w) =
       (Ret tt, (r', emit (EvWrite data (fst (bus w (txn w)))) (next_txn w))) /\
     data = be16 (reg_get (regs r') POWERCFG) /\
     fm_get_bit (reg_get (regs r') POWERCFG) SEEK_BIT = true /\
     fm_get_bit (reg_get (regs r') POWERCFG) SKMODE_BIT = false /\
     fm_get_bit (reg_get (regs r') POWERCFG) SEEKUP_BIT =
       match d with FM_SEEK_UP => true | FM_SEEK_DOWN => false end /\
     async r' = mk_async fm_seek_async_task_ptr 1
                  (u64 (u64 (time_us w) + SEEK_POLL_INTERVAL_MS * 1000)) /\
     agree_except [POWERCFG] (regs r) (regs r') /\
     settings_kept r r' /\ frequency r' = frequency r) /\
  (forall f c,
     fm_frequency_to_channel f (fm_get_frequency_range r) = Some c -> 0 <= c < 2 ^ 10 ->
     exists r' data,
       fm_set_frequency_async f (r, w) =
         (Ret tt, (r', emit (EvWrite data (fst (bus w (txn w)))) (next_txn w))) /\
       data = be16 (reg_get (regs r') POWERCFG) ++ be16 (reg_get (regs r') CHANNEL) /\
       fm_get_bit (reg_get (regs r') CHANNEL) TUNE_BIT = true /\
       fm_get_bits (reg_get (regs r') CHANNEL) CHAN_BITS CHAN_LSB = c /\
       async r' = mk_async fm_set_frequency_async_task_ptr 1
                    (u64 (u64 (time_us w) + TUNE_POLL_INTERVAL_MS * 1000)) /\
       agree_except [CHANNEL] (regs r) (regs r') /\
       settings_kept r r' /\ frequency r' = frequency r).
Proof.
  intros Hok Hp Ht.
  assert (H2 : 0 <= POWERCFG < Z.of_nat (length (regs r)))
    by (rewrite Hok; cbv; split; [discriminate | reflexivity]).
  assert (H3 : 0 <= CHANNEL < Z.of_nat (length (regs r)))
    by (rewrite Hok; cbv; split; [discriminate | reflexivity]).
  split.
  - intros d. pose proof (fm_seek_async_run d r w Hp Ht) as E. cbn zeta in E.
    specialize (E Hok). eexists _, _. split; [exact E|].
    cbn [regs async frequency with_async with_regs].
    rewrite reg_get_set_same by exact H2.
    split; [reflexivity|].
    split; [exact (fm_get_set_bit _ 8 8 true ltac:(lia) ltac:(lia))|].
    split.
    { etransitivity; [exact (fm_get_set_bit _ 8 10 true ltac:(lia) ltac:(lia))|].
      etransitivity; [exact (fm_get_set_bit _ 9 10 _ ltac:(lia) ltac:(lia))|].
      exact (fm_get_set_bit _ 10 10 false ltac:(lia) ltac:(lia)). }
    split.
    { etransitivity; [exact (fm_get_set_bit _ 8 9 true ltac:(lia) ltac:(lia))|].
      exact (fm_get_set_bit _ 9 9 _ ltac:(lia) ltac:(lia)). }
    split; [reflexivity|].
    split; [apply agree_except_reg_set; [cbv; discriminate | left; reflexivity]|].
    split; [|reflexivity].
    apply seek_start_kept. exact Hok.
  - intros f c Hc Hfit.
    pose proof (fm_set_frequency_async_run f c r w Hp Ht Hc) as E. cbn zeta in E.
    specialize (E Hok). eexists _, _. split; [exact E|].
    cbn [regs async frequency with_async with_regs].
    rewrite reg_get_set_same by exact H3.
    rewrite reg_get_set_other by (cbv; discriminate).
    split; [reflexivity|].
    split; [exact (fm_get_set_bit _ 15 15 true ltac:(lia) ltac:(lia))|].
    split.
    { change CHAN_BITS with (field 10 0). change CHAN_LSB with 0.
      change TUNE_BIT with (Z.shiftl 1 15).
      rewrite fm_get_bits_set_bit_other by lia.
      apply fm_get_set_bits_same; lia. }
    split; [reflexivity|].
    split; [apply agree_except_reg_set; [cbv; discriminate | left; reflexivity]|].
    split; [|reflexivity].
    apply tune_start_kept.
Qed.

(** ** A tick that is due *)

Lemma task_cleanup_kept (i bit : Z) (fuel : nat) (res : Z) (r : si470x_t) (w : world)
    (p : fm_async_progress_t) (m' : machine) :
  handle_ok r ->
  (i = CHANNEL /\ bit = TUNE_BIT) \/ (i = POWERCFG /\ bit = SEEK_BIT) ->
  task_cleanup i bit fuel res (r, w) = (Ret p, m') ->
  p = mk_progress true res /\
  settings_kept r (fst m') /\
  async (fst m') = async r /\
  frequency (fst m') = read_channel (fst m') /\
  fm_get_bit (reg_get (regs (fst m')) i) bit = false /\
  bus (snd m') = bus w /\ time_us (snd m') = time_us w.
Proof.
  intros Hok Hib E.
  assert (Hi : 2 <= i <= 15) by (destruct Hib as [[-> _] | [-> _]]; cbv; split; discriminate).
  destruct (task_cleanup_post _ _ _ _ _ _ _ _ Hi E) as (Hp & B & T & l' & A & Em).
  rewrite Em. cbn [frequency async regs with_regs with_frequency].
  split; [exact Hp|]. split; [|split; [reflexivity|split; [reflexivity|split; [|split; assumption]]]].
  - split; [reflexivity|]. cbn [regs with_regs with_frequency].
    eapply regs_kept_trans;
      [| apply (regs_kept_agree _ _ _ A); intros j Hj Hs; cbv in Hj, Hs; lia].
    destruct Hib as [[-> ->] | [-> ->]].
    + apply regs_kept_set_other; [cbv; discriminate | cbv; intuition discriminate].
    + apply (regs_kept_set_bit _ 8); [lia | cbv; intuition discriminate].
  - rewrite (agree_except_get _ _ _ i A);
      [| lia | destruct Hib as [[-> _] | [-> _]]; cbv; intuition discriminate].
    rewrite reg_get_set_same by (rewrite Hok; lia).
    destruct Hib as [[-> ->] | [-> ->]].
    + exact (fm_get_set_bit _ 15 15 false ltac:(lia) ltac:(lia)).
    + exact (fm_get_set_bit _ 8 8 false ltac:(lia) ltac:(lia)).
Qed.

(* The registers a poll read may change hold no setting. *)
Lemma poll_read_kept (r : si470x_t) (buf : list Z) (n : nat) :
  (n <= 2)%nat ->
  settings_kept r (with_regs r (fm_read_registers_loop n buf 0 0xA (regs r))).
Proof.
  intros Hn. split; [reflexivity|]. cbn [regs with_regs].
  destruct n as [|[|[|n]]]; [apply regs_kept_refl | | | lia]; cbn [fm_read_registers_loop].
  - apply regs_kept_set_other; [cbv; discriminate | cbv; intuition discriminate].
  - eapply regs_kept_trans;
      apply regs_kept_set_other; try (cbv; discriminate); cbv; intuition discriminate.
Qed.

(* Either task, polled through the function pointer. *)
Lemma call_task_poll (fuel : nat) (r : si470x_t) (w : world) :
  handle_ok r -> task (async r) <> NULL -> state (async r) = 1 ->
  let t := task (async r) in
  let w1 := emit (EvRead (poll_bytes t) (fst (bus w (txn w)))) (next_txn w) in
  exists r1,
    settings_kept r r1 /\ handle_ok r1 /\ async r1 = async r /\ frequency r1 = frequency r /\
    (fst (bus w (txn w)) = poll_bytes t ->
     reg_get (regs r1) STATUSRSSI = status_of (snd (bus w (txn w)))) /\
    call_task fuel t false (r, w) =
      if fm_get_bit (reg_get (regs r1) STATUSRSSI) STC_BIT
      then task_cleanup (start_register t) (start_bit t) fuel
             (match t with
              | fm_seek_async_task_ptr =>
                  if fm_get_bit (reg_get (regs r1) STATUSRSSI) SFBL_BIT then -1 else 0
              | _ => 0
              end) (r1, w1)
      else (Ret (mk_progress false 0),
            (with_async
               (match t with
                | fm_seek_async_task_ptr => with_frequency r1 (read_channel r1)
                | _ => r1
                end)
               (mk_async t 1 (u64 (u64 (time_us w) + poll_interval_ms t * 1000))), w1)).
Proof.
  intros Hok Ht Hs. cbn zeta.
  destruct (task (async r)) eqn:Et; [contradiction | |];
    cbn [call_task poll_bytes poll_interval_ms start_register start_bit].
  - pose proof (tune_poll_run fuel r w Et Hs) as E. cbn zeta in E.
    exists (if fst (bus w (txn w)) =? 2
            then with_regs r (reg_set (regs r) STATUSRSSI (status_of (snd (bus w (txn w)))))
            else r).
    split; [|split; [|split; [|split; [|split; [|exact E]]]]]; clear E.
    + destruct (fst (bus w (txn w)) =? 2); [|apply settings_kept_refl].
      rewrite <- read_one_register. apply poll_read_kept. cbn; lia.
    + unfold handle_ok. destruct (fst (bus w (txn w)) =? 2); [|exact Hok].
      cbn [regs with_regs]. rewrite reg_set_length. exact Hok.
    + destruct (fst (bus w (txn w)) =? 2); reflexivity.
    + destruct (fst (bus w (txn w)) =? 2); reflexivity.
    + intros ->. cbn [Z.eqb Pos.eqb regs with_regs].
      apply reg_get_set_same. rewrite Hok. cbv; split; [discriminate | reflexivity].
  - pose proof (seek_poll_run fuel r w Et Hs) as E. cbn zeta in E.
    exists (if fst (bus w (txn w)) =? 4
            then with_regs r
                   (fm_read_registers_loop (Z.to_nat 2) (snd (bus w (txn w))) 0 0xA (regs r))
            else r).
    split; [|split; [|split; [|split; [|split; [|exact E]]]]]; clear E.
    + destruct (fst (bus w (txn w)) =? 4); [|apply settings_kept_refl].
      apply poll_read_kept. cbn; lia.
    + unfold handle_ok. destruct (fst (bus w (txn w)) =? 4); [|exact Hok].
      cbn [regs with_regs]. rewrite fm_read_registers_loop_length. exact Hok.
    + destruct (fst (bus w (txn w)) =? 4); reflexivity.
    + destruct (fst (bus w (txn w)) =? 4); reflexivity.
    + intros ->. cbn [Z.eqb Pos.eqb regs with_regs].
      change (Z.to_nat 2) with 2%nat. cbn [fm_read_registers_loop].
      rewrite reg_get_set_other by (cbv; discriminate).
      apply reg_get_set_same. rewrite Hok. cbv; split; [discriminate | reflexivity].
Qed.

Lemma fm_async_task_tick_due (fuel : nat) (r : si470x_t) (w : world) :
  task (async r) <> NULL -> resume_time (async r) <= u64 (time_us w) ->
  fm_async_task_tick fuel (r, w) =
    (progress <- call_task fuel (task (async r)) false ;;
     (if done progress then modify (fun r => with_async r async_empty) else ret tt) ;;
     ret progress) (r, w).
Proof.
  intros Ht Hdue. unfold fm_async_task_tick at 1, time_us_64. run.
  rewrite (task_eqb_NULL_false _ Ht). cbn [negb fst snd].
  replace (u64 (time_us w) <? resume_time (async r)) with false
    by (symmetry; apply Z.ltb_ge; exact Hdue).
  reflexivity.
Qed.

(* What a due tick leaves when it returns. *)
Lemma tick_due_cases (fuel : nat) (r : si470x_t) (w : world)
    (p : fm_async_progress_t) (r' : si470x_t) (w' : world) :
  handle_ok r -> task (async r) <> NULL -> state (async r) = 1 ->
  resume_time (async r) <= u64 (time_us w) ->
  fm_async_task_tick fuel (r, w) = (Ret p, (r', w')) ->
  let t := task (async r) in
  settings_kept r r' /\
  bus w' = bus w /\ time_us w' = time_us w /\
  ((done p = false /\ result p = 0 /\
    async r' = mk_async t 1 (u64 (u64 (time_us w) + poll_interval_ms t * 1000)) /\
    w' = emit (EvRead (poll_bytes t) (fst (bus w (txn w)))) (next_txn w) /\
    frequency r' = match t with
                   | fm_seek_async_task_ptr => read_channel r'
                   | _ => frequency r
                   end) \/
   (done p = true /\ (result p = 0 \/ result p = -1) /\
    (t = fm_set_frequency_async_task_ptr -> result p = 0) /\
    async r' = async_empty /\
    frequency r' = read_channel r' /\
    fm_get_bit (reg_get (regs r') (start_register t)) (start_bit t) = false)).
Proof.
  intros Hok Ht Hs Hdue E. cbn zeta.
  rewrite (fm_async_task_tick_due fuel r w Ht Hdue) in E.
  destruct (call_task_poll fuel r w Hok Ht Hs) as (r1 & K1 & Hok1 & A1 & F1 & _ & Ec).
  cbn zeta in Ec. unfold bind at 1 in E. rewrite Ec in E. clear Ec.
  destruct (fm_get_bit (reg_get (regs r1) STATUSRSSI) STC_BIT).
  - match type of E with context [task_cleanup ?i ?b ?f ?res ?m] =>
      destruct (task_cleanup i b f res m) as [o m1] eqn:E1
    end.
    destruct o; try discriminate E.
    assert (Hib : (start_register (task (async r)) = CHANNEL /\
                   start_bit (task (async r)) = TUNE_BIT) \/
                  (start_register (task (async r)) = POWERCFG /\
                   start_bit (task (async r)) = SEEK_BIT))
      by (destruct (task (async r)); [contradiction | left | right]; split; reflexivity).
    destruct (task_cleanup_kept _ _ _ _ _ _ _ _ Hok1 Hib E1)
      as (Hp & K & A & F & Bc & B & T).
    subst a. revert E. run. intros E. inversion E; subst p r' w'; clear E.
    cbn [done result async frequency regs with_async].
    split; [|split; [exact B|split; [exact T|right]]].
    + eapply settings_kept_trans; [exact K1|].
      destruct K as [C R]. split; [exact C | exact R].
    + split; [reflexivity|]. split.
      { destruct (task (async r)); auto.
        destruct (fm_get_bit (reg_get (regs r1) STATUSRSSI) SFBL_BIT); auto. }
      split.
      { intros ->. reflexivity. }
      split; [reflexivity|]. split; [exact F | exact Bc].
  - revert E. run. intros E. inversion E; subst p r' w'; clear E.
    cbn [done result async frequency regs with_async bus time_us emit next_txn].
    split; [|split; [reflexivity|split; [reflexivity|left]]].
    + eapply settings_kept_trans; [exact K1|].
      destruct (task (async r)); split; reflexivity || apply regs_kept_refl.
    + split; [reflexivity|]. split; [reflexivity|]. split; [reflexivity|].
      split; [reflexivity|].
      destruct (task (async r)); [exact F1 | exact F1 | reflexivity].
Qed.

(** X7. A tick at or after the resume time polls the task of the slot.
    Whenever it returns, no setting has changed, and either the task is not
    done: then the result is 0, the tick has made one bus transaction, a read
    of one register for a tune and of two for a seek, the slot still holds
    the task, due one poll interval after the clock, and the cached frequency
    is the one of the channel read so far for a seek and the old one for a
    tune; or the task is done: then the slot is empty, the result is 0 or -1
    (0 for a tune), the start bit of the shadow is clear and the cached
    frequency is the one of the channel in READCHAN.  The tick raises no
    assertion, and it returns when the chip clears STC within the fuel. *)
Theorem tick_polls_task (fuel : nat) (r : si470x_t) (w : world) (n : nat) :
  handle_ok r -> task (async r) <> NULL -> state (async r) = 1 ->
  resume_time (async r) <= u64 (time_us w) ->
  let t := task (async r) in
  (forall p r' w',
     fm_async_task_tick fuel (r, w) = (Ret p, (r', w')) ->
     settings_kept r r' /\
     ((done p = false /\ result p = 0 /\
       async r' = mk_async t 1 (u64 (u64 (time_us w) + poll_interval_ms t * 1000)) /\
       w' = emit (EvRead (poll_bytes t) (fst (bus w (txn w)))) (next_txn w) /\
       frequency r' = match t with
                      | fm_seek_async_task_ptr => read_channel r'
                      | _ => frequency r
                      end) \/
      (done p = true /\ (result p = 0 \/ result p = -1) /\
       (t = fm_set_frequency_async_task_ptr -> result p = 0) /\
       async r' = async_empty /\
       frequency r' = read_channel r' /\
       fm_get_bit (reg_get (regs r') (start_register t)) (start_bit t) = false))) /\
  ((exists p m', fm_async_task_tick fuel (r, w) = (Ret p, m')) \/
   (exists m', fm_async_task_tick fuel (r, w) = (Spinning, m'))) /\
  (chip_settles w (S (S (txn w))) n -> (n <= fuel)%nat ->
   exists p m', fm_async_task_tick fuel (r, w) = (Ret p, m')).
Proof.
  intros Hok Ht Hs Hdue. cbn zeta. split; [|split].
  - intros p r' w' E.
    destruct (tick_due_cases fuel r w p r' w' Hok Ht Hs Hdue E) as (K & _ & _ & H).
    split; assumption.
  - rewrite (fm_async_task_tick_due fuel r w Ht Hdue).
    destruct (call_task_poll fuel r w Hok Ht Hs) as (r1 & _ & _ & _ & _ & _ & Ec).
    cbn zeta in Ec. run. rewrite Ec.
    destruct (fm_get_bit (reg_get (regs r1) STATUSRSSI) STC_BIT).
    + assert (Hi : 2 <= start_register (task (async r)) <= 15)
        by (destruct (task (async r)); cbv; split; discriminate).
      match goal with |- context [task_cleanup ?i ?b ?f ?res (?r0, ?w0)] =>
        destruct (task_cleanup_frame i b f res r0 w0 Hi) as (l' & w2 & _ & [[f' E1] | E1]);
        rewrite E1
      end.
      * left. cbn [done]. eauto.
      * right. eauto.
    + left. cbn [done]. eauto.
  - intros Hset Hn.
    rewrite (fm_async_task_tick_due fuel r w Ht Hdue).
    destruct (call_task_poll fuel r w Hok Ht Hs) as (r1 & _ & Hok1 & _ & _ & _ & Ec).
    cbn zeta in Ec. run. rewrite Ec.
    destruct (fm_get_bit (reg_get (regs r1) STATUSRSSI) STC_BIT).
    + assert (Hi : 2 <= start_register (task (async r)) <= 15)
        by (destruct (task (async r)); cbv; split; discriminate).
      match goal with |- context [task_cleanup ?i ?b ?f ?res (?r0, ?w0)] =>
        destruct (task_cleanup_returns i b f res r0 w0 n Hi Hok1 Hset Hn) as (m' & E1);
        rewrite E1
      end.
      cbn [done]. eauto.
    + cbn [done]. eauto.
Qed.

(** ** The blocking calls *)

Lemma u64_add_l (a b : Z) : u64 (u64 a + b) = u64 (a + b).
Proof. unfold u64. apply Zplus_mod_idemp_l. Qed.

Lemma chip_settles_bus (w w' : world) (first n : nat) :
  bus w' = bus w -> chip_settles w first n -> chip_settles w' first n.
Proof. intros B (k & Hk & H). exists k. rewrite B. auto. Qed.

Lemma tick_until_done_step (fuel : nat) (iv : Z) (tfuel : nat) (r : si470x_t) (w : world) :
  tick_until_done (S fuel) iv tfuel (r, w) =
    let w1 := emit (EvSleep iv) (mk_world (time_us w + iv * 1000) (bus w) (txn w) (trace w)) in
    let '(o, m') := fm_async_task_tick tfuel (r, w1) in
    match o with
    | Ret p => if done p then (Ret p, m') else tick_until_done fuel iv tfuel m'
    | AssertFailed => (AssertFailed, m')
    | Panicked => (Panicked, m')
    | Undefined => (Undefined, m')
    | Spinning => (Spinning, m')
    end.
Proof.
  cbn [tick_until_done]. unfold bind at 1. unfold sleep_ms at 1. cbn [fst snd].
  unfold bind at 1. cbn zeta.
  destruct (fm_async_task_tick tfuel _) as [[p| | | |] m']; try reflexivity.
  destruct (done p); reflexivity.
Qed.

(* The state of the loop after its sleep: the task is due. *)
Lemma task_due_after_sleep (iv : Z) (r : si470x_t) (w : world) :
  task_due_after iv r w ->
  resume_time (async r) <=
    u64 (time_us (emit (EvSleep iv)
                    (mk_world (time_us w + iv * 1000) (bus w) (txn w) (trace w)))).
Proof.
  intros (_ & _ & _ & _ & Hr). cbn [time_us emit]. rewrite Hr, u64_add_l. lia.
Qed.

(* Whenever the loop of a blocking call returns, the task is done and the
   slot is empty. *)
Lemma tick_until_done_post (fuel : nat) (iv : Z) (tfuel : nat) :
  forall (r : si470x_t) (w : world) (p : fm_async_progress_t) (r' : si470x_t) (w' : world),
  task_due_after iv r w ->
  tick_until_done fuel iv tfuel (r, w) = (Ret p, (r', w')) ->
  done p = true /\ (result p = 0 \/ result p = -1) /\
  (task (async r) = fm_set_frequency_async_task_ptr -> result p = 0) /\
  async r' = async_empty /\
  settings_kept r r' /\
  frequency r' = read_channel r' /\
  fm_get_bit (reg_get (regs r') (start_register (task (async r))))
    (start_bit (task (async r))) = false.
Proof.
  induction fuel as [|fuel IH]; intros r w p r' w' Hdue E; [discriminate E|].
  rewrite tick_until_done_step in E. cbn zeta in E.
  pose proof (task_due_after_sleep iv r w Hdue) as Hnow.
  destruct Hdue as (Hok & Ht & Hs & Hiv & Hr).
  set (w1 := emit _ _) in *.
  destruct (fm_async_task_tick tfuel (r, w1)) as [o [r2 w2]] eqn:Et.
  destruct o as [q| | | |]; try discriminate E.
  destruct (tick_due_cases tfuel r w1 q r2 w2 Hok Ht Hs Hnow Et) as (K & B & T & H).
  destruct H as [(Hd & Hres & Ha & Hw & Hf) | (Hd & Hres & Htune & Ha & Hf & Hb)];
    rewrite Hd in E.
  - assert (Hdue2 : task_due_after iv r2 w2).
    { destruct (settings_kept_sound r r2 K) as (Hok2 & _).
      split; [auto|]. rewrite Ha. cbn [task state resume_time].
      split; [exact Ht|]. split; [reflexivity|]. split; [exact Hiv|].
      rewrite Hiv, T. reflexivity. }
    destruct (IH r2 w2 p r' w' Hdue2 E) as (Pd & Pr & Pt & Pa & Pk & Pf & Pb).
    assert (Et2 : task (async r2) = task (async r)) by (rewrite Ha; reflexivity).
    rewrite Et2 in Pt, Pb.
    split; [exact Pd|]. split; [exact Pr|]. split; [exact Pt|]. split; [exact Pa|].
    split; [eapply settings_kept_trans; eassumption|]. split; assumption.
  - inversion E; subst q r2 w2; clear E.
    split; [exact Hd|]. split; [exact Hres|]. split; [exact Htune|]. split; [exact Ha|].
    split; [exact K|]. split; assumption.
Qed.

(* With a chip that completes after [k] polls, the loop returns after
   [k + 1] sleeps. *)
Lemma tick_until_done_returns (k : nat) (iv : Z) (tfuel n : nat) :
  forall (fuel : nat) (r : si470x_t) (w : world),
  task_due_after iv r w ->
  (k < fuel)%nat -> (n <= tfuel)%nat ->
  completes_after w (task (async r)) (txn w) k n ->
  exists p r' w',
    tick_until_done fuel iv tfuel (r, w) = (Ret p, (r', w')) /\
    time_us w' = time_us w + (Z.of_nat k + 1) * (iv * 1000) /\
    result p =
      match task (async r) with
      | fm_seek_async_task_ptr =>
          if fm_get_bit (status_of (snd (bus w (txn w + k)%nat))) SFBL_BIT then -1 else 0
      | _ => 0
      end.
Proof.
  induction k as [|k IH]; intros fuel r w Hdue Hk Hn (Hpend & [Hlen Hstc] & Hset);
    (destruct fuel as [|fuel]; [lia|]);
    rewrite tick_until_done_step; cbn zeta;
    pose proof (task_due_after_sleep iv r w Hdue) as Hnow;
    destruct Hdue as (Hok & Ht & Hs & Hiv & Hr);
    set (w1 := emit _ _) in *;
    rewrite (fm_async_task_tick_due tfuel r w1 Ht Hnow);
    destruct (call_task_poll tfuel r w1 Hok Ht Hs) as (r1 & K1 & Hok1 & A1 & F1 & Hst & Ec);
    cbn zeta in Ec; unfold bind at 1; rewrite Ec; clear Ec;
    change (bus w1) with (bus w) in *; change (txn w1) with (txn w) in *.
  - rewrite Nat.add_0_r in Hlen, Hstc |- *.
    rewrite (Hst Hlen), Hstc.
    assert (Hi : 2 <= start_register (task (async r)) <= 15)
      by (destruct (task (async r)); cbv; split; discriminate).
    match goal with |- context [task_cleanup ?i ?b ?f ?res (?r0, ?w0)] =>
      destruct (task_cleanup_returns i b f res r0 w0 n Hi Hok1) as (m' & E1);
        [ apply (chip_settles_bus w); [reflexivity|];
          cbn [txn emit next_txn]; change (txn w1) with (txn w);
          replace (S (S (txn w))) with (txn w + 0 + 2)%nat by lia; exact Hset
        | exact Hn |];
      pose proof (task_cleanup_post i b f res r0 w0 _ _ Hi E1) as (_ & _ & T & _);
      rewrite E1
    end.
    destruct m' as [r' w']. run. cbn [done result].
    eexists _, _, _. split; [reflexivity|]. split.
    + cbn [fst snd] in T |- *. rewrite T. cbn [time_us emit next_txn]. subst w1.
      cbn [time_us emit]. lia.
    + destruct (task (async r)); reflexivity.
  - assert (H0 : poll_reply (task (async r)) (bus w (txn w + 0)%nat) false)
      by (apply Hpend; lia).
    rewrite Nat.add_0_r in H0. destruct H0 as [Hlen0 Hstc0].
    rewrite (Hst Hlen0), Hstc0. run. cbn [done].
    set (r2 := with_async _ _). set (w2 := emit (EvRead _ _) _).
    assert (Et2 : task (async r2) = task (async r)) by reflexivity.
    destruct (IH fuel r2 w2) as (p & r' & w' & E & T & R).
    + split.
      { unfold handle_ok. subst r2. cbn [regs with_async].
        destruct (task (async r)); exact Hok1. }
      rewrite Et2. split; [exact Ht|]. split; [reflexivity|]. split; [exact Hiv|].
      subst r2 w2. cbn [async with_async resume_time time_us emit next_txn].
      rewrite Hiv. reflexivity.
    + lia.
    + exact Hn.
    + rewrite Et2. subst w2. cbn [bus txn emit next_txn]. subst w1. cbn [bus txn emit].
      split; [|split].
      * intros j Hj. replace (S (txn w) + j)%nat with (txn w + S j)%nat by lia.
        apply Hpend. lia.
      * replace (S (txn w) + k)%nat with (txn w + S k)%nat by lia. split; assumption.
      * replace (S (txn w) + k + 2)%nat with (txn w + S k + 2)%nat by lia.
        apply (chip_settles_bus w); [reflexivity | exact Hset].
    + exists p, r', w'. split; [exact E|]. split.
      * rewrite T. subst w2 w1. cbn [time_us emit next_txn]. lia.
      * rewrite R, Et2. subst w2 w1. cbn [bus txn emit next_txn].
        replace (S (txn w) + k)%nat with (txn w + S k)%nat by lia. reflexivity.
Qed.

Lemma fm_seek_blocking_run (fuel : nat) (d : fm_seek_direction_t) (r : si470x_t) (w : world) :
  handle_ok r -> fm_is_powered_up r = true -> task (async r) = NULL ->
  exists r0 w0,
    fm_seek_async d (r, w) = (Ret tt, (r0, w0)) /\
    settings_kept r r0 /\ task (async r0) = fm_seek_async_task_ptr /\
    task_due_after SEEK_POLL_INTERVAL_MS r0 w0 /\
    bus w0 = bus w /\ txn w0 = S (txn w) /\ time_us w0 = time_us w /\
    fm_seek_blocking fuel d (r, w) =
      (progress <- tick_until_done fuel SEEK_POLL_INTERVAL_MS fuel ;;
       ret (result progress =? 0)) (r0, w0).
Proof.
  intros Hok Hp Ht.
  pose proof (fm_seek_async_run d r w Hp Ht) as E. cbn zeta in E. specialize (E Hok).
  eexists _, _. split; [exact E|].
  split; [apply seek_start_kept; exact Hok|]. split; [reflexivity|].
  split; [|split; [reflexivity|split; [reflexivity|split; [reflexivity|]]]].
  - split; [unfold handle_ok; cbn [regs with_async with_regs]; rewrite reg_set_length;
            exact Hok|].
    cbn [async with_async task state resume_time time_us emit next_txn].
    split; [discriminate|]. repeat split.
  - unfold fm_seek_blocking. unfold bind at 1. unfold get_radio at 1. cbn [fst snd].
    unfold bind at 1. unfold assert at 1. rewrite Ht. cbn [task_eqb].
    unfold bind at 1. rewrite E. reflexivity.
Qed.

Lemma fm_set_frequency_blocking_run (fuel : nat) (f : F32.float) (c : Z)
    (r : si470x_t) (w : world) :
  handle_ok r -> fm_is_powered_up r = true -> task (async r) = NULL ->
  F32.eqb (frequency r) f = false ->
  fm_frequency_to_channel f (fm_get_frequency_range r) = Some c ->
  exists r0 w0,
    fm_set_frequency_async f (r, w) = (Ret tt, (r0, w0)) /\
    settings_kept r r0 /\ task (async r0) = fm_set_frequency_async_task_ptr /\
    task_due_after TUNE_POLL_INTERVAL_MS r0 w0 /\
    bus w0 = bus w /\ txn w0 = S (txn w) /\ time_us w0 = time_us w /\
    fm_set_frequency_blocking fuel f (r, w) =
      (tick_until_done fuel TUNE_POLL_INTERVAL_MS fuel ;; ret tt) (r0, w0).
Proof.
  intros Hok Hp Ht Hne Hc.
  pose proof (fm_set_frequency_async_run f c r w Hp Ht Hc) as E. cbn zeta in E.
  specialize (E Hok).
  eexists _, _. split; [exact E|].
  split; [apply tune_start_kept|]. split; [reflexivity|].
  split; [|split; [reflexivity|split; [reflexivity|split; [reflexivity|]]]].
  - split; [unfold handle_ok; cbn [regs with_async with_regs]; rewrite reg_set_length;
            exact Hok|].
    cbn [async with_async task state resume_time time_us emit next_txn].
    split; [discriminate|]. repeat split.
  - unfold fm_set_frequency_blocking. unfold bind at 1. unfold get_radio at 1. cbn [fst snd].
    unfold bind at 1. unfold assert at 1. rewrite Hp.
    unfold bind at 1. unfold assert at 1. rewrite Ht. cbn [task_eqb].
    rewrite Hne. unfold bind at 1. rewrite E. reflexivity.
Qed.

(** X8. fm_seek_blocking and, for a frequency other than the cached one,
    fm_set_frequency_blocking start their task and tick it after each sleep
    of one poll interval.  Whenever they return, the slot is empty, no
    setting has changed, the start bit of the shadow is clear and the cached
    frequency is the one of the channel the chip reports in READCHAN, not the
    one asked for.  When the chip answers [k] polls with STC clear, then one
    with STC set, and clears STC again after the start bit is cleared, they
    return after [k + 1] sleeps, and fm_seek_blocking returns whether SFBL
    was clear in the poll that found STC. *)
Theorem blocking_calls_complete (fuel : nat) (r : si470x_t) (w : world) (k n : nat) :
  handle_ok r -> fm_is_powered_up r = true -> task (async r) = NULL ->
  (forall d,
     (forall b r' w',
        fm_seek_blocking fuel d (r, w) = (Ret b, (r', w')) ->
        async r' = async_empty /\ settings_kept r r' /\
        frequency r' = read_channel r' /\
        fm_get_bit (reg_get (regs r') POWERCFG) SEEK_BIT = false) /\
     (completes_after w fm_seek_async_task_ptr (S (txn w)) k n ->
      (k < fuel)%nat -> (n <= fuel)%nat ->
      exists r' w',
        fm_seek_blocking fuel d (r, w) =
          (Ret (negb (fm_get_bit (status_of (snd (bus w (S (txn w) + k)%nat))) SFBL_BIT)),
           (r', w')) /\
        time_us w' = time_us w + (Z.of_nat k + 1) * (SEEK_POLL_INTERVAL_MS * 1000))) /\
  (forall f c,
     F32.eqb (frequency r) f = false ->
     fm_frequency_to_channel f (fm_get_frequency_range r) = Some c ->
     (forall r' w',
        fm_set_frequency_blocking fuel f (r, w) = (Ret tt, (r', w')) ->
        async r' = async_empty /\ settings_kept r r' /\
        frequency r' = read_channel r' /\
        fm_get_bit (reg_get (regs r') CHANNEL) TUNE_BIT = false) /\
     (completes_after w fm_set_frequency_async_task_ptr (S (txn w)) k n ->
      (k < fuel)%nat -> (n <= fuel)%nat ->
      exists r' w',
        fm_set_frequency_blocking fuel f (r, w) = (Ret tt, (r', w')) /\
        time_us w' = time_us w + (Z.of_nat k + 1) * (TUNE_POLL_INTERVAL_MS * 1000))).
Proof.
  intros Hok Hp Ht. split.
  - intros d.
    destruct (fm_seek_blocking_run fuel d r w Hok Hp Ht)
      as (r0 & w0 & _ & K0 & T0 & Hdue & B0 & X0 & Tm0 & E).
    rewrite E. split.
    + intros b r' w' Eb. unfold bind in Eb.
      destruct (tick_until_done fuel SEEK_POLL_INTERVAL_MS fuel (r0, w0))
        as [o [r1 w1]] eqn:El.
      destruct o as [p| | | |]; try discriminate Eb.
      revert Eb. run. intros Eb. inversion Eb; subst b r' w'; clear Eb.
      destruct (tick_until_done_post _ _ _ _ _ _ _ _ Hdue El)
        as (_ & _ & _ & Pa & Pk & Pf & Pb).
      rewrite T0 in Pb.
      split; [exact Pa|]. split; [eapply settings_kept_trans; eassumption|].
      split; assumption.
    + intros Hc Hk Hn.
      destruct (tick_until_done_returns k SEEK_POLL_INTERVAL_MS fuel n fuel r0 w0 Hdue Hk Hn)
        as (p & r' & w' & El & T & R).
      { rewrite T0, X0. destruct Hc as (C1 & C2 & C3).
        split; [|split].
        - intros j Hj. rewrite B0. apply C1. exact Hj.
        - rewrite B0. exact C2.
        - apply (chip_settles_bus w); assumption. }
      unfold bind. rewrite El. run. exists r', w'. split.
      * rewrite R, T0, B0, X0. clear R.
        match goal with |- context [fm_get_bit ?a SFBL_BIT] =>
          destruct (fm_get_bit a SFBL_BIT)
        end; reflexivity.
      * rewrite T, Tm0. reflexivity.
  - intros f c Hne Hc.
    destruct (fm_set_frequency_blocking_run fuel f c r w Hok Hp Ht Hne Hc)
      as (r0 & w0 & _ & K0 & T0 & Hdue & B0 & X0 & Tm0 & E).
    rewrite E. split.
    + intros r' w' Eb. unfold bind in Eb.
      destruct (tick_until_done fuel TUNE_POLL_INTERVAL_MS fuel (r0, w0))
        as [o [r1 w1]] eqn:El.
      destruct o as [p| | | |]; try discriminate Eb.
      revert Eb. run. intros Eb. inversion Eb; subst r' w'; clear Eb.
      destruct (tick_until_done_post _ _ _ _ _ _ _ _ Hdue El)
        as (_ & _ & _ & Pa & Pk & Pf & Pb).
      rewrite T0 in Pb.
      split; [exact Pa|]. split; [eapply settings_kept_trans; eassumption|].
      split; assumption.
    + intros Hcm Hk Hn.
      destruct (tick_until_done_returns k TUNE_POLL_INTERVAL_MS fuel n fuel r0 w0 Hdue Hk Hn)
        as (p & r' & w' & El & T & R).
      { rewrite T0, X0. destruct Hcm as (C1 & C2 & C3).
        split; [|split].
        - intros j Hj. rewrite B0. apply C1. exact Hj.
        - rewrite B0. exact C2.
        - apply (chip_settles_bus w); assumption. }
      unfold bind. rewrite El. run. exists r', w'. split; [reflexivity|].
      rewrite T, Tm0. reflexivity.
Qed.

(** ** A power cycle *)

Lemma u16_ext (x y : Z) :
  0 <= x < 2 ^ 16 -> 0 <= y < 2 ^ 16 ->
  (forall j, 0 <= j < 16 -> Z.testbit x j = Z.testbit y j) -> x = y.
Proof.
  intros Hx Hy H. apply Z.bits_inj'. intros j Hj.
  destruct (Z_lt_dec j 16) as [Hlt | Hge]; [apply H; lia|].
  rewrite (small_testbit x 16 j), (small_testbit y 16 j) by lia. reflexivity.
Qed.

Lemma reg_ext (l l' : list Z) :
  length l = 16%nat -> length l' = 16%nat ->
  (forall j, 0 <= j < 16 -> reg_get l j = reg_get l' j) -> l = l'.
Proof.
  intros L L' H. apply (nth_ext l l' 0 0); [congruence|].
  intros n Hn. specialize (H (Z.of_nat n) ltac:(lia)).
  unfold reg_get in H. rewrite Nat2Z.id in H. exact H.
Qed.

(* Power down and the fast path of power up are inverse on POWERCFG. *)
Lemma power_bits_restore (x : Z) (m : bool) :
  0 <= x < 2 ^ 16 ->
  fm_get_bit x ENABLE_BIT = true -> fm_get_bit x DISABLE_BIT = false ->
  fm_get_bit x DMUTE_BIT = negb m ->
  fm_set_bit
    (fm_set_bit
       (fm_set_bit
          (fm_set_bit (fm_set_bit (fm_set_bit x DMUTE_BIT false) DISABLE_BIT true)
             ENABLE_BIT false)
          ENABLE_BIT true)
       DISABLE_BIT false)
    DMUTE_BIT (negb m) = x.
Proof.
  intros Hx He Hd Hm.
  change ENABLE_BIT with (Z.shiftl 1 0) in *. change DISABLE_BIT with (Z.shiftl 1 6) in *.
  change DMUTE_BIT with (Z.shiftl 1 14) in *.
  rewrite fm_get_bit_testbit in He, Hd, Hm by lia.
  apply u16_ext; [apply fm_set_bit_range | exact Hx |].
  intros j Hj. rewrite !fm_set_bit_testbit by lia.
  destruct (Z.eqb_spec j 14) as [-> | _]; [symmetry; exact Hm|].
  destruct (Z.eqb_spec j 6) as [-> | _]; [symmetry; exact Hd|].
  destruct (Z.eqb_spec j 0) as [-> | _]; [symmetry; exact He | reflexivity].
Qed.

Lemma rds_bit_restore (x : Z) :
  0 <= x < 2 ^ 16 -> fm_get_bit x RDS_BIT = true ->
  fm_set_bit (fm_set_bit x RDS_BIT false) RDS_BIT true = x.
Proof.
  intros Hx Hr. change RDS_BIT with (Z.shiftl 1 12) in *.
  rewrite fm_get_bit_testbit in Hr by lia.
  apply u16_ext; [apply fm_set_bit_range | exact Hx |].
  intros j Hj. rewrite !fm_set_bit_testbit by lia.
  destruct (Z.eqb_spec j 12) as [-> | _]; [symmetry; exact Hr | reflexivity].
Qed.

(* The fast path of fm_power_up, with the handle it leaves. *)
Lemma fm_power_up_fast_run (fuel : nat) (r : si470x_t) (w : world) :
  handle_ok r ->
  fm_is_powered_up r = false ->
  fm_get_bit (reg_get (regs r) POWERCFG) DISABLE_BIT = true ->
  let rds := fm_is_rds_supported r in
  let pc := fm_set_bit (fm_set_bit (fm_set_bit (reg_get (regs r) POWERCFG)
                                      ENABLE_BIT true) DISABLE_BIT false)
              DMUTE_BIT (negb (mute r)) in
  let sc1 := fm_set_bit (reg_get (regs r) SYSCONFIG1) RDS_BIT true in
  let l1 := reg_set (regs r) POWERCFG pc in
  let w1 := emit (EvSleep 110)
              (mk_world (time_us w + 110 * 1000) (bus w) (S (txn w))
                 (trace w ++ [EvWrite (be16 pc) (fst (bus w (txn w)))])) in
  fm_power_up fuel (config r) (r, w) =
    (Ret tt,
     if rds
     then (with_regs r (reg_set l1 SYSCONFIG1 sc1),
           emit (EvWrite (be16 pc ++ be16 (reg_get (regs r) CHANNEL) ++ be16 sc1)
                   (fst (bus w (S (txn w))))) (next_txn w1))
     else (with_regs r l1, w1)).
Proof.
  intros Hok Hp Hd. cbn zeta.
  destruct (list16 (regs r) Hok) as
    (a0 & a1 & a2 & a3 & a4 & a5 & a6 & a7 & a8 & a9 & a10 & a11 & a12 & a13 & a14 & a15 & El).
  unfold fm_power_up, modify_reg. run.
  rewrite Hp, Hd. cbn [negb andb].
  rewrite (proj2 (config_eqb_eq (config r) (config r)) eq_refl).
  rewrite fm_write_registers_up_to_run by (cbv; split; discriminate).
  unfold sleep_ms. cbn [fst snd].
  match goal with
  | |- context [fm_is_rds_supported ?x] =>
      replace (fm_is_rds_supported x) with (fm_is_rds_supported r)
        by (unfold fm_is_rds_supported; cbn [regs with_regs]; rewrite El; reflexivity)
  end.
  destruct (fm_is_rds_supported r); run;
    rewrite ?fm_write_registers_up_to_run by (cbv; split; discriminate);
    cbn [fst snd regs with_regs]; rewrite El; reflexivity.
Qed.

(* fm_power_down with no task in flight, with the machine it leaves. *)
Lemma fm_power_down_idle_run (fuel : nat) (r : si470x_t) (w : world) :
  handle_ok r -> fm_is_powered_up r = true -> task (async r) = NULL ->
  let rds := fm_is_rds_supported r in
  let sc1 := fm_set_bit (reg_get (regs r) SYSCONFIG1) RDS_BIT false in
  let pc := fm_set_bit (fm_set_bit (reg_get (regs r) POWERCFG) DMUTE_BIT false)
              DISABLE_BIT true in
  let l1 := if rds then reg_set (regs r) SYSCONFIG1 sc1 else regs r in
  let w1 := if rds
            then emit (EvWrite (be16 (reg_get (regs r) POWERCFG)
                                  ++ be16 (reg_get (regs r) CHANNEL) ++ be16 sc1)
                         (fst (bus w (txn w)))) (next_txn w)
            else w in
  fm_power_down fuel (r, w) =
    (Ret tt,
     (with_regs r (reg_set l1 POWERCFG (fm_set_bit pc ENABLE_BIT false)),
      emit (EvWrite (be16 pc) (fst (bus w1 (txn w1)))) (next_txn w1))).
Proof.
  intros Hok Hp Ht. cbn zeta.
  destruct (list16 (regs r) Hok) as
    (a0 & a1 & a2 & a3 & a4 & a5 & a6 & a7 & a8 & a9 & a10 & a11 & a12 & a13 & a14 & a15 & El).
  rewrite (fm_power_down_unfold fuel r w Hp). rewrite Ht. cbn [task_eqb negb].
  unfold power_down_writes, modify_reg. run.
  destruct (fm_is_rds_supported r); run;
    rewrite ?fm_write_registers_up_to_run by (cbv; split; discriminate);
    cbn [fst snd regs with_regs]; rewrite El; reflexivity.
Qed.

(** X9. A power cycle gives the handle back.  On a sound, powered-up handle
    with no task in flight whose shadow holds 16-bit values, has DISABLE
    clear, DMUTE as the cached mute flag asks and, on a chip with RDS, the RDS
    bit set, fm_power_down returns a handle that is not powered up and has
    the same cached settings and frequency; fm_power_up with the configuration
    of the handle then takes the fast path and returns the very handle the
    cycle started from, shadow registers included.  The cycle makes two bus
    writes, four on a chip with RDS, and no bus read, and sleeps 110 ms. *)
Theorem power_cycle_restores_handle (fuel : nat) (r : si470x_t) (w : world) :
  handle_ok r -> regs16 (regs r) ->
  fm_is_powered_up r = true -> task (async r) = NULL ->
  fm_get_bit (reg_get (regs r) POWERCFG) DISABLE_BIT = false ->
  fm_get_bit (reg_get (regs r) POWERCFG) DMUTE_BIT = negb (mute r) ->
  (fm_is_rds_supported r = true ->
   fm_get_bit (reg_get (regs r) SYSCONFIG1) RDS_BIT = true) ->
  exists r1 w1 w2,
    fm_power_down fuel (r, w) = (Ret tt, (r1, w1)) /\
    fm_is_powered_up r1 = false /\
    cache_of r1 = cache_of r /\ frequency r1 = frequency r /\
    fm_power_up fuel (config r) (r1, w1) = (Ret tt, (r, w2)) /\
    time_us w2 = time_us w + 110 * 1000 /\
    txn w2 = (txn w + if fm_is_rds_supported r then 4 else 2)%nat /\
    exists evs,
      trace w2 = trace w ++ evs /\
      Forall (fun e => match e with EvRead _ _ => False | _ => True end) evs.
Proof.
  intros Hok H16 Hp Ht Hdis Hdm Hrds.
  pose proof (fm_power_down_idle_run fuel r w Hok Hp Ht) as Ed. cbn zeta in Ed.
  set (rds := fm_is_rds_supported r) in *.
  set (sc0 := reg_get (regs r) SYSCONFIG1) in *.
  set (pc0 := reg_get (regs r) POWERCFG) in *.
  set (pcd := fm_set_bit (fm_set_bit (fm_set_bit pc0 DMUTE_BIT false) DISABLE_BIT true)
                ENABLE_BIT false) in *.
  set (l1 := if rds then reg_set (regs r) SYSCONFIG1 (fm_set_bit sc0 RDS_BIT false)
             else regs r) in *.
  set (r1 := with_regs r (reg_set l1 POWERCFG pcd)) in *.
  assert (L1 : length l1 = 16%nat)
    by (subst l1; destruct rds; rewrite ?reg_set_length; exact Hok).
  assert (H2 : 0 <= POWERCFG < 16) by (cbv; split; [discriminate | reflexivity]).
  assert (H4 : 0 <= SYSCONFIG1 < 16) by (cbv; split; [discriminate | reflexivity]).
  assert (Hok1 : handle_ok r1)
    by (unfold handle_ok; subst r1; cbn [regs with_regs]; rewrite reg_set_length; exact L1).
  assert (Epc : reg_get (regs r1) POWERCFG = pcd).
  { subst r1. cbn [regs with_regs]. apply reg_get_set_same. rewrite L1. exact H2. }
  assert (Hp1 : fm_is_powered_up r1 = false).
  { unfold fm_is_powered_up. rewrite Epc. subst pcd.
    exact (fm_get_set_bit _ 0 0 false ltac:(lia) ltac:(lia)). }
  assert (Hd1 : fm_get_bit (reg_get (regs r1) POWERCFG) DISABLE_BIT = true).
  { rewrite Epc. subst pcd.
    etransitivity; [exact (fm_get_set_bit _ 0 6 false ltac:(lia) ltac:(lia))|].
    exact (fm_get_set_bit _ 6 6 true ltac:(lia) ltac:(lia)). }
  assert (Erds : fm_is_rds_supported r1 = rds).
  { assert (Ec : reg_get (regs r1) CHIPID = reg_get (regs r) CHIPID).
    { subst r1 l1. cbn [regs with_regs].
      rewrite reg_get_set_other by (cbv; discriminate).
      destruct rds; [|reflexivity].
      apply reg_get_set_other; cbv; discriminate. }
    unfold rds, fm_is_rds_supported. rewrite Ec. reflexivity. }
  match type of Ed with _ = (_, (_, ?x)) => set (wd := x) in * end.
  pose proof (fm_power_up_fast_run fuel r1 wd Hok1 Hp1 Hd1) as Eu. cbn zeta in Eu.
  change (config r1) with (config r) in Eu. change (mute r1) with (mute r) in Eu.
  rewrite Erds, Epc in Eu.
  assert (Rpc : fm_set_bit (fm_set_bit (fm_set_bit pcd ENABLE_BIT true) DISABLE_BIT false)
                  DMUTE_BIT (negb (mute r)) = pc0).
  { subst pcd. apply power_bits_restore; [apply regs16_get; exact H16 | exact Hp | exact Hdis
                                         | exact Hdm]. }
  rewrite Rpc in Eu.
  assert (Rregs : (if rds
                   then reg_set (reg_set (regs r1) POWERCFG pc0) SYSCONFIG1
                          (fm_set_bit (reg_get (regs r1) SYSCONFIG1) RDS_BIT true)
                   else reg_set (regs r1) POWERCFG pc0) = regs r).
  { subst r1 l1. cbn [regs with_regs].
    apply reg_ext; [destruct rds; rewrite !reg_set_length; exact Hok | exact Hok |].
    intros j Hj. destruct rds eqn:Er.
    - rewrite !reg_get_set by (rewrite ?reg_set_length, ?Hok; lia).
      change (SYSCONFIG1 =? POWERCFG) with false. cbn match.
      change (SYSCONFIG1 =? SYSCONFIG1) with true. cbn match.
      destruct (Z.eqb_spec j SYSCONFIG1) as [-> | _].
      + apply rds_bit_restore; [apply regs16_get; exact H16 | exact (Hrds eq_refl)].
      + destruct (Z.eqb_spec j POWERCFG) as [-> | _]; reflexivity.
    - rewrite !reg_get_set by (rewrite ?reg_set_length, ?Hok; lia).
      destruct (Z.eqb_spec j POWERCFG) as [-> | _]; reflexivity. }
  assert (W : with_regs r1 (regs r) = r)
    by (subst r1; rewrite with_regs_with_regs; apply with_regs_same).
  subst wd.
  destruct rds; rewrite Rregs, W in Eu;
    (eexists r1, _, _; split; [exact Ed|]; split; [exact Hp1|];
     split; [reflexivity|]; split; [reflexivity|]; split; [exact Eu|]);
    cbn [time_us txn trace emit next_txn bus];
    (split; [reflexivity|]); (split; [lia|]);
    rewrite <- ?app_assoc; (eexists; split; [reflexivity|]);
    repeat constructor.
Qed.

(** ** Cold power-up *)

Lemma full_read_overwrites (buf l : list Z) :
  length l = 16%nat -> fm_read_registers_loop 16 buf 0 0xA l = dump buf.
Proof.
  intros Hl. unfold dump.
  apply reg_ext; [rewrite fm_read_registers_loop_length; exact Hl
                 | rewrite fm_read_registers_loop_length; reflexivity |].
  intros j Hj. rewrite !read_loop_spec by (try reflexivity; try assumption; lia).
  replace (read_position j <? Z.of_nat 16) with true; [reflexivity|].
  symmetry. apply Z.ltb_lt. unfold read_position.
  pose proof (Z.mod_pos_bound (j - 10) 16 ltac:(lia)). lia.
Qed.

Lemma dump_sound (buf : list Z) : length (dump buf) = 16%nat /\ regs16 (dump buf).
Proof.
  unfold dump. split; [rewrite fm_read_registers_loop_length; reflexivity|].
  apply regs16_read_loop. unfold regs16. repeat constructor; lia.
Qed.

Lemma fm_read_registers_all_run (r : si470x_t) (w : world) :
  handle_ok r ->
  fm_read_registers 16 (r, w) =
    let rb := bus w (txn w) in
    let w' := emit (EvRead 32 (fst rb)) (next_txn w) in
    if fst rb =? 32
    then (Ret true, (with_regs r (dump (snd rb)), w'))
    else (Ret false, (r, w')).
Proof.
  intros Hok. cbn zeta.
  unfold fm_read_registers, i2c_read_blocking. run.
  change (16 <=? 16) with true. change (16 * 2) with 32. cbn [fst snd].
  destruct (bus w (txn w)) as [res buf]. cbn [fst snd].
  destruct (res =? 32); cbn [negb fst snd]; [|reflexivity].
  change (Z.to_nat 16) with 16%nat. rewrite (full_read_overwrites buf _ Hok). reflexivity.
Qed.

(** X10. A cold fm_power_up checks the device before it writes to it.  On a
    handle that is not powered up and does not qualify for the fast path, the
    call stores the configuration, runs the reset sequence and reads all
    sixteen registers.  When that read fails the call panics; when the
    registers read do not show manufacturer 0x242 and part number 1 an
    assertion fails.  In both cases the read is the only bus transaction
    made: nothing has been written to the device.  So whenever the call
    returns, the first read succeeded and showed that device. *)
Theorem cold_power_up_checks_device
    (fuel : nat) (cfg : fm_config_t) (r : si470x_t) (w : world) :
  handle_ok r ->
  fm_is_powered_up r = false ->
  fm_get_bit (reg_get (regs r) POWERCFG) DISABLE_BIT && config_eqb (config r) cfg = false ->
  let rb := bus w (txn w) in
  let chip := dump (snd rb) in
  let seen := trace w ++ cold_start_events r ++ [EvRead 32 (fst rb)] in
  (fst rb <> 32 ->
   exists w',
     fm_power_up fuel cfg (r, w) = (Panicked, (with_config r cfg, w')) /\
     trace w' = seen) /\
  (fst rb = 32 -> mfgid_of chip <> 0x242 \/ pn_of chip <> 0x1 ->
   exists w',
     fm_power_up fuel cfg (r, w) =
       (AssertFailed, (with_regs (with_config r cfg) chip, w')) /\
     trace w' = seen) /\
  (forall m', fm_power_up fuel cfg (r, w) = (Ret tt, m') ->
     fst rb = 32 /\ mfgid_of chip = 0x242 /\ pn_of chip = 0x1).
Proof.
  intros Hok Hp Hc. cbn zeta.
  assert (Hok' : handle_ok (with_config r cfg)) by exact Hok.
  assert (A : (fst (bus w (txn w)) <> 32 ->
               exists w',
                 fm_power_up fuel cfg (r, w) = (Panicked, (with_config r cfg, w')) /\
                 trace w' = trace w ++ cold_start_events r
                              ++ [EvRead 32 (fst (bus w (txn w)))]) /\
              (fst (bus w (txn w)) = 32 ->
               mfgid_of (dump (snd (bus w (txn w)))) <> 0x242 \/
               pn_of (dump (snd (bus w (txn w)))) <> 0x1 ->
               exists w',
                 fm_power_up fuel cfg (r, w) =
                   (AssertFailed,
                    (with_regs (with_config r cfg) (dump (snd (bus w (txn w)))), w')) /\
                 trace w' = trace w ++ cold_start_events r
                              ++ [EvRead 32 (fst (bus w (txn w)))])).
  { split.
    - intros Hlen. apply Z.eqb_neq in Hlen.
      unfold fm_power_up. run. rewrite Hp, Hc. cbn [negb].
      unfold gpio, sleep_ms. cbn [fst snd].
      destruct (enable_pull_ups r) eqn:Epu; run; cbn [fst snd];
        rewrite fm_read_registers_all_run by exact Hok'; cbn zeta;
        cbn [bus txn emit next_txn]; rewrite Hlen; cbn [negb]; unfold panic;
        (eexists; split; [reflexivity|]);
        unfold cold_start_events; rewrite Epu;
        cbn [trace emit next_txn]; rewrite <- !app_assoc; reflexivity.
    - intros Hlen Hid. apply Z.eqb_eq in Hlen.
      assert (Hid' : (mfgid_of (dump (snd (bus w (txn w)))) =? 0x242) &&
                     (pn_of (dump (snd (bus w (txn w)))) =? 0x1) = false).
      { apply andb_false_iff. destruct Hid as [H | H]; [left | right];
          apply Z.eqb_neq; exact H. }
      unfold fm_power_up. run. rewrite Hp, Hc. cbn [negb].
      unfold gpio, sleep_ms. cbn [fst snd].
      destruct (enable_pull_ups r) eqn:Epu; run; cbn [fst snd];
        rewrite fm_read_registers_all_run by exact Hok'; cbn zeta;
        cbn [bus txn emit next_txn]; rewrite Hlen; cbn [negb fst snd regs with_regs];
        fold (mfgid_of (dump (snd (bus w (txn w)))));
        fold (pn_of (dump (snd (bus w (txn w)))));
        apply andb_false_iff in Hid'; destruct Hid' as [Hm | Hn];
        [ rewrite Hm | destruct (mfgid_of _ =? 0x242); [rewrite Hn|]
        | rewrite Hm | destruct (mfgid_of _ =? 0x242); [rewrite Hn|] ];
        (eexists; split; [reflexivity|]);
        unfold cold_start_events; rewrite Epu;
        cbn [trace emit next_txn]; rewrite <- !app_assoc; reflexivity. }
  destruct A as [A1 A2]. split; [exact A1|]. split; [exact A2|].
  intros m' E.
  destruct (Z.eq_dec (fst (bus w (txn w))) 32) as [Hlen | Hlen].
  - split; [exact Hlen|].
    destruct (Z.eq_dec (mfgid_of (dump (snd (bus w (txn w))))) 0x242) as [Hm | Hm].
    + split; [exact Hm|].
      destruct (Z.eq_dec (pn_of (dump (snd (bus w (txn w))))) 0x1) as [Hn | Hn];
        [exact Hn|].
      destruct (A2 Hlen (or_intror Hn)) as (w' & E' & _). rewrite E' in E. discriminate E.
    + destruct (A2 Hlen (or_introl Hm)) as (w' & E' & _). rewrite E' in E. discriminate E.
  - destruct (A1 Hlen) as (w' & E' & _). rewrite E' in E. discriminate E.
Qed.

(* The cold path: the reset sequence, then the probe. *)
Lemma fm_power_up_cold_unfold (fuel : nat) (cfg : fm_config_t) (r : si470x_t) (w : world) :
  fm_is_powered_up r = false ->
  fm_get_bit (reg_get (regs r) POWERCFG) DISABLE_BIT && config_eqb (config r) cfg = false ->
  exists wA,
    fm_power_up fuel cfg (r, w) = power_up_probe fuel cfg (with_config r cfg, wA) /\
    trace wA = trace w ++ cold_start_events r /\
    bus wA = bus w /\ txn wA = txn w /\ time_us wA = time_us w + 10 * 1000.
Proof.
  intros Hp Hc.
  unfold fm_power_up. unfold bind at 1. unfold get_radio at 1. cbn [fst snd].
  unfold bind at 1. unfold assert at 1. rewrite Hp. cbn [negb]. rewrite Hc.
  unfold bind at 1. unfold modify at 1. cbn [fst snd].
  do 6 (unfold bind at 1; unfold gpio at 1; cbn [fst snd]).
  unfold bind at 1. unfold sleep_ms at 1. cbn [fst snd].
  unfold bind at 1. unfold gpio at 1. cbn [fst snd].
  unfold bind at 1. unfold sleep_ms at 1. cbn [fst snd].
  do 2 (unfold bind at 1; unfold gpio at 1; cbn [fst snd]).
  unfold bind at 1. unfold cold_start_events.
  destruct (enable_pull_ups r).
  - unfold bind at 1. unfold gpio at 1. cbn [fst snd]. unfold gpio at 1. cbn [fst snd].
    eexists. split; [reflexivity|].
    cbn [trace bus txn time_us emit next_txn]. rewrite <- !app_assoc.
    repeat split; lia.
  - unfold ret at 1.
    eexists. split; [reflexivity|].
    cbn [trace bus txn time_us emit next_txn]. rewrite <- !app_assoc.
    repeat split; lia.
Qed.

Lemma fm_set_seek_sensitivity_bits_thresholds (l : list Z) (s : fm_seek_sensitivity_t) :
  fm_set_seek_sensitivity_bits l s =
    let l1 := reg_set l SYSCONFIG2
                (fm_set_bits (reg_get l SYSCONFIG2) SEEKTH_BITS SEEKTH_LSB
                   (fst (fst (seek_thresholds s)))) in
    let l2 := reg_set l1 SYSCONFIG3
                (fm_set_bits (reg_get l1 SYSCONFIG3) SKSNR_BITS SKSNR_LSB
                   (snd (fst (seek_thresholds s)))) in
    reg_set l2 SYSCONFIG3
      (fm_set_bits (reg_get l2 SYSCONFIG3) SKCNT_BITS SKCNT_LSB (snd (seek_thresholds s))).
Proof. destruct s; reflexivity. Qed.

(* One step of driver code at the head of a sequence. *)
Lemma bind_modify_reg {A : Type} (i : Z) (f : Z -> Z) (k : unit -> M A)
    (r : si470x_t) (w : world) :
  bind (modify_reg i f) k (r, w) =
  k tt (with_regs r (reg_set (regs r) i (f (reg_get (regs r) i))), w).
Proof. reflexivity. Qed.

Lemma bind_modify {A : Type} (f : si470x_t -> si470x_t) (k : unit -> M A)
    (r : si470x_t) (w : world) :
  bind (modify f) k (r, w) = k tt (f r, w).
Proof. reflexivity. Qed.

Lemma bind_get_radio {A : Type} (k : si470x_t -> M A) (r : si470x_t) (w : world) :
  bind get_radio k (r, w) = k r (r, w).
Proof. reflexivity. Qed.

Lemma bind_ret {A B : Type} (a : A) (k : A -> M B) (m : machine) :
  bind (ret a) k m = k a m.
Proof. reflexivity. Qed.

Lemma bind_assert {A : Type} (b : bool) (k : unit -> M A) (m : machine) :
  b = true -> bind (assert b) k m = k tt m.
Proof. intros ->. reflexivity. Qed.

Lemma bind_sleep_ms {A : Type} (ms : Z) (k : unit -> M A) (r : si470x_t) (w : world) :
  bind (sleep_ms ms) k (r, w) =
  k tt (r, emit (EvSleep ms) (mk_world (time_us w + ms * 1000) (bus w) (txn w) (trace w))).
Proof. reflexivity. Qed.

Lemma bind_write_up_to {A : Type} (i : Z) (k : bool -> M A) (r : si470x_t) (w : world) :
  2 <= i <= 15 ->
  bind (fm_write_registers_up_to i) k (r, w) =
  k (fst (bus w (txn w)) =? (i - 1) * 2)
    (r, emit (EvWrite (fm_write_registers_loop (Z.to_nat (i - 1)) (regs r) 2)
                (fst (bus w (txn w)))) (next_txn w)).
Proof.
  intros Hi. unfold bind. rewrite fm_write_registers_up_to_run by exact Hi. reflexivity.
Qed.

Lemma bind_read_all {A : Type} (k : bool -> M A) (r : si470x_t) (w : world) :
  handle_ok r -> fst (bus w (txn w)) = 32 ->
  bind (fm_read_registers 16) k (r, w) =
  k true (with_regs r (dump (snd (bus w (txn w)))), emit (EvRead 32 32) (next_txn w)).
Proof.
  intros Hok Hlen. unfold bind. rewrite fm_read_registers_all_run by exact Hok.
  cbn zeta. rewrite Hlen. reflexivity.
Qed.

(* Driver code on a shadow that is written out register by register. *)
Ltac eval_regs :=
  cbv beta zeta;
  cbn [regs with_regs];
  cbv [reg_get reg_set list_set nth Z.to_nat PosDef.Pos.to_nat PosDef.Pos.iter_op
       Init.Nat.add DEVICEID CHIPID POWERCFG SYSCONFIG1 SYSCONFIG2 SYSCONFIG3 TEST1 RDSD];
  rewrite ?with_regs_with_regs.

(* The probe when both dumps arrive and show a Si4702 or Si4703, on a handle
   with no frequency to tune back to. *)
Lemma power_up_probe_run (fuel : nat) (cfg : fm_config_t) (r : si470x_t) (w : world) :
  handle_ok r ->
  F32.eqb (frequency r) F32.zero = true ->
  let rb1 := bus w (txn w) in
  let rb2 := bus w (3 + txn w)%nat in
  let chip := dump (snd rb2) in
  fst rb1 = 32 -> mfgid_of (dump (snd rb1)) = 0x242 -> pn_of (dump (snd rb1)) = 0x1 ->
  fst rb2 = 32 -> dev_of chip = DEV_SI4702 \/ dev_of chip = DEV_SI4703 ->
  exists w' d1 d3,
    power_up_probe fuel cfg (r, w) =
      (Ret tt, (with_regs r (setup_shadow cfg r chip), w')) /\
    time_us w' = time_us w + 610 * 1000 /\
    txn w' = (5 + txn w)%nat /\
    trace w' =
      trace w
      ++ [EvRead 32 32; EvWrite d1 (fst (bus w (1 + txn w)%nat)); EvSleep 500;
          EvWrite (be16 ENABLE_BIT) (fst (bus w (2 + txn w)%nat)); EvSleep 110;
          EvRead 32 32; EvWrite d3 (fst (bus w (4 + txn w)%nat))] /\
    length d1 = 28%nat /\ length d3 = 10%nat.
Proof.
  intros Hok Hf. cbn zeta. intros Hlen1 Hm Hn Hlen2 Hdev.
  assert (Hdev' : (dev_of (dump (snd (bus w (3 + txn w)%nat))) =? DEV_SI4702)
                  || (dev_of (dump (snd (bus w (3 + txn w)%nat))) =? DEV_SI4703) = true).
  { apply orb_true_iff. destruct Hdev as [H | H]; [left | right]; apply Z.eqb_eq; exact H. }
  clear Hdev.
  apply Z.eqb_eq in Hm, Hn.
  destruct (dump_sound (snd (bus w (txn w)))) as [L1 _].
  destruct (dump_sound (snd (bus w (3 + txn w)%nat))) as [L2 _].
  remember (dump (snd (bus w (txn w)))) as chip1 eqn:Ec1.
  remember (dump (snd (bus w (3 + txn w)%nat))) as chip2 eqn:Ec2.
  destruct (list16 chip1 L1) as
    (b0 & b1 & b2 & b3 & b4 & b5 & b6 & b7 & b8 & b9 & b10 & b11 & b12 & b13 & b14 & b15 & E1).
  destruct (list16 chip2 L2) as
    (c0 & c1 & c2 & c3 & c4 & c5 & c6 & c7 & c8 & c9 & c10 & c11 & c12 & c13 & c14 & c15 & E2).
  rewrite E1, E2 in *. clear E1 E2 chip1 chip2 L1 L2.
  unfold power_up_probe.
  rewrite bind_read_all by assumption. rewrite <- Ec1. eval_regs. cbn [negb].
  rewrite bind_ret. rewrite bind_get_radio. eval_regs.
  unfold mfgid_of, pn_of in Hm, Hn. revert Hm Hn. eval_regs. intros Hm Hn.
  rewrite bind_assert by exact Hm. rewrite bind_assert by exact Hn.
  rewrite bind_modify_reg. eval_regs.
  rewrite bind_modify_reg. eval_regs.
  rewrite bind_write_up_to by (cbv; split; discriminate). eval_regs.
  rewrite bind_sleep_ms. eval_regs.
  rewrite bind_modify_reg. eval_regs.
  rewrite bind_write_up_to by (cbv; split; discriminate). eval_regs.
  rewrite bind_sleep_ms. eval_regs.
  rewrite bind_read_all by (first [reflexivity | exact Hlen2]).
  cbn [bus txn emit next_txn]. change (S (S (S (txn w)))) with (3 + txn w)%nat.
  rewrite <- Ec2. eval_regs.
  rewrite bind_get_radio. eval_regs.
  unfold dev_of in Hdev'. revert Hdev'. eval_regs. intros Hdev'.
  rewrite bind_assert by exact Hdev'.
  cbn [mono mute softmute volume volext softmute_attenuation softmute_rate seek_sensitivity
       frequency with_regs].
  do 3 (rewrite bind_modify_reg; eval_regs).
  rewrite bind_get_radio. eval_regs.
  unfold setup_shadow, dev_of, fm_is_rds_supported. eval_regs.
  destruct (u8 (fm_get_bits c1 DEV_BITS DEV_LSB) =? DEV_SI4703); cbv iota;
    [rewrite bind_modify_reg | rewrite bind_ret]; eval_regs;
    do 7 (rewrite bind_modify_reg; eval_regs);
    rewrite bind_modify; eval_regs;
    rewrite fm_set_seek_sensitivity_bits_thresholds; eval_regs;
    cbn [seek_sensitivity with_regs];
    rewrite bind_write_up_to by (cbv; split; discriminate); eval_regs;
    rewrite Hf; cbn [negb]; unfold ret;
    (eexists _, _, _; split; [reflexivity|]);
    cbn [time_us txn trace emit next_txn bus];
    (split; [lia|]); (split; [reflexivity|]);
    (split; [rewrite <- !app_assoc; reflexivity|]);
    rewrite !fm_write_registers_loop_length; split; reflexivity.
Qed.

(** X11. A cold fm_power_up that finds its device sets it up from the cache.
    On a handle that is not powered up, does not qualify for the fast path,
    caches a volume of at most 15 and has no frequency to tune back to, when
    both register dumps arrive, the first showing manufacturer 0x242 and part
    number 1 and the second a Si4702 or Si4703, the call returns.  It has
    made five bus transactions around sleeps of 500 and 110 ms: the dump, a
    write of all fourteen writable registers, a write of POWERCFG = ENABLE,
    the second dump and a write of POWERCFG to SYSCONFIG3; none of the three
    write results is looked at.  The handle keeps its cached settings and
    takes the configuration asked for; its shadow is the second dump with the
    settings written into POWERCFG and the three SYSCONFIG registers, so the
    cache agrees with the shadow, every register is a 16-bit value and, on a
    Si4703, the RDS bit is set.  fm_is_powered_up then tells the ENABLE bit
    the chip returned in the second dump. *)
Theorem cold_power_up_establishes_settings
    (fuel : nat) (cfg : fm_config_t) (r : si470x_t) (w : world) :
  handle_ok r ->
  fm_is_powered_up r = false ->
  fm_get_bit (reg_get (regs r) POWERCFG) DISABLE_BIT && config_eqb (config r) cfg = false ->
  0 <= volume r <= 15 ->
  F32.eqb (frequency r) F32.zero = true ->
  let rb1 := bus w (txn w) in
  let rb2 := bus w (3 + txn w)%nat in
  let chip := dump (snd rb2) in
  fst rb1 = 32 -> mfgid_of (dump (snd rb1)) = 0x242 -> pn_of (dump (snd rb1)) = 0x1 ->
  fst rb2 = 32 -> dev_of chip = DEV_SI4702 \/ dev_of chip = DEV_SI4703 ->
  exists r' w' d1 d3,
    fm_power_up fuel cfg (r, w) = (Ret tt, (r', w')) /\
    r' = with_regs (with_config r cfg) (setup_shadow cfg r chip) /\
    handle_ok r' /\ regs16 (regs r') /\
    settings_in_shadow r' /\
    fm_is_powered_up r' = fm_get_bit (reg_get chip POWERCFG) ENABLE_BIT /\
    fm_is_rds_supported r' = (dev_of chip =? DEV_SI4703) /\
    (fm_is_rds_supported r' = true ->
     fm_get_bit (reg_get (regs r') SYSCONFIG1) RDS_BIT = true) /\
    agree_except [POWERCFG; SYSCONFIG1; SYSCONFIG2; SYSCONFIG3] chip (regs r') /\
    time_us w' = time_us w + 620 * 1000 /\
    txn w' = (5 + txn w)%nat /\
    trace w' =
      trace w ++ cold_start_events r
      ++ [EvRead 32 32; EvWrite d1 (fst (bus w (1 + txn w)%nat)); EvSleep 500;
          EvWrite (be16 ENABLE_BIT) (fst (bus w (2 + txn w)%nat)); EvSleep 110;
          EvRead 32 32; EvWrite d3 (fst (bus w (4 + txn w)%nat))] /\
    length d1 = 28%nat /\ length d3 = 10%nat.
Proof.
  intros Hok Hp Hc Hvol Hf. cbn zeta. intros Hlen1 Hm Hn Hlen2 Hdev.
  destruct (fm_power_up_cold_unfold fuel cfg r w Hp Hc) as (wA & E & TA & BA & XA & TmA).
  assert (Hok' : handle_ok (with_config r cfg)) by exact Hok.
  pose proof (power_up_probe_run fuel cfg (with_config r cfg) wA Hok' Hf) as P.
  cbn zeta in P. rewrite BA, XA in P.
  destruct (P Hlen1 Hm Hn Hlen2 Hdev) as (w' & d1 & d3 & E' & Tm & X & T & D1 & D3).
  clear P.
  destruct (dump_sound (snd (bus w (3 + txn w)%nat))) as [L2 S2].
  set (chip := dump (snd (bus w (3 + txn w)%nat))) in *.
  change (setup_shadow cfg (with_config r cfg) chip) with (setup_shadow cfg r chip) in E'.
  rewrite with_regs_with_regs in E' || idtac.
  assert (Hl : forall i, 0 <= i < 16 -> 0 <= i < Z.of_nat (length chip))
    by (intros i Hi; rewrite L2; exact Hi).
  destruct enum_val_ranges as (Rb & Rs & Ra & Rr & Rt).
  destruct (Rt (seek_sensitivity r)) as (Rt1 & Rt2 & Rt3).
  pose proof (Rb (band cfg)) as Rb'. pose proof (Rs (channel_spacing cfg)) as Rs'.
  pose proof (Ra (softmute_attenuation r)) as Ra'. pose proof (Rr (softmute_rate r)) as Rr'.
  exists (with_regs (with_config r cfg) (setup_shadow cfg r chip)), w', d1, d3.
  split; [rewrite E; exact E'|]. split; [reflexivity|].
  assert (Len : length (setup_shadow cfg r chip) = 16%nat)
    by (unfold setup_shadow; cbv zeta; rewrite !reg_set_length; exact L2).
  split; [exact Len|].
  split.
  { cbn [regs with_regs]. unfold setup_shadow. cbv zeta.
    do 4 (apply regs16_reg_set;
          [| first [apply fm_set_bits_range | apply fm_set_bit_range]]).
    exact S2. }
  split.
  { unfold settings_in_shadow, fm_is_powered_up, setup_shadow.
    cbn [regs mute mono softmute volume volext config seek_sensitivity
         softmute_attenuation softmute_rate with_regs with_config].
    cbv zeta.
    unfold POWERCFG, SYSCONFIG1, SYSCONFIG2, SYSCONFIG3 in *.
    rewrite ?reg_get_set by (rewrite ?reg_set_length; try apply Hl; lia).
    cbn [Z.eqb Pos.eqb].
    as_fields.
    destruct (dev_of chip =? DEV_SI4703); read_after_set;
      repeat split; try assumption; try reflexivity; try lia. }
  split.
  { unfold fm_is_powered_up, setup_shadow. cbn [regs with_regs]. cbv zeta.
    unfold POWERCFG, SYSCONFIG1, SYSCONFIG2, SYSCONFIG3 in *.
    rewrite ?reg_get_set by (rewrite ?reg_set_length; try apply Hl; lia).
    cbn [Z.eqb Pos.eqb]. as_fields. read_after_set. reflexivity. }
  split.
  { unfold fm_is_rds_supported, dev_of, setup_shadow. cbn [regs with_regs]. cbv zeta.
    rewrite !reg_get_set_other by (cbv; discriminate). reflexivity. }
  split.
  { unfold fm_is_rds_supported, setup_shadow. cbn [regs with_regs]. cbv zeta.
    rewrite !(reg_get_set_other _ _ CHIPID) by (cbv; discriminate).
    fold (dev_of chip). intros Hr. rewrite Hr.
    unfold POWERCFG, SYSCONFIG1, SYSCONFIG2, SYSCONFIG3 in *.
    rewrite ?reg_get_set by (rewrite ?reg_set_length; try apply Hl; lia).
    cbn [Z.eqb Pos.eqb]. as_fields. read_after_set. reflexivity. }
  split.
  { cbn [regs with_regs]. unfold setup_shadow. cbv zeta.
    do 4 (eapply agree_except_trans;
          [| apply agree_except_reg_set; [cbv; discriminate | cbn; auto 6]]).
    apply agree_except_refl. }
  split; [rewrite Tm, TmA; lia|]. split; [exact X|].
  split; [rewrite T, TA, <- app_assoc; reflexivity|].
  split; assumption.
Qed.

(** ** Guards *)


(** ** Reading the status and the RDS registers *)

Lemma buf_get_testbit_high (buf : list Z) (i : nat) (j : Z) :
  8 <= j -> Z.testbit (buf_get buf i) j = false.
Proof.
  intros Hj. unfold buf_get. rewrite u8_testbit by lia.
  replace (j <? 8) with false by (symmetry; apply Z.ltb_ge; lia). apply andb_false_r.
Qed.

(* The bits of a register received: the low byte comes second. *)
Lemma rx_reg_testbit (buf : list Z) (k : nat) (j : Z) :
  0 <= j < 16 ->
  Z.testbit (rx_reg buf k) j =
  if j <? 8 then Z.testbit (buf_get buf (2 * k + 1)) j
  else Z.testbit (buf_get buf (2 * k)) (j - 8).
Proof.
  intros Hj. unfold rx_reg.
  rewrite u16_testbit, Z.lor_spec, u16_testbit by lia.
  destruct (Z.ltb_spec j 8) as [Hlt | Hge].
  - rewrite Z.shiftl_spec_low by lia. reflexivity.
  - rewrite Z.shiftl_spec by lia. rewrite (buf_get_testbit_high buf (2 * k + 1)) by lia.
    apply orb_false_r.
Qed.

Lemma status_low_byte (buf : list Z) :
  u8 (fm_get_bits (status_of buf) RSSI_BITS RSSI_LSB) = buf_get buf 1.
Proof.
  change (status_of buf) with (rx_reg buf 0).
  change RSSI_BITS with (field 8 0). change RSSI_LSB with 0.
  apply Z.bits_inj'. intros i Hi.
  rewrite u8_testbit, fm_get_bits_testbit by lia. rewrite Z.add_0_r.
  destruct (Z.ltb_spec i 8) as [Hlt | Hge].
  - rewrite rx_reg_testbit by lia.
    replace (i <? 8) with true by (symmetry; apply Z.ltb_lt; lia).
    rewrite !andb_true_r. reflexivity.
  - rewrite buf_get_testbit_high by lia. rewrite andb_false_r. reflexivity.
Qed.

Lemma status_high_bit (buf : list Z) (k : Z) :
  8 <= k < 16 ->
  fm_get_bit (status_of buf) (Z.shiftl 1 k) = Z.testbit (buf_get buf 0) (k - 8).
Proof.
  intros Hk. change (status_of buf) with (rx_reg buf 0).
  rewrite fm_get_bit_testbit by lia. rewrite rx_reg_testbit by lia.
  replace (k <? 8) with false by (symmetry; apply Z.ltb_ge; lia). reflexivity.
Qed.

(** X13. fm_get_rssi and fm_get_stereo_indicator, on a powered-up handle,
    make one bus read of STATUSRSSI alone and decode the shadow: the RSSI is
    the low byte of the register and the stereo indicator bit 8.  When the
    bus answers in full these are the second byte received and bit 0 of the
    first; when the read fails the call does not tell: it returns the value
    of the old shadow.  The RSSI lies in 0..255, and no setting changes. *)
Theorem status_reads_decode (r : si470x_t) (w : world) :
  handle_ok r -> fm_is_powered_up r = true ->
  let rb := bus w (txn w) in
  let w' := emit (EvRead 2 (fst rb)) (next_txn w) in
  let status := if fst rb =? 2 then status_of (snd rb) else reg_get (regs r) STATUSRSSI in
  let r' := if fst rb =? 2 then with_regs r (reg_set (regs r) STATUSRSSI status) else r in
  let rssi := u8 (fm_get_bits status RSSI_BITS RSSI_LSB) in
  fm_get_rssi (r, w) = (Ret rssi, (r', w')) /\
  fm_get_stereo_indicator (r, w) = (Ret (fm_get_bit status ST_BIT), (r', w')) /\
  (fst rb = 2 ->
   rssi = buf_get (snd rb) 1 /\
   fm_get_bit status ST_BIT = Z.testbit (buf_get (snd rb) 0) 0) /\
  0 <= rssi <= 255 /\
  settings_kept r r'.
Proof.
  intros Hok Hp. cbn zeta.
  assert (Hlen : 0 <= STATUSRSSI < Z.of_nat (length (regs r)))
    by (rewrite Hok; cbv; split; [discriminate | reflexivity]).
  split; [|split; [|split; [|split]]].
  - unfold fm_get_rssi. run. rewrite Hp.
    rewrite fm_read_registers_up_to_run by (cbv; split; [discriminate | reflexivity]).
    cbn zeta. change (if STATUSRSSI <? 10 then STATUSRSSI + 7 else STATUSRSSI - 9) with 1.
    change (1 * 2) with 2.
    destruct (fst (bus w (txn w)) =? 2); cbn [fst snd regs with_regs];
      rewrite ?read_one_register, ?reg_get_set_same by exact Hlen; reflexivity.
  - unfold fm_get_stereo_indicator. run. rewrite Hp.
    rewrite fm_read_registers_up_to_run by (cbv; split; [discriminate | reflexivity]).
    cbn zeta. change (if STATUSRSSI <? 10 then STATUSRSSI + 7 else STATUSRSSI - 9) with 1.
    change (1 * 2) with 2.
    destruct (fst (bus w (txn w)) =? 2); cbn [fst snd regs with_regs];
      rewrite ?read_one_register, ?reg_get_set_same by exact Hlen; reflexivity.
  - intros ->. cbn [Z.eqb Pos.eqb]. split; [apply status_low_byte|].
    exact (status_high_bit _ 8 ltac:(lia)).
  - pose proof (u8_range (fm_get_bits
        (if fst (bus w (txn w)) =? 2 then status_of (snd (bus w (txn w)))
         else reg_get (regs r) STATUSRSSI) RSSI_BITS RSSI_LSB)). lia.
  - destruct (fst (bus w (txn w)) =? 2); [|apply settings_kept_refl].
    split; [reflexivity|]. cbn [regs with_regs].
    apply regs_kept_set_other; [cbv; discriminate | cbv; intuition discriminate].
Qed.

(* The registers a read up to RDSD brings in. *)
Lemma read_six_registers (buf l : list Z) :
  length l = 16%nat ->
  let l' := fm_read_registers_loop (Z.to_nat 6) buf 0 0xA l in
  reg_get l' STATUSRSSI = status_of buf /\
  map (reg_get l') [RDSA; RDSB; RDSC; RDSD] =
    [rx_reg buf 2; rx_reg buf 3; rx_reg buf 4; rx_reg buf 5] /\
  agree_except [STATUSRSSI; READCHAN; RDSA; RDSB; RDSC; RDSD] l l'.
Proof.
  intros Hl. cbn zeta.
  destruct (list16 l Hl) as
    (a0 & a1 & a2 & a3 & a4 & a5 & a6 & a7 & a8 & a9 & a10 & a11 & a12 & a13 & a14 & a15 & ->).
  split; [reflexivity|]. split; [reflexivity|].
  split; [reflexivity|].
  intros j Hj Hn.
  assert (Hc : j = 0 \/ j = 1 \/ j = 2 \/ j = 3 \/ j = 4 \/ j = 5 \/ j = 6 \/ j = 7 \/
               j = 8 \/ j = 9 \/ 16 <= j).
  { cbn in Hn. unfold STATUSRSSI, READCHAN, RDSA, RDSB, RDSC, RDSD in Hn. lia. }
  decompose [or] Hc; subst; try reflexivity.
  unfold reg_get. rewrite !nth_overflow; [reflexivity | |]; cbn [length];
    rewrite ?fm_read_registers_loop_length; cbn [length]; lia.
Qed.

(** X14. fm_read_rds_group, on a powered-up handle of a chip with RDS, makes
    one bus read of the six registers STATUSRSSI to RDSD.  When the bus
    answers in full, the call gives the four blocks received, high byte
    first, if RDSR, bit 7 of the first byte, is set, and nothing if it is
    clear.  When the read fails the call does not tell: it decides by the old
    shadow, and with RDSR set there it gives the blocks of the old shadow
    again.  No setting changes. *)
Theorem rds_group_read (r : si470x_t) (w : world) :
  handle_ok r -> fm_is_powered_up r = true -> fm_is_rds_supported r = true ->
  let rb := bus w (txn w) in
  let w' := emit (EvRead 12 (fst rb)) (next_txn w) in
  (fst rb = 12 ->
   exists r',
     fm_read_rds_group (r, w) =
       (Ret (if Z.testbit (buf_get (snd rb) 0) 7
             then Some [rx_reg (snd rb) 2; rx_reg (snd rb) 3;
                        rx_reg (snd rb) 4; rx_reg (snd rb) 5]
             else None), (r', w')) /\
     settings_kept r r' /\
     agree_except [STATUSRSSI; READCHAN; RDSA; RDSB; RDSC; RDSD] (regs r) (regs r')) /\
  (fst rb <> 12 ->
   fm_read_rds_group (r, w) =
     (Ret (if fm_get_bit (reg_get (regs r) STATUSRSSI) RDSR_BIT
           then Some (map (reg_get (regs r)) [RDSA; RDSB; RDSC; RDSD])
           else None), (r, w'))).
Proof.
  intros Hok Hp Hr. cbn zeta.
  assert (E : fm_read_rds_group (r, w) =
    let rb := bus w (txn w) in
    let r' := if fst rb =? 12
              then with_regs r (fm_read_registers_loop (Z.to_nat 6) (snd rb) 0 0xA (regs r))
              else r in
    (Ret (if fm_get_bit (reg_get (regs r') STATUSRSSI) RDSR_BIT
          then Some (map (reg_get (regs r')) [RDSA; RDSB; RDSC; RDSD])
          else None),
     (r', emit (EvRead 12 (fst rb)) (next_txn w)))).
  { unfold fm_read_rds_group. run. rewrite Hp, Hr.
    rewrite fm_read_registers_up_to_run by (cbv; split; [discriminate | reflexivity]).
    cbn zeta. change (if RDSD <? 10 then RDSD + 7 else RDSD - 9) with 6.
    change (6 * 2) with 12.
    destruct (fst (bus w (txn w)) =? 12); cbn [fst snd regs with_regs];
      match goal with |- context [fm_get_bit ?a RDSR_BIT] =>
        destruct (fm_get_bit a RDSR_BIT) end; reflexivity. }
  rewrite E. cbn zeta. split.
  - intros Hlen. rewrite Hlen. cbn [Z.eqb Pos.eqb regs with_regs].
    destruct (read_six_registers (snd (bus w (txn w))) (regs r) Hok) as (Gs & Gb & A).
    cbn zeta in Gs, Gb, A. rewrite Gs, Gb.
    change RDSR_BIT with (Z.shiftl 1 15). rewrite status_high_bit by lia.
    change (15 - 8) with 7.
    eexists. split; [reflexivity|]. split; [|exact A].
    split; [reflexivity|]. cbn [regs with_regs].
    apply (regs_kept_agree _ _ _ A). intros j Hj Hs. cbv in Hj, Hs. lia.
  - intros Hlen. apply Z.eqb_neq in Hlen. rewrite Hlen. reflexivity.
Qed.

(** ** The chip id *)

Lemma fm_get_bits_div_mod (x w lsb : Z) :
  0 <= w -> 0 <= lsb ->
  fm_get_bits x (field w lsb) lsb = (x / 2 ^ lsb) mod 2 ^ w.
Proof.
  intros Hw Hl. apply Z.bits_inj'. intros i Hi.
  rewrite fm_get_bits_testbit by lia.
  destruct (Z.ltb_spec i w) as [Hlt | Hge].
  - rewrite Z.mod_pow2_bits_low by lia. rewrite Z.div_pow2_bits by lia.
    apply andb_true_r.
  - rewrite Z.mod_pow2_bits_high by lia. apply andb_false_r.
Qed.

(** X15. The three fields of fm_get_chip_id partition the shadow CHIPID: the
    firmware takes its low six bits, the device the next four and the
    revision the top six, so that a 16-bit CHIPID is
    revision * 1024 + device * 64 + firmware, and the casts to uint8_t lose
    nothing.  fm_is_rds_supported holds exactly when the device field is
    0b1001, the Si4703. *)
Theorem chip_id_partitions_register (r : si470x_t) :
  regs16 (regs r) ->
  let id := fm_get_chip_id r in
  0 <= firmware id < 2 ^ 6 /\ 0 <= dev id < 2 ^ 4 /\ 0 <= rev id < 2 ^ 6 /\
  reg_get (regs r) CHIPID = rev id * 2 ^ 10 + dev id * 2 ^ 6 + firmware id /\
  fm_is_rds_supported r = (dev id =? 9).
Proof.
  intros H16. cbn zeta. unfold fm_get_chip_id, fm_is_rds_supported.
  cbn [firmware dev rev].
  pose proof (regs16_get (regs r) CHIPID H16) as Hx.
  set (x := reg_get (regs r) CHIPID) in *.
  change FIRMWARE_BITS with (field 6 0). change FIRMWARE_LSB with 0.
  change DEV_BITS with (field 4 6). change DEV_LSB with 6.
  change REV_BITS with (field 6 10). change REV_LSB with 10.
  rewrite !fm_get_bits_div_mod by lia.
  change (2 ^ 0) with 1. rewrite Z.div_1_r.
  pose proof (Z.mod_pos_bound x (2 ^ 6) ltac:(lia)) as B1.
  pose proof (Z.mod_pos_bound (x / 2 ^ 6) (2 ^ 4) ltac:(lia)) as B2.
  pose proof (Z.mod_pos_bound (x / 2 ^ 10) (2 ^ 6) ltac:(lia)) as B3.
  unfold u8. rewrite !(Z.mod_small _ (2 ^ 8)) by lia.
  split; [exact B1|]. split; [exact B2|]. split; [exact B3|].
  split; [|reflexivity].
  assert (E10 : x / 2 ^ 10 = x / 2 ^ 6 / 2 ^ 4)
    by (rewrite Z.div_div by lia; reflexivity).
  pose proof (Z.div_mod x (2 ^ 6) ltac:(lia)) as D1.
  pose proof (Z.div_mod (x / 2 ^ 6) (2 ^ 4) ltac:(lia)) as D2.
  assert (Hq : 0 <= x / 2 ^ 10 < 2 ^ 6).
  { split; [apply Z.div_pos; lia|]. apply Z.div_lt_upper_bound; lia. }
  rewrite (Z.mod_small (x / 2 ^ 10)) by exact Hq.
  rewrite E10 in *. lia.
Qed.

(** ** The edges of the bands *)

Lemma channels_in_band_spec (b : fm_band_t) (s : fm_channel_spacing_t) (n : nat) (c : Z) :
  channels_in_band b s n = true -> 0 <= c < Z.of_nat n ->
  in_range (fm_channel_to_frequency c (fm_frequency_range b s)) (fm_frequency_range b s)
  = true.
Proof.
  intros H Hc. unfold channels_in_band in H. rewrite forallb_forall in H.
  specialize (H (Z.to_nat c)). rewrite Z2Nat.id in H by lia.
  apply H. apply in_seq. lia.
Qed.

(** X16. In every band, at every spacing, the bottom of the band is channel
    0 and back, and the top of the band is given a channel [n] of at most 640,
    well within the ten bits of CHAN; every channel below [n] has a frequency
    in the band and channel [n + 1] has not.  Channel [n] itself is the top of
    the band, except in the common band at 200 kHz: there 108 MHz lies halfway
    between two channels and is given channel 103, whose frequency lies above
    the band. *)
Theorem band_edges (b : fm_band_t) (s : fm_channel_spacing_t) :
  let range := fm_frequency_range b s in
  fm_frequency_to_channel (bottom range) range = Some 0 /\
  F32.eqb (fm_channel_to_frequency 0 range) (bottom range) = true /\
  exists n,
    top_channel b s = Some n /\ 0 < n <= 640 /\
    (forall c, 0 <= c < n -> in_range (fm_channel_to_frequency c range) range = true) /\
    in_range (fm_channel_to_frequency n range) range = negb (top_off_grid b s) /\
    F32.eqb (fm_channel_to_frequency n range) (top range) = negb (top_off_grid b s) /\
    in_range (fm_channel_to_frequency (n + 1) range) range = false.
Proof.
  cbn zeta.
  assert (H : exists n : nat,
            top_channel b s = Some (Z.of_nat n) /\ (0 < n <= 640)%nat /\
            channels_in_band b s n = true /\
            fm_frequency_to_channel (bottom (fm_frequency_range b s)) (fm_frequency_range b s)
              = Some 0 /\
            F32.eqb (fm_channel_to_frequency 0 (fm_frequency_range b s))
              (bottom (fm_frequency_range b s)) = true /\
            in_range (fm_channel_to_frequency (Z.of_nat n) (fm_frequency_range b s))
              (fm_frequency_range b s) = negb (top_off_grid b s) /\
            F32.eqb (fm_channel_to_frequency (Z.of_nat n) (fm_frequency_range b s))
              (top (fm_frequency_range b s)) = negb (top_off_grid b s) /\
            in_range (fm_channel_to_frequency (Z.of_nat n + 1) (fm_frequency_range b s))
              (fm_frequency_range b s) = false).
  { destruct b, s;
      [ exists 103%nat | exists 205%nat | exists 410%nat
      | exists 160%nat | exists 320%nat | exists 640%nat
      | exists 70%nat | exists 140%nat | exists 280%nat ];
      (split; [vm_compute; reflexivity|]); (split; [lia|]);
      vm_compute; repeat split. }
  destruct H as (n & Ht & Hn & Hall & Hb & Hb' & Hin & Hex & Hout).
  split; [exact Hb|]. split; [exact Hb'|].
  exists (Z.of_nat n). split; [exact Ht|]. split; [lia|].
  split; [|split; [exact Hin|split; [exact Hex | exact Hout]]].
  intros c Hc. apply (channels_in_band_spec b s n); assumption.
Qed.

(** ** Cancelling a task *)

(* The reads of the wait for STC to clear: when it returns it has made [k]
   reads of one register, at least one and at most [fuel], in consecutive
   transactions. *)
Lemma wait_stc_cleared_trace (fuel : nat) (r : si470x_t) (w : world) (m' : machine) :
  wait_stc_cleared fuel (r, w) = (Ret tt, m') ->
  exists k, (1 <= k <= fuel)%nat /\
    txn (snd m') = (txn w + k)%nat /\
    trace (snd m') =
      trace w ++ map (fun j => EvRead 2 (fst (bus w (txn w + j)%nat))) (seq 0 k).
Proof.
  revert r w. induction fuel as [|fuel IH]; intros r w E.
  - cbn in E. discriminate E.
  - rewrite wait_stc_cleared_step in E. cbn zeta in E.
    match type of E with
    | (if ?c then _ else _) = _ => destruct c
    end.
    + apply IH in E. destruct E as (k & Hk & Tx & Tr).
      cbn [bus txn trace emit next_txn] in Tx, Tr.
      exists (S k). split; [lia|]. split; [lia|].
      rewrite Tr, <- app_assoc. f_equal.
      cbn [seq map app]. rewrite Nat.add_0_r. f_equal.
      rewrite <- seq_shift, map_map. apply map_ext. intros j.
      replace (S (txn w) + j)%nat with (txn w + S j)%nat by lia. reflexivity.
    + inversion E; subst m'; clear E. exists 1%nat.
      cbn [snd bus txn trace emit next_txn seq map]. rewrite Nat.add_0_r.
      split; [lia|]. split; [lia | reflexivity].
Qed.

(* The transactions of the clean-up of a task that returns: one write of the
   registers up to the start register, with the start bit cleared, the reads
   of the wait, one read of STATUSRSSI and READCHAN. *)
Lemma task_cleanup_trace (i bit : Z) (fuel : nat) (res : Z) (r : si470x_t) (w : world)
    (p : fm_async_progress_t) (m' : machine) :
  2 <= i <= 15 ->
  task_cleanup i bit fuel res (r, w) = (Ret p, m') ->
  exists k, (1 <= k <= fuel)%nat /\
    trace (snd m') =
      trace w ++
      EvWrite (fm_write_registers_loop (Z.to_nat (i - 1))
                 (reg_set (regs r) i (fm_set_bit (reg_get (regs r) i) bit false)) 2)
              (fst (bus w (txn w)))
      :: map (fun j => EvRead 2 (fst (bus w (S (txn w) + j)%nat))) (seq 0 k)
      ++ [EvRead 4 (fst (bus w (S (txn w) + k)%nat))].
Proof.
  intros Hi EX.
  unfold task_cleanup, modify_reg in EX.
  unfold bind at 1 in EX. unfold modify at 1 in EX. cbn [fst snd] in EX.
  unfold bind at 1 in EX. rewrite fm_write_registers_up_to_run in EX by exact Hi.
  set (r1 := with_regs r _) in EX. set (w1 := emit _ _) in EX.
  unfold bind at 1 in EX.
  destruct (wait_stc_cleared fuel (r1, w1)) as [o [r2 w2]] eqn:E2.
  destruct o; try discriminate EX.
  match type of E2 with _ = (Ret ?u, _) => destruct u end.
  destruct (wait_stc_cleared_world _ _ _ _ _ E2) as [B2 _].
  destruct (wait_stc_cleared_trace _ _ _ _ E2) as (k & Hk & Tx & Tr).
  cbn [snd] in B2, Tx, Tr.
  unfold bind at 1 in EX.
  destruct (read_up_to_READCHAN_frame r2 w2) as (ok & l3 & E3 & _).
  rewrite E3 in EX. unfold store_read_channel in EX. revert EX. run. intros EX.
  inversion EX; subst p m'; clear EX.
  exists k. split; [exact Hk|].
  cbn [snd trace emit next_txn]. rewrite B2, Tx, Tr.
  subst w1 r1. cbn [regs with_regs bus txn trace emit next_txn].
  rewrite <- !app_assoc. reflexivity.
Qed.

(** C5. With a task in the slot, fm_async_task_cancel calls the task
    function the slot points to with [cancel = true] and then clears the
    slot, whatever the task reported.  Called with [cancel = true], the task
    clears its start bit (SEEK of POWERCFG or TUNE of CHANNEL) in the shadow,
    writes the registers up to that one, reads STATUSRSSI until STC is clear,
    reads the channel back into the frequency of the handle, and reports
    done with the result -1, leaving the slot to its caller.  So whenever
    the cancellation returns, the bus has seen that write and those reads
    and nothing else, the start bit is clear, the slot is empty and the
    handle is still powered up, so that fm_seek_async and
    fm_set_frequency_async pass their assertions and start a task at once.
    The call returns when the chip clears STC within the fuel. *)
Theorem cancel_clears_slot (fuel : nat) (r : si470x_t) (w : world) (n : nat) :
  handle_ok r ->
  fm_is_powered_up r = true ->
  task (async r) <> NULL ->
  state (async r) = 1 ->
  let t := task (async r) in
  let i := start_register t in
  let cleared :=
    reg_set (regs r) i (fm_set_bit (reg_get (regs r) i) (start_bit t) false) in
  let transactions (k : nat) :=
    EvWrite (fm_write_registers_loop (Z.to_nat (i - 1)) cleared 2) (fst (bus w (txn w)))
    :: map (fun j => EvRead 2 (fst (bus w (S (txn w) + j)%nat))) (seq 0 k)
    ++ [EvRead 4 (fst (bus w (S (txn w) + k)%nat))] in
  fm_async_task_cancel fuel (r, w) =
    (call_task fuel t true ;;
     modify (fun r => with_async r async_empty)) (r, w) /\
  (forall p m1, call_task fuel t true (r, w) = (Ret p, m1) ->
     p = mk_progress true (-1) /\
     async (fst m1) = async r /\
     fm_get_bit (reg_get (regs (fst m1)) i) (start_bit t) = false /\
     agree_except [STATUSRSSI; READCHAN] cleared (regs (fst m1)) /\
     frequency (fst m1) = read_channel (fst m1) /\
     (exists k, (1 <= k <= fuel)%nat /\ trace (snd m1) = trace w ++ transactions k) /\
     fm_async_task_cancel fuel (r, w) = (Ret tt, (with_async (fst m1) async_empty, snd m1))) /\
  (forall m', fm_async_task_cancel fuel (r, w) = (Ret tt, m') ->
     async (fst m') = async_empty /\
     fm_is_powered_up (fst m') = true /\
     (exists p m1, call_task fuel t true (r, w) = (Ret p, m1) /\
                   m' = (with_async (fst m1) async_empty, snd m1)) /\
     (forall d, exists m'',
        fm_seek_async d m' = (Ret tt, m'') /\
        task (async (fst m'')) = fm_seek_async_task_ptr) /\
     (forall f c,
        fm_frequency_to_channel f (fm_get_frequency_range (fst m')) = Some c ->
        exists m'',
          fm_set_frequency_async f m' = (Ret tt, m'') /\
          task (async (fst m'')) = fm_set_frequency_async_task_ptr)) /\
  (chip_settles w (S (txn w)) n -> (n <= fuel)%nat ->
   exists m', fm_async_task_cancel fuel (r, w) = (Ret tt, m')).
Proof.
  intros Hok Hp Ht Hs. cbv zeta.
  assert (E0 : fm_async_task_cancel fuel (r, w) =
    (call_task fuel (task (async r)) true ;;
     modify (fun r => with_async r async_empty)) (r, w)).
  { unfold fm_async_task_cancel. run. rewrite (task_eqb_NULL_false _ Ht). reflexivity. }
  split; [exact E0|].
  assert (Ec : exists bit, 2 <= start_register (task (async r)) <= 15 /\
             bit = start_bit (task (async r)) /\
             (start_register (task (async r)) = POWERCFG -> bit = SEEK_BIT) /\
             call_task fuel (task (async r)) true (r, w) =
               task_cleanup (start_register (task (async r))) bit fuel (-1) (r, w)).
  { destruct (task (async r)) eqn:E; [contradiction | |];
      cbn [call_task start_register start_bit].
    - exists TUNE_BIT. split; [cbv; split; discriminate|]. split; [reflexivity|].
      split; [discriminate|]. unfold fm_set_frequency_async_task. run.
      rewrite E, Hs. reflexivity.
    - exists SEEK_BIT. split; [cbv; split; discriminate|]. split; [reflexivity|].
      split; [reflexivity|]. unfold fm_seek_async_task. run.
      rewrite E, Hs. reflexivity. }
  destruct Ec as (bit & Hi & Hb & Hbit & Ec). subst bit.
  set (t := task (async r)) in *. set (i := start_register t) in *.
  set (bit := start_bit t) in *.
  assert (Hbw : 0 <= 0 < 16 /\ 0 <= 8 < 16) by lia.
  assert (Hbit16 : bit = Z.shiftl 1 8 \/ bit = Z.shiftl 1 15).
  { subst bit. destruct t; cbn; auto. }
  split; [|split].
  - intros p m1 E1. rewrite Ec in E1.
    destruct (task_cleanup_post i bit fuel (-1) r w p m1 Hi E1)
      as (Hp1 & _ & _ & l' & A & Hm).
    destruct (task_cleanup_trace i bit fuel (-1) r w p m1 Hi E1) as (k & Hk & Tr).
    split; [exact Hp1|]. rewrite Hm.
    cbn [async regs frequency with_frequency with_regs].
    split; [reflexivity|]. split.
    + destruct A as [_ A]. rewrite A.
      * rewrite reg_get_set_same by (rewrite Hok; change (Z.of_nat 16) with 16; lia).
        destruct Hbit16 as [-> | ->].
        -- exact (fm_get_set_bit _ 8 8 false ltac:(lia) ltac:(lia)).
        -- exact (fm_get_set_bit _ 15 15 false ltac:(lia) ltac:(lia)).
      * lia.
      * subst i. destruct t; cbv; intuition discriminate.
    + split; [exact A|]. split; [reflexivity|]. split.
      * exists k. split; [exact Hk | exact Tr].
      * rewrite E0. unfold bind. rewrite Ec, E1. run. rewrite Hm. reflexivity.
  - intros m' E. rewrite E0 in E. unfold bind in E. rewrite Ec in E.
    destruct (task_cleanup i bit fuel (-1) (r, w)) as [o m1] eqn:E1.
    destruct o as [p| | | |]; try discriminate E.
    revert E. run. intros E. inversion E; subst m'; clear E. cbn [fst snd].
    destruct (task_cleanup_post i bit fuel (-1) r w p m1 Hi E1)
      as (_ & _ & _ & l' & A & Hm).
    assert (Hp' : fm_is_powered_up (with_async (fst m1) async_empty) = true).
    { rewrite Hm. unfold fm_is_powered_up.
      cbn [regs with_async with_frequency with_regs].
      rewrite (cleanup_keeps_power i bit r l' Hok Hi Hbit A). exact Hp. }
    split; [reflexivity|]. split; [exact Hp'|]. split.
    + exists p, m1. split; [exact Ec|]. destruct m1; reflexivity.
    + split.
      * intros d.
        destruct (fm_seek_async_starts d _ (snd m1) Hp' eq_refl) as (m'' & E & T & _).
        exists m''. auto.
      * intros f c Hc.
        destruct (fm_set_frequency_async_starts f c _ (snd m1) Hp' eq_refl Hc)
          as (m'' & E & T & _).
        exists m''. auto.
  - intros Hset Hn.
    destruct (cancel_frame fuel r w n Hok Hp Ht Hs Hset Hn) as (r1 & w1 & E & _).
    exists (r1, w1). exact E.
Qed.

(** ** Binary32 arithmetic on frequencies *)

(* The number of binary digits of a positive. *)
Lemma digits2_pos_bounds (p : positive) :
  2 ^ (Zpos (digits2_pos p) - 1) <= Zpos p < 2 ^ Zpos (digits2_pos p).
Proof.
  induction p as [p IH | p IH |]; cbn [digits2_pos].
  - rewrite Pos2Z.inj_succ.
    replace (Z.succ (Zpos (digits2_pos p)) - 1) with (Z.succ (Zpos (digits2_pos p) - 1)) by lia.
    rewrite !Z.pow_succ_r by lia. lia.
  - rewrite Pos2Z.inj_succ.
    replace (Z.succ (Zpos (digits2_pos p)) - 1) with (Z.succ (Zpos (digits2_pos p) - 1)) by lia.
    rewrite !Z.pow_succ_r by lia. lia.
  - cbn. lia.
Qed.

Lemma digits2_pos_unique (p : positive) (n : Z) :
  2 ^ (n - 1) <= Zpos p < 2 ^ n -> Zpos (digits2_pos p) = n.
Proof.
  intros [Hlo Hhi]. pose proof (digits2_pos_bounds p) as [Dlo Dhi].
  set (d := Zpos (digits2_pos p)) in *.
  assert (Hd : 0 < d) by (subst d; lia).
  assert (Hn : 0 < n).
  { destruct (Z_lt_le_dec 0 n) as [H | H]; [exact H|].
    assert (2 ^ n <= 2 ^ 0) by (apply Z.pow_le_mono_r; lia).
    change (2 ^ 0) with 1 in *. lia. }
  destruct (Z_lt_le_dec d n) as [H1 | H1].
  - assert (2 ^ d <= 2 ^ (n - 1)) by (apply Z.pow_le_mono_r; lia). lia.
  - destruct (Z_lt_le_dec n d) as [H2 | H2]; [|lia].
    assert (2 ^ n <= 2 ^ (d - 1)) by (apply Z.pow_le_mono_r; lia). lia.
Qed.

(* A mantissa of 24 digits with an exponent in range is what rounding an
   exact value gives back. *)
Lemma binary_round_aux_exact (m : positive) (e : Z) :
  Zpos (digits2_pos m) = 24 -> -149 <= e <= 104 ->
  binary_round_aux 24 128 false (Zpos m) e loc_Exact = S754_finite false m e.
Proof.
  intros Hd He. unfold binary_round_aux, shr_fexp.
  cbn [Zdigits2 shr_record_of_loc]. rewrite Hd.
  replace (fexp 24 128 (24 + e) - e) with 0 by (unfold fexp, emin; lia).
  cbn [shr shr_m loc_of_shr_record round_nearest_even Zdigits2 shr_record_of_loc].
  rewrite Hd.
  replace (fexp 24 128 (24 + e) - e) with 0 by (unfold fexp, emin; lia).
  cbn [shr shr_m].
  replace (e <=? 128 - 24) with true by (symmetry; apply Z.leb_le; lia).
  reflexivity.
Qed.

(* Normalising a positive integer of at most 24 digits is exact: the
   mantissa is shifted up to 24 digits. *)
Lemma binary_round_exact (p : positive) (e : Z) :
  Zpos p < 2 ^ 24 -> -100 <= e <= 100 ->
  exists m',
    binary_round 24 128 false p e =
      S754_finite false m' (e + Zpos (digits2_pos p) - 24) /\
    Zpos (digits2_pos m') = 24 /\
    Zpos m' = Zpos p * 2 ^ (24 - Zpos (digits2_pos p)).
Proof.
  intros Hp He. pose proof (digits2_pos_bounds p) as [Dlo Dhi].
  set (d := Zpos (digits2_pos p)) in *.
  assert (Hd : 1 <= d <= 24).
  { split; [subst d; lia|].
    destruct (Z_lt_le_dec 24 d) as [H | H]; [|exact H].
    assert (2 ^ 24 <= 2 ^ (d - 1)) by (apply Z.pow_le_mono_r; lia). lia. }
  unfold binary_round. fold d.
  replace (fexp 24 128 (d + e)) with (e + d - 24) by (unfold fexp, emin; lia).
  unfold shl_align.
  destruct (e + d - 24 - e) as [|sh|sh] eqn:Esh.
  - assert (d = 24) by lia.
    exists p. replace (e + d - 24) with e by lia.
    rewrite (binary_round_aux_exact p e) by (fold d; lia).
    split; [reflexivity|]. split; [fold d; lia|].
    replace (24 - d) with 0 by lia. lia.
  - lia.
  - assert (Hsh : Zpos sh = 24 - d) by lia.
    assert (Hv : Zpos (Pos.iter xO p sh) = Zpos p * 2 ^ (24 - d)).
    { change (Pos.iter xO p sh) with (shift_pos sh p).
      rewrite shift_pos_correct, Z.pow_pos_fold.
      rewrite Hsh. ring. }
    assert (Hd' : Zpos (digits2_pos (Pos.iter xO p sh)) = 24).
    { apply digits2_pos_unique. rewrite Hv. split.
      - replace (24 - 1) with ((d - 1) + (24 - d)) by lia.
        rewrite Z.pow_add_r by lia. apply Z.mul_le_mono_nonneg_r; [|exact Dlo].
        apply Z.pow_nonneg. lia.
      - replace 24 with (d + (24 - d)) at 2 by lia.
        rewrite Z.pow_add_r by lia. apply Z.mul_lt_mono_pos_r; [|exact Dhi].
        apply Z.pow_pos_nonneg; lia. }
    exists (Pos.iter xO p sh).
    rewrite (binary_round_aux_exact _ _ Hd') by lia.
    split; [reflexivity|]. split; [exact Hd' | exact Hv].
Qed.

(* The comparison of two positive floats. *)
Lemma leb_finite (m1 m2 : positive) (e1 e2 : Z) :
  F32.leb (S754_finite false m1 e1) (S754_finite false m2 e2) =
  match e1 ?= e2 with
  | Lt => true
  | Gt => false
  | Eq => (m1 <=? m2)%positive
  end.
Proof.
  unfold F32.leb, SFleb, SFcompare, Pos.leb, Pos.compare.
  destruct (e1 ?= e2); [|reflexivity|reflexivity].
  destruct (Pos.compare_cont Eq m1 m2); reflexivity.
Qed.

(* The limits of a band and the three spacings. *)
Lemma band_limits (b : fm_band_t) (s : fm_channel_spacing_t) :
  let r := fm_frequency_range b s in
  exists mb mt,
    bottom r = S754_finite false mb (-17) /\
    top r = S754_finite false mt (-17) /\
    2 ^ 23 <= Zpos mb /\ Zpos mb <= Zpos mt /\ Zpos mt - Zpos mb <= 2 ^ 22.
Proof.
  destruct b, s; cbn [fm_frequency_range bottom top];
    eexists _, _; (split; [reflexivity|]); (split; [reflexivity|]);
    cbv; repeat split; discriminate.
Qed.

Lemma spacing_float (b : fm_band_t) (s : fm_channel_spacing_t) :
  spacing (fm_frequency_range b s) =
  S754_finite false 13421773 (exponent (spacing (fm_frequency_range b s))) /\
  -28 <= exponent (spacing (fm_frequency_range b s)) <= -26.
Proof. destruct b, s; (split; [reflexivity | cbv; split; discriminate]). Qed.

(* A frequency of the band is a positive float with the exponent of the
   band limits and a mantissa between theirs. *)
Lemma in_range_mantissa (b : fm_band_t) (s : fm_channel_spacing_t) (f : F32.float) :
  let r := fm_frequency_range b s in
  in_range f r = true ->
  exists m, f = S754_finite false m (-17) /\
            mantissa (bottom r) <= Zpos m <= mantissa (top r).
Proof.
  cbv zeta. destruct (band_limits b s) as (mb & mt & Eb & Et & _).
  unfold in_range. rewrite Eb, Et. cbn [mantissa].
  destruct f as [sf | sf | | sf m e].
  - cbn. discriminate.
  - destruct sf; cbn; discriminate.
  - cbn. discriminate.
  - destruct sf; [cbn; discriminate|].
    rewrite !leb_finite. intros H.
    destruct (Z.compare_spec (-17) e) as [He | He | He].
    + subst e. rewrite Z.compare_refl in H.
      apply andb_prop in H. destruct H as [H1 H2].
      apply Pos.leb_le in H1, H2. exists m. split; [reflexivity | lia].
    + destruct (Z.compare_spec e (-17)); [lia | lia |].
      rewrite andb_false_r in H. discriminate H.
    + discriminate H.
Qed.

(* The difference of two floats with the same exponent is exact. *)
Lemma sub_same_exponent (m mb : positive) (e : Z) :
  F32.sub (S754_finite false m e) (S754_finite false mb e) =
  binary_normalize 24 128 (Zpos m - Zpos mb) e false.
Proof.
  unfold F32.sub, SFsub. cbv zeta. rewrite Z.min_id.
  unfold shl_align. rewrite Z.sub_diag. reflexivity.
Qed.

(* The quotient of two floats with mantissas of 24 digits: the integer
   quotient of the mantissas, the dividend shifted up by 24 digits, rounded
   from where the remainder places it. *)
Lemma div_normal (mx ms : positive) (ex es : Z) :
  Zpos (digits2_pos mx) = 24 -> Zpos (digits2_pos ms) = 24 ->
  -100 <= ex - es <= 100 ->
  F32.div (S754_finite false mx ex) (S754_finite false ms es) =
  binary_round_aux 24 128 false (Zpos mx * 2 ^ 24 / Zpos ms) (ex - es - 24)
    (new_location (Zpos ms) (Zpos mx * 2 ^ 24 mod Zpos ms)).
Proof.
  intros Hx Hs He. unfold F32.div, F32.prec, F32.emax, SFdiv, SFdiv_core_binary.
  cbv zeta. cbn [Zdigits2 xorb]. rewrite Hx, Hs.
  replace (Z.min (fexp 24 128 (24 + ex - (24 + es))) (ex - es)) with (ex - es - 24)
    by (unfold fexp, emin; lia).
  replace (ex - es - (ex - es - 24)) with 24 by lia.
  rewrite Z.shiftl_mul_pow2 by lia.
  unfold Z.div, Z.modulo.
  destruct (Z.div_eucl (Zpos mx * 2 ^ 24) (Zpos ms)) as [q r]. reflexivity.
Qed.

Lemma shr_record_of_loc_m (m : Z) (l : location) : shr_m (shr_record_of_loc m l) = m.
Proof. destruct l as [|[]]; reflexivity. Qed.

Lemma loc_of_shr_record_of_loc (m : Z) (l : location) :
  loc_of_shr_record (shr_record_of_loc m l) = l.
Proof. destruct l as [|[]]; reflexivity. Qed.

(* Rounding stops at a mantissa of 24 digits and goes one step on at 2^24. *)
Lemma shr_fexp_24 (m : positive) (e : Z) :
  2 ^ 23 <= Zpos m < 2 ^ 24 -> -149 <= e ->
  shr_fexp 24 128 (Zpos m) e loc_Exact = (Build_shr_record (Zpos m) false false, e).
Proof.
  intros Hm He. unfold shr_fexp. cbn [Zdigits2 shr_record_of_loc].
  rewrite (digits2_pos_unique m 24) by exact Hm.
  replace (fexp 24 128 (24 + e) - e) with 0 by (unfold fexp, emin; lia).
  reflexivity.
Qed.

Lemma shr_fexp_carry (e : Z) :
  -149 <= e ->
  shr_fexp 24 128 (2 ^ 24) e loc_Exact = (Build_shr_record (2 ^ 23) false false, e + 1).
Proof.
  intros He. unfold shr_fexp. cbn [Zdigits2 shr_record_of_loc].
  change (Zdigits2 (2 ^ 24)) with 25.
  replace (fexp 24 128 (25 + e) - e) with 1 by (unfold fexp, emin; lia).
  reflexivity.
Qed.

(* The last two steps of binary_round_aux on a rounded mantissa [m] between
   2^23 and 2^24, both included. *)
Lemma round_finish (m e : Z) :
  2 ^ 23 <= m <= 2 ^ 24 -> -149 <= e <= 100 ->
  exists mq k,
    (let '(mrs, e') := shr_fexp 24 128 m e loc_Exact in
     match shr_m mrs with
     | 0 => S754_zero false
     | Zpos p => if e' <=? 128 - 24 then S754_finite false p e' else S754_infinity false
     | Zneg _ => S754_nan
     end) = S754_finite false mq (e + k) /\
    0 <= k <= 1 /\ 2 ^ 23 <= Zpos mq < 2 ^ 24 /\ Zpos mq * 2 ^ k = m.
Proof.
  intros Hm He. destruct (Z.eq_dec m (2 ^ 24)) as [-> | Hne].
  - rewrite shr_fexp_carry by lia. cbn [shr_m].
    change (2 ^ 23) with (Zpos 8388608).
    replace (e + 1 <=? 128 - 24) with true by (symmetry; apply Z.leb_le; lia).
    exists 8388608%positive, 1. split; [reflexivity|]. cbv. repeat split; discriminate.
  - destruct m as [|p|p]; try lia.
    rewrite shr_fexp_24 by lia. cbn [shr_m].
    replace (e <=? 128 - 24) with true by (symmetry; apply Z.leb_le; lia).
    exists p, 0. rewrite Z.add_0_r. split; [reflexivity|].
    change (2 ^ 0) with 1. lia.
Qed.

Lemma shr_fexp_24_loc (m : positive) (e : Z) (l : location) :
  2 ^ 23 <= Zpos m < 2 ^ 24 -> -149 <= e ->
  shr_fexp 24 128 (Zpos m) e l = (shr_record_of_loc (Zpos m) l, e).
Proof.
  intros Hm He. unfold shr_fexp. cbn [Zdigits2].
  rewrite (digits2_pos_unique m 24) by exact Hm.
  replace (fexp 24 128 (24 + e) - e) with 0 by (unfold fexp, emin; lia).
  reflexivity.
Qed.

Lemma shr_fexp_25_loc (m : positive) (e : Z) (l : location) :
  2 ^ 24 <= Zpos m < 2 ^ 25 -> -149 <= e ->
  shr_fexp 24 128 (Zpos m) e l = (shr_1 (shr_record_of_loc (Zpos m) l), e + 1).
Proof.
  intros Hm He. unfold shr_fexp. cbn [Zdigits2].
  rewrite (digits2_pos_unique m 25) by exact Hm.
  replace (fexp 24 128 (25 + e) - e) with 1 by (unfold fexp, emin; lia).
  reflexivity.
Qed.

(* Where the remainder [r] of a division by the mantissa of the spacings
   places the quotient between its neighbours. *)
Lemma new_location_spacing (r : Z) :
  0 <= r < 13421773 ->
  new_location 13421773 r =
  if r =? 0 then loc_Exact
  else loc_Inexact (if 2 * r + 1 <=? 13421773 then Lt else Gt).
Proof.
  intros Hr. unfold new_location. change (Z.even 13421773) with false.
  unfold new_location_odd. cbv iota.
  destruct (r =? 0); [reflexivity|].
  destruct (Z.compare_spec (2 * r + 1) 13421773) as [H | H | H];
    destruct (Z.leb_spec (2 * r + 1) 13421773); try reflexivity; lia.
Qed.

(* The rounding of a quotient of 24 or 25 digits: a mantissa of 24 digits,
   the exponent raised by at most 2, the value within 2^-24 of itself of
   the exact quotient. *)
Lemma round_quotient (q r e : Z) :
  2 ^ 23 <= q < 2 ^ 25 -> 0 <= r < 13421773 -> -149 <= e <= 98 ->
  exists mq k,
    binary_round_aux 24 128 false q e (new_location 13421773 r) =
      S754_finite false mq (e + k) /\
    0 <= k <= 2 /\ 2 ^ 23 <= Zpos mq < 2 ^ 24 /\
    Zpos mq * 2 ^ k * (13421773 * (2 ^ 24 - 1)) <= (q * 13421773 + r) * 2 ^ 24 /\
    (q * 13421773 + r) * 2 ^ 24 <= Zpos mq * 2 ^ k * (13421773 * (2 ^ 24 + 1)).
Proof.
  intros Hq Hr He. rewrite new_location_spacing by exact Hr.
  unfold binary_round_aux.
  destruct q as [|pq|pq]; try lia.
  destruct (Z_lt_le_dec (Zpos pq) (2 ^ 24)) as [H24 | H25].
  - rewrite shr_fexp_24_loc by lia.
    rewrite shr_record_of_loc_m, loc_of_shr_record_of_loc.
    set (m1 := round_nearest_even _ _).
    assert (Hm1 : (m1 = Zpos pq /\ 2 * r + 1 <= 13421773) \/
                  (m1 = Zpos pq + 1 /\ 13421773 < 2 * r + 1)).
    { subst m1. destruct (Z.eqb_spec r 0); [left; cbn [round_nearest_even]; lia|].
      destruct (Z.leb_spec (2 * r + 1) 13421773); [left | right];
        cbn [round_nearest_even]; lia. }
    clearbody m1.
    destruct (round_finish m1 e) as (mq & k & E & Hk & Hmq & Hv); [lia | lia |].
    exists mq, k. split; [exact E|]. split; [lia|]. split; [exact Hmq|].
    rewrite Hv. lia.
  - rewrite shr_fexp_25_loc by lia.
    set (l := if r =? 0 then _ else _).
    assert (Hm1 : exists h m1,
              shr_m (shr_1 (shr_record_of_loc (Zpos pq) l)) = h /\
              round_nearest_even h
                (loc_of_shr_record (shr_1 (shr_record_of_loc (Zpos pq) l))) = m1 /\
              2 ^ 23 <= m1 <= 2 ^ 24 /\
              2 * m1 * (13421773 * (2 ^ 24 - 1)) <= (Zpos pq * 13421773 + r) * 2 ^ 24 /\
              (Zpos pq * 13421773 + r) * 2 ^ 24 <= 2 * m1 * (13421773 * (2 ^ 24 + 1))).
    { subst l.
      destruct pq as [p | p |]; [| |lia];
        destruct (Z.eqb_spec r 0);
        try destruct (Z.leb_spec (2 * r + 1) 13421773);
        cbn [shr_record_of_loc shr_1 shr_m loc_of_shr_record orb round_nearest_even];
        eexists _, _; (split; [reflexivity|]); (split; [reflexivity|]);
        try lia;
        destruct (Z.even (Zpos p)) eqn:Ev;
        [apply Z.even_spec in Ev; destruct Ev as [h Eh]
        |rewrite <- Z.negb_odd in Ev; apply negb_false_iff, Z.odd_spec in Ev;
         destruct Ev as [h Eh]]; lia. }
    destruct Hm1 as (h & m1 & Eh & Em & Hm1 & Hlo & Hhi).
    rewrite Eh, Em.
    destruct (round_finish m1 (e + 1)) as (mq & k & E & Hk & Hmq & Hv); [lia | lia |].
    exists mq, (k + 1). replace (e + (k + 1)) with (e + 1 + k) by lia.
    split; [exact E|]. split; [lia|]. split; [exact Hmq|].
    rewrite Z.pow_add_r by lia. change (2 ^ 1) with 2.
    replace (Zpos mq * (2 ^ k * 2)) with (2 * (Zpos mq * 2 ^ k)) by ring.
    rewrite Hv. lia.
Qed.

(* (uint16_t)roundf(x) of a positive float below 65535.5 with a fraction:
   the integer part, one more from the half on. *)
Lemma round_to_channel (mq : positive) (e : Z) :
  -100 <= e < 0 ->
  let p := 2 ^ (- e) in
  let n := Zpos mq / p + (if p <=? 2 * (Zpos mq mod p) then 1 else 0) in
  n <= 65535 ->
  F32.to_uint16 (F32.roundf (S754_finite false mq e)) = Some n.
Proof.
  intros He p n Hn.
  assert (Hp : 0 < p) by (apply Z.pow_pos_nonneg; lia).
  assert (Hq : 0 <= Zpos mq / p) by (apply Z.div_pos; lia).
  unfold F32.roundf. replace (0 <=? e) with false by (symmetry; apply Z.leb_gt; lia).
  cbv zeta. fold p.
  replace (if p <=? 2 * (Zpos mq mod p) then Zpos mq / p + 1 else Zpos mq / p) with n
    by (subst n; destruct (p <=? 2 * (Zpos mq mod p)); lia).
  assert (Hn0 : 0 <= n) by (subst n; destruct (p <=? 2 * (Zpos mq mod p)); lia).
  clearbody n. unfold F32.prec, F32.emax.
  destruct n as [|pn|pn]; [reflexivity | | lia].
  cbn [binary_normalize].
  destruct (binary_round_exact pn 0) as (m' & E & _ & Hv); [lia | lia |].
  rewrite E. pose proof (digits2_pos_bounds pn) as [Dlo Dhi].
  set (j := Zpos (digits2_pos pn)) in *.
  assert (Hj : 1 <= j <= 16).
  { split; [subst j; lia|].
    destruct (Z_lt_le_dec 16 j) as [H | H]; [|exact H].
    assert (2 ^ 16 <= 2 ^ (j - 1)) by (apply Z.pow_le_mono_r; lia). lia. }
  unfold F32.to_uint16, F32.trunc.
  replace (0 <=? 0 + j - 24) with false by (symmetry; apply Z.leb_gt; lia).
  replace (- (0 + j - 24)) with (24 - j) by lia.
  rewrite Hv, Z.div_mul by (apply Z.pow_nonzero; lia).
  replace (0 <=? Zpos pn) with true by (symmetry; apply Z.leb_le; lia).
  replace (Zpos pn <=? 65535) with true by (symmetry; apply Z.leb_le; lia).
  reflexivity.
Qed.

(* The channel of a frequency of the band: the division by the spacing and
   roundf leave the exact quotient within (c - 1/2) (1 - 2^-24) and
   (c + 1/2) (1 + 2^-24). *)
Lemma frequency_to_channel_bounds (b : fm_band_t) (s : fm_channel_spacing_t) (m : positive) :
  let r := fm_frequency_range b s in
  mantissa (bottom r) <= Zpos m <= mantissa (top r) ->
  exists c,
    fm_frequency_to_channel (S754_finite false m (-17)) r = Some c /\
    channel_low r c <= (Zpos m - mantissa (bottom r)) * quotient_scale r /\
    (Zpos m - mantissa (bottom r)) * quotient_scale r < channel_high r c.
Proof.
  cbv zeta. destruct (band_limits b s) as (mb & mt & Eb & Et & Hmb & _ & Hw).
  destruct (spacing_float b s) as [Es Hes].
  unfold fm_frequency_to_channel, channel_low, channel_high, quotient_scale.
  set (es := exponent (spacing (fm_frequency_range b s))) in *.
  rewrite Eb, Et, Es. cbn [mantissa exponent]. clear Eb Et Es. intros Hm.
  rewrite sub_same_exponent.
  assert (HK : 0 < 2 ^ (8 - es)) by (apply Z.pow_pos_nonneg; lia).
  destruct (Zpos m - Zpos mb) as [|pd|pd] eqn:Ed; [| |lia].
  - exists 0. split; [reflexivity|]. rewrite Z.mul_0_l. lia.
  - cbn [binary_normalize].
    destruct (binary_round_exact pd (-17)) as (mx & E & Hdx & Hvx); [lia | lia |].
    rewrite E. clear E.
    pose proof (digits2_pos_bounds pd) as [Dlo Dhi].
    pose proof (digits2_pos_bounds mx) as Hmx. rewrite Hdx in Hmx.
    set (j := Zpos (digits2_pos pd)) in *.
    assert (Hj : 1 <= j <= 23).
    { split; [subst j; lia|].
      destruct (Z_lt_le_dec 23 j) as [H | H]; [|exact H].
      assert (2 ^ 23 <= 2 ^ (j - 1)) by (apply Z.pow_le_mono_r; lia). lia. }
    rewrite div_normal by (try exact Hdx; try reflexivity; lia).
    set (q := Zpos mx * 2 ^ 24 / 13421773).
    set (rm := Zpos mx * 2 ^ 24 mod 13421773).
    assert (Hqr : Zpos mx * 2 ^ 24 = 13421773 * q + rm)
      by (apply Z.div_mod; discriminate).
    assert (Hrm : 0 <= rm < 13421773) by (apply Z.mod_pos_bound; reflexivity).
    clearbody q rm.
    destruct (round_quotient q rm (-17 + j - 24 - es - 24)) as (mq & k & E & Hk & Hmq & Hlo & Hhi);
      [lia | exact Hrm | lia |].
    rewrite E. clear E.
    set (e := -17 + j - 24 - es - 24 + k) in *.
    set (p := 2 ^ (- e)).
    set (n := Zpos mq / p + (if p <=? 2 * (Zpos mq mod p) then 1 else 0)).
    assert (Hp : 0 < p) by (apply Z.pow_pos_nonneg; lia).
    assert (Hw2 : 0 < 2 ^ k) by (apply Z.pow_pos_nonneg; lia).
    assert (Hn : (2 * n - 1) * p <= 2 * Zpos mq /\ 2 * Zpos mq < (2 * n + 1) * p).
    { pose proof (Z.div_mod (Zpos mq) p ltac:(lia)) as Hdm.
      pose proof (Z.mod_pos_bound (Zpos mq) p Hp) as Hmod.
      subst n. set (a := Zpos mq / p) in *. set (c := Zpos mq mod p) in *.
      destruct (Z.leb_spec p (2 * c)); lia. }
    assert (En : n = Zpos mq / p + (if p <=? 2 * (Zpos mq mod p) then 1 else 0))
      by reflexivity.
    clearbody n.
    assert (Hpow : 2 ^ (8 - es) * (2 ^ k * p) = 2 ^ 1 * (2 ^ (24 - j) * 2 ^ 48)).
    { subst p. rewrite <- !Z.pow_add_r by lia. f_equal. lia. }
    change (2 ^ 1) with 2 in Hpow.
    assert (Hd : Zpos pd * 2 ^ (8 - es) * (2 ^ k * p) = 2 * ((q * 13421773 + rm) * 2 ^ 24)).
    { rewrite <- Z.mul_assoc, Hpow.
      replace (q * 13421773 + rm) with (Zpos mx * 2 ^ 24) by lia.
      rewrite Hvx. change (2 ^ 48) with (2 ^ 24 * 2 ^ 24). ring. }
    destruct Hn as [Hn1 Hn2].
    assert (G1 : (2 * n - 1) * (13421773 * (2 ^ 24 - 1)) * (2 ^ k * p)
                 <= Zpos pd * 2 ^ (8 - es) * (2 ^ k * p)).
    { rewrite Hd.
      assert ((2 * n - 1) * p * (2 ^ k * (13421773 * (2 ^ 24 - 1)))
              <= 2 * Zpos mq * (2 ^ k * (13421773 * (2 ^ 24 - 1))))
        by (apply Z.mul_le_mono_nonneg_r; lia).
      lia. }
    assert (G2 : Zpos pd * 2 ^ (8 - es) * (2 ^ k * p)
                 < (2 * n + 1) * (13421773 * (2 ^ 24 + 1)) * (2 ^ k * p)).
    { rewrite Hd.
      assert (2 * Zpos mq * (2 ^ k * (13421773 * (2 ^ 24 + 1)))
              < (2 * n + 1) * p * (2 ^ k * (13421773 * (2 ^ 24 + 1))))
        by (apply Z.mul_lt_mono_pos_r; lia).
      lia. }
    apply Z.mul_le_mono_pos_r in G1; [|lia].
    apply Z.mul_lt_mono_pos_r in G2; [|lia].
    assert (Hn3 : n <= 65535).
    { assert (Zpos pd * 2 ^ (8 - es) <= 2 ^ 22 * 2 ^ 36).
      { apply Z.mul_le_mono_nonneg; [lia | lia | lia |].
        apply Z.pow_le_mono_r; lia. }
      lia. }
    exists n. split.
    + pose proof (round_to_channel mq e ltac:(lia)) as R. cbv zeta in R.
      fold p in R. rewrite <- En in R. exact (R Hn3).
    + split; [exact G1 | exact G2].
Qed.

Lemma channels_reach_all :
  forallb (fun b => forallb (fun s => channels_reach b s 641) all_spacings) all_bands = true.
Proof. vm_compute. reflexivity. Qed.

Lemma channel_reaches_641 (b : fm_band_t) (s : fm_channel_spacing_t) (c : Z) :
  0 <= c <= 640 -> channel_reaches b s c = true.
Proof.
  intros Hc. pose proof channels_reach_all as H.
  rewrite forallb_forall in H.
  assert (Hb : In b all_bands) by (destruct b; cbn; auto).
  specialize (H b Hb). rewrite forallb_forall in H.
  assert (Hs : In s all_spacings) by (destruct s; cbn; auto).
  specialize (H s Hs). unfold channels_reach in H. rewrite forallb_forall in H.
  specialize (H (Z.to_nat c)). rewrite Z2Nat.id in H by lia.
  apply H. apply in_seq. lia.
Qed.

(* The frequency of the channel of a frequency of the band is within
   [reach] of it. *)
Lemma channel_frequency_reach (b : fm_band_t) (s : fm_channel_spacing_t)
    (m : positive) (c : Z) :
  let r := fm_frequency_range b s in
  mantissa (bottom r) <= Zpos m <= mantissa (top r) ->
  channel_low r c <= (Zpos m - mantissa (bottom r)) * quotient_scale r ->
  (Zpos m - mantissa (bottom r)) * quotient_scale r < channel_high r c ->
  0 <= c <= 640 /\
  exists mc, fm_channel_to_frequency c r = S754_finite false mc (-17) /\
             Z.abs (Zpos mc - Zpos m) <= reach s.
Proof.
  cbv zeta. intros Hm Hlo Hhi.
  destruct (band_limits b s) as (mb & mt & Eb & Et & Hmb & _ & Hw).
  destruct (spacing_float b s) as [Es Hes].
  assert (HK : 0 < quotient_scale (fm_frequency_range b s))
    by (unfold quotient_scale; apply Z.pow_pos_nonneg; lia).
  assert (HK' : quotient_scale (fm_frequency_range b s) <= 2 ^ 36)
    by (unfold quotient_scale; apply Z.pow_le_mono_r; lia).
  assert (Hc : 0 <= c <= 640).
  { unfold channel_low, channel_high in Hlo, Hhi. rewrite Es in Hlo, Hhi.
    rewrite Eb, Et in Hm. cbn [mantissa] in Hlo, Hhi, Hm. rewrite Eb in Hlo, Hhi.
    cbn [mantissa] in Hlo, Hhi.
    assert ((Zpos m - Zpos mb) * quotient_scale (fm_frequency_range b s) <= 2 ^ 22 * 2 ^ 36)
      by (apply Z.mul_le_mono_nonneg; lia).
    assert (0 <= (Zpos m - Zpos mb) * quotient_scale (fm_frequency_range b s))
      by (apply Z.mul_nonneg_nonneg; lia).
    lia. }
  split; [exact Hc|].
  pose proof (channel_reaches_641 b s c Hc) as R. unfold channel_reaches in R.
  set (k := quotient_scale (fm_frequency_range b s)) in *.
  set (lo := channel_low (fm_frequency_range b s) c) in *.
  set (hi := channel_high (fm_frequency_range b s) c) in *.
  set (mbz := mantissa (bottom (fm_frequency_range b s))) in *.
  set (mtz := mantissa (top (fm_frequency_range b s))) in *.
  assert (Hd : (Zpos m - mbz) * k <= (mtz - mbz) * k)
    by (apply Z.mul_le_mono_nonneg_r; lia).
  apply orb_prop in R. destruct R as [R | R]; [apply Z.ltb_lt in R; lia|].
  destruct (fm_channel_to_frequency c (fm_frequency_range b s)) as [| | |sc mc ec];
    cbn [mhz_units] in R; try discriminate R.
  destruct sc; [discriminate R|].
  destruct (Z.eqb_spec ec (-17)) as [Hec | _]; [subst ec | discriminate R].
  exists mc. split; [reflexivity|].
  apply andb_prop in R. destruct R as [R1 R2].
  apply orb_prop in R1. apply orb_prop in R2.
  assert (L : Zpos mc - mbz - reach s <= Zpos m - mbz).
  { destruct R1 as [R1 | R1]; [apply Z.leb_le in R1; lia|].
    apply Z.ltb_lt in R1.
    destruct (Z_lt_le_dec (Zpos m - mbz) (Zpos mc - mbz - reach s)) as [H | H]; [|exact H].
    assert ((Zpos m - mbz) * k <= (Zpos mc - mbz - reach s - 1) * k)
      by (apply Z.mul_le_mono_nonneg_r; lia).
    lia. }
  assert (U : Zpos m - mbz <= Zpos mc - mbz + reach s).
  { destruct R2 as [R2 | R2]; [apply Z.leb_le in R2; lia|].
    apply Z.leb_le in R2.
    destruct (Z_lt_le_dec (Zpos mc - mbz + reach s) (Zpos m - mbz)) as [H | H]; [|exact H].
    assert ((Zpos mc - mbz + reach s + 1) * k <= (Zpos m - mbz) * k)
      by (apply Z.mul_le_mono_nonneg_r; lia).
    lia. }
  lia.
Qed.

Lemma channel_frequencies_exact_all :
  forallb (fun b => forallb (fun s =>
    channel_frequencies_exact (fm_frequency_range b s) (1 # 32768) 1024)
    all_spacings) all_bands = true.
Proof. vm_compute. reflexivity. Qed.

Lemma channel_frequency_error_1024 (b : fm_band_t) (s : fm_channel_spacing_t) (c : Z) :
  0 <= c <= 1023 ->
  (channel_frequency_error (fm_frequency_range b s) c <= 1 # 32768)%Q.
Proof.
  intros Hc. pose proof channel_frequencies_exact_all as H.
  rewrite forallb_forall in H.
  assert (Hb : In b all_bands) by (destruct b; cbn; auto).
  specialize (H b Hb). rewrite forallb_forall in H.
  assert (Hs : In s all_spacings) by (destruct s; cbn; auto).
  specialize (H s Hs). unfold channel_frequencies_exact in H. rewrite forallb_forall in H.
  specialize (H (Z.to_nat c)). rewrite Z2Nat.id in H by lia.
  apply Qle_bool_iff. apply H. apply in_seq. lia.
Qed.

(* The values of the floats of a band, as fractions. *)
Lemma float_value_mhz (m : positive) :
  (float_value (S754_finite false m (-17)) == Zpos m # 131072)%Q.
Proof. unfold float_value, Qeq. cbn [Qnum Qden Qmult Qpower Qpower_positive inject_Z Qinv]. 
  cbn. lia. Qed.

(* The exponent and the value of the three spacings. *)
Lemma exponent_spacing (b : fm_band_t) (s : fm_channel_spacing_t) :
  exponent (spacing (fm_frequency_range b s)) = spacing_exponent s.
Proof. destruct b, s; reflexivity. Qed.

Lemma float_value_spacing (b : fm_band_t) (s : fm_channel_spacing_t) :
  (float_value (spacing (fm_frequency_range b s)) ==
   13421773 # match s with
              | FM_CHANNEL_SPACING_200 => 67108864
              | FM_CHANNEL_SPACING_100 => 134217728
              | FM_CHANNEL_SPACING_50 => 268435456
              end)%Q.
Proof. destruct b, s; reflexivity. Qed.

(** C9.  fm_channel_to_frequency is channel * spacing + bottom as binary32
    computes it: within 2^-15 MHz of the exact sum for every channel of the
    ten-bit field; and fm_frequency_to_channel is its inverse on those
    channels.  For every band and spacing, every frequency [f] of the band,
    on the channel grid or off it, has a channel [c] of at most 640: the
    integer nearest to (f - bottom) / spacing up to the rounding of the
    division, no further than 1/2 + 2^-14 from the exact quotient; the
    frequency of [c] is within half the spacing plus 2^-18 MHz of [f], and
    with 200 kHz spacing within half the spacing. *)
Theorem channel_frequency_round_trip (b : fm_band_t) (s : fm_channel_spacing_t) :
  let r := fm_frequency_range b s in
  (forall c, 0 <= c <= 1023 ->
     fm_frequency_to_channel (fm_channel_to_frequency c r) r = Some c /\
     (Qabs (float_value (fm_channel_to_frequency c r)
            - (inject_Z c * float_value (spacing r) + float_value (bottom r)))
      <= 1 # 32768)%Q) /\
  (forall f, in_range f r = true ->
     exists c,
       fm_frequency_to_channel f r = Some c /\
       0 <= c <= 640 /\
       (Qabs (inject_Z c
              - (float_value f - float_value (bottom r)) / float_value (spacing r))
        <= (1 # 2) + (1 # 16384))%Q /\
       fm_frequency_to_channel (fm_channel_to_frequency c r) r = Some c /\
       (Qabs (float_value (fm_channel_to_frequency c r) - float_value f)
        <= float_value (spacing r) / 2 + (1 # 262144))%Q /\
       (s = FM_CHANNEL_SPACING_200 ->
        (Qabs (float_value (fm_channel_to_frequency c r) - float_value f)
         <= float_value (spacing r) / 2)%Q)).
Proof.
  cbv zeta.
  assert (Inv : forall c, 0 <= c <= 1023 ->
            fm_frequency_to_channel (fm_channel_to_frequency c (fm_frequency_range b s))
              (fm_frequency_range b s) = Some c).
  { intros c Hc. pose proof (channel_round_trip_1024 b s c Hc) as H.
    unfold channel_round_trip in H.
    destruct (fm_frequency_to_channel _ _) as [c'|]; [|discriminate H].
    apply Z.eqb_eq in H. congruence. }
  split.
  - intros c Hc. split; [exact (Inv c Hc)|].
    exact (channel_frequency_error_1024 b s c Hc).
  - intros f Hf.
    destruct (in_range_mantissa b s f Hf) as (m & -> & Hm).
    destruct (frequency_to_channel_bounds b s m Hm) as (c & Ec & Hlo & Hhi).
    destruct (channel_frequency_reach b s m c Hm Hlo Hhi) as (Hc & mc & Emc & Hr).
    exists c. split; [exact Ec|]. split; [exact Hc|].
    destruct (band_limits b s) as (mb & mt & Eb & Et & Hmb & _ & Hw).
    pose proof (float_value_spacing b s) as Vs.
    destruct (spacing_float b s) as [Es _].
    unfold channel_low, channel_high, quotient_scale in Hlo, Hhi.
    rewrite Es in Hlo, Hhi. rewrite Eb in Hlo, Hhi, Hm |- *. rewrite Et in Hm.
    cbn [mantissa exponent] in Hlo, Hhi, Hm.
    rewrite exponent_spacing in Hlo, Hhi.
    split; [|split; [apply Inv; lia|]].
    + rewrite Vs, !float_value_mhz. apply Qabs_Qle_condition.
      destruct s; cbn [spacing_exponent] in Hlo, Hhi;
        unfold Qle, Qminus, Qplus, Qopp, Qdiv, Qmult, Qinv, inject_Z;
        cbn [Qnum Qden]; split; lia.
    + rewrite Emc, Vs, !float_value_mhz.
      destruct s; cbn [reach] in Hr;
        (split; [|intros Hs; try discriminate Hs]);
        apply Qabs_Qle_condition;
        unfold Qle, Qminus, Qplus, Qopp, Qdiv, Qmult, Qinv, inject_Z;
        cbn [Qnum Qden]; split; lia.
Qed.

(* With 100 kHz spacing half the spacing is exceeded as well: 87.75 MHz is
   a frequency of the common band; the exact quotient (f - bottom) / spacing
   is below 2.5, the division rounds it to 2.5 and roundf to 3; the
   frequency of channel 3 is 87.80000305... MHz, which is 6554 units of
   2^-17 MHz away: more than half the spacing, and within 2^-18 MHz of it. *)
Lemma half_spacing_exceeded_100 :
  let r := fm_frequency_range FM_BAND_COMMON FM_CHANNEL_SPACING_100 in
  let f := S754_finite false 11501568 (-17) in
  in_range f r = true /\
  ((float_value f - float_value (bottom r)) / float_value (spacing r) < 5 # 2)%Q /\
  F32.div (F32.sub f (bottom r)) (spacing r) = S754_finite false 10485760 (-22) /\
  fm_frequency_to_channel f r = Some 3 /\
  fm_channel_to_frequency 3 r = S754_finite false 11508122 (-17) /\
  (float_value (spacing r) / 2
   < Qabs (float_value (fm_channel_to_frequency 3 r) - float_value f))%Q /\
  (Qabs (float_value (fm_channel_to_frequency 3 r) - float_value f)
   <= float_value (spacing r) / 2 + (1 # 262144))%Q.
Proof.
  vm_compute. repeat split; discriminate.
Qed.

(** ** The further properties at concrete machines *)

Lemma bit_field_round_trip_witness :
  0 < 4 /\ 8 + 4 <= 16 /\ 0 <= 5 < 2 ^ 4 /\
  fm_get_bits (fm_set_bits 0xFFFF (field 4 8) 8 5) (field 4 8) 8 = 5 /\
  fm_set_bits 0xFFFF (field 4 8) 8 5 = 0xF5FF.
Proof.
  split; [lia|]. split; [lia|]. split; [lia|]. split; [|reflexivity].
  exact (proj1 (bit_field_round_trip 0xFFFF 4 8 5
                  ltac:(lia) ltac:(lia) ltac:(lia) ltac:(lia))).
Defined.

Lemma read_burst_decodes_witness :
  handle_ok radio_on /\
  exists l',
    fm_read_registers 2 (radio_on, world_start bus_seek_failed) =
      (Ret true, (with_regs radio_on l',
                  emit (EvRead 4 4) (next_txn (world_start bus_seek_failed)))) /\
    reg_get l' STATUSRSSI = 0x6000 /\
    reg_get l' READCHAN = 5 /\
    reg_get l' POWERCFG = reg_get (regs radio_on) POWERCFG.
Proof.
  split; [reflexivity|].
  destruct (read_burst_decodes 2 radio_on (world_start bus_seek_failed) eq_refl
              ltac:(lia)) as [Full _].
  destruct (Full eq_refl) as (l' & E & _ & _ & G).
  exists l'. split; [exact E|].
  split; [exact (G STATUSRSSI ltac:(cbv; split; discriminate))|].
  split; [exact (G READCHAN ltac:(cbv; split; discriminate))|].
  exact (G POWERCFG ltac:(cbv; split; discriminate)).
Defined.

Lemma regs16_radio_playing : regs16 (regs radio_playing).
Proof. unfold regs16. repeat (constructor; [lia|]). constructor. Defined.

Lemma write_read_round_trip_witness :
  regs16 (regs radio_playing) /\
  rx_reg (fm_write_registers_loop 5 (regs radio_playing) 0x2) 3 =
    reg_get (regs radio_playing) SYSCONFIG2 /\
  reg_get (fm_read_registers_loop 5 (fm_write_registers_loop 5 (regs radio_playing) 0x2)
             0 0xA (repeat 0 16)) RDSB =
    reg_get (regs radio_playing) SYSCONFIG2.
Proof.
  split; [exact regs16_radio_playing|].
  exact (write_read_round_trip (regs radio_playing) (repeat 0 16) 5 3
           regs16_radio_playing eq_refl ltac:(lia) ltac:(lia)).
Defined.

Lemma settings_in_shadow_radio_playing : settings_in_shadow radio_playing.
Proof.
  unfold settings_in_shadow. cbn zeta.
  split; [vm_compute; split; discriminate|].
  split; [intros _; reflexivity|].
  repeat split.
Defined.

Lemma setters_keep_settings_in_shadow_witness :
  handle_ok radio_playing /\
  settings_in_shadow radio_playing /\
  fm_is_powered_up radio_playing = true /\
  task (async radio_playing) = NULL /\
  exists r' w',
    fm_set_volume 3 false (radio_playing, world_start bus_two_zero) = (Ret tt, (r', w')) /\
    fm_get_volume r' = 3 /\
    settings_in_shadow r'.
Proof.
  split; [reflexivity|]. split; [exact settings_in_shadow_radio_playing|].
  split; [reflexivity|]. split; [reflexivity|].
  destruct (setters_keep_settings_in_shadow radio_playing (world_start bus_two_zero)
              eq_refl settings_in_shadow_radio_playing eq_refl eq_refl)
    as (_ & _ & _ & _ & _ & _ & V).
  destruct (V 3 false ltac:(lia)) as (r' & w' & E & [G _] & _ & S & _).
  exists r', w'. split; [exact E|]. split; [exact G | exact S].
Defined.

Lemma tune_task_outcomes_witness :
  handle_ok radio_tuning /\
  task (async radio_tuning) = fm_set_frequency_async_task_ptr /\
  state (async radio_tuning) = 1 /\
  chip_settles (world_start bus_tune_done) 2 1 /\
  (exists r',
     fm_set_frequency_async_task 1 false (radio_tuning, world_start bus_two_zero) =
       (Ret (mk_progress false 0),
        (r', emit (EvRead 2 2) (next_txn (world_start bus_two_zero)))) /\
     frequency r' = frequency radio_tuning) /\
  (exists m',
     fm_set_frequency_async_task 1 false (radio_tuning, world_start bus_tune_done) =
       (Ret (mk_progress true 0), m')).
Proof.
  assert (S : chip_settles (world_start bus_tune_done) 2 1)
    by (exists 0%nat; split; [lia | reflexivity]).
  split; [reflexivity|]. split; [reflexivity|]. split; [reflexivity|].
  split; [exact S|]. split.
  - destruct (tune_task_outcomes 1 radio_tuning (world_start bus_two_zero) 1
                eq_refl eq_refl eq_refl) as [Pending _].
    destruct (Pending eq_refl) as (r' & E & F & _).
    exists r'. split; [exact E | exact F].
  - destruct (tune_task_outcomes 1 radio_tuning (world_start bus_tune_done) 1
                eq_refl eq_refl eq_refl) as [_ Done].
    destruct (Done eq_refl) as [_ Returns].
    exact (Returns S (le_n 1)).
Defined.

Lemma tick_polls_task_witness :
  handle_ok radio_seeking /\
  task (async radio_seeking) <> NULL /\
  state (async radio_seeking) = 1 /\
  resume_time (async radio_seeking) <= u64 200000 /\
  chip_settles (mk_world 200000 bus_seek_failed 0 []) 2 1 /\
  exists p m',
    fm_async_task_tick 1 (radio_seeking, mk_world 200000 bus_seek_failed 0 []) =
      (Ret p, m').
Proof.
  assert (S : chip_settles (mk_world 200000 bus_seek_failed 0 []) 2 1)
    by (exists 0%nat; split; [lia | reflexivity]).
  assert (D : resume_time (async radio_seeking) <= u64 200000)
    by (vm_compute; discriminate).
  split; [reflexivity|]. split; [discriminate|]. split; [reflexivity|].
  split; [exact D|]. split; [exact S|].
  destruct (tick_polls_task 1 radio_seeking (mk_world 200000 bus_seek_failed 0 []) 1
              eq_refl ltac:(discriminate) eq_refl D) as (_ & _ & Returns).
  exact (Returns S (le_n 1)).
Defined.

Lemma async_start_writes_start_bit_witness :
  handle_ok radio_playing /\
  fm_is_powered_up radio_playing = true /\
  task (async radio_playing) = NULL /\
  exists r' data,
    fm_seek_async FM_SEEK_UP (radio_playing, world_start bus_two_zero) =
      (Ret tt, (r', emit (EvWrite data 2) (next_txn (world_start bus_two_zero)))) /\
    fm_get_bit (reg_get (regs r') POWERCFG) SEEK_BIT = true /\
    fm_get_bit (reg_get (regs r') POWERCFG) SEEKUP_BIT = true.
Proof.
  split; [reflexivity|]. split; [reflexivity|]. split; [reflexivity|].
  destruct (async_start_writes_start_bit radio_playing (world_start bus_two_zero)
              eq_refl eq_refl eq_refl) as [Seek _].
  destruct (Seek FM_SEEK_UP) as (r' & data & E & _ & B1 & _ & B2 & _).
  exists r', data. split; [exact E|]. split; [exact B1 | exact B2].
Defined.

Lemma completes_after_seek_found :
  completes_after (world_start bus_seek_found) fm_seek_async_task_ptr 1 1 1.
Proof.
  split; [|split].
  - intros j Hj. assert (E : j = 0%nat) by lia. subst j. split; reflexivity.
  - split; reflexivity.
  - exists 0%nat. split; [lia | reflexivity].
Defined.

Lemma blocking_calls_complete_witness :
  handle_ok radio_playing /\
  fm_is_powered_up radio_playing = true /\
  task (async radio_playing) = NULL /\
  completes_after (world_start bus_seek_found) fm_seek_async_task_ptr 1 1 1 /\
  exists r' w',
    fm_seek_blocking 2 FM_SEEK_UP (radio_playing, world_start bus_seek_found) =
      (Ret true, (r', w')) /\
    time_us w' = 400000.
Proof.
  split; [reflexivity|]. split; [reflexivity|]. split; [reflexivity|].
  split; [exact completes_after_seek_found|].
  destruct (blocking_calls_complete 2 radio_playing (world_start bus_seek_found) 1 1
              eq_refl eq_refl eq_refl) as [Seek _].
  destruct (Seek FM_SEEK_UP) as [_ Returns].
  exact (Returns completes_after_seek_found ltac:(lia) ltac:(lia)).
Defined.

Lemma power_cycle_restores_handle_witness :
  handle_ok radio_playing /\
  regs16 (regs radio_playing) /\
  fm_is_powered_up radio_playing = true /\
  task (async radio_playing) = NULL /\
  fm_get_bit (reg_get (regs radio_playing) POWERCFG) DISABLE_BIT = false /\
  fm_get_bit (reg_get (regs radio_playing) POWERCFG) DMUTE_BIT = negb (mute radio_playing) /\
  fm_get_bit (reg_get (regs radio_playing) SYSCONFIG1) RDS_BIT = true /\
  exists r1 w1 w2,
    fm_power_down 0 (radio_playing, world_start bus_two_zero) = (Ret tt, (r1, w1)) /\
    fm_is_powered_up r1 = false /\
    fm_power_up 0 (config radio_playing) (r1, w1) = (Ret tt, (radio_playing, w2)).
Proof.
  split; [reflexivity|]. split; [exact regs16_radio_playing|].
  split; [reflexivity|]. split; [reflexivity|]. split; [reflexivity|].
  split; [reflexivity|]. split; [reflexivity|].
  destruct (power_cycle_restores_handle 0 radio_playing (world_start bus_two_zero)
              eq_refl regs16_radio_playing eq_refl eq_refl eq_refl eq_refl
              (fun _ => eq_refl))
    as (r1 & w1 & w2 & Ed & Hp & _ & _ & Eu & _).
  exists r1, w1, w2. split; [exact Ed|]. split; [exact Hp | exact Eu].
Defined.

Lemma cold_power_up_checks_device_witness :
  handle_ok (fm_init 0 15 4 5 true) /\
  fm_is_powered_up (fm_init 0 15 4 5 true) = false /\
  exists w',
    fm_power_up 0 fm_config_europe (fm_init 0 15 4 5 true, world_start bus_two_zero) =
      (Panicked, (with_config (fm_init 0 15 4 5 true) fm_config_europe, w')) /\
    trace w' = cold_start_events (fm_init 0 15 4 5 true) ++ [EvRead 32 2].
Proof.
  split; [reflexivity|]. split; [reflexivity|].
  destruct (cold_power_up_checks_device 0 fm_config_europe (fm_init 0 15 4 5 true)
              (world_start bus_two_zero) eq_refl eq_refl eq_refl) as [Fails _].
  exact (Fails ltac:(discriminate)).
Defined.

Lemma cold_power_up_establishes_settings_witness :
  handle_ok (fm_init 0 15 4 5 true) /\
  fm_is_powered_up (fm_init 0 15 4 5 true) = false /\
  fst (bus_si4703 0) = 32 /\ fst (bus_si4703 3) = 32 /\
  mfgid_of (dump (snd (bus_si4703 0))) = 0x242 /\
  pn_of (dump (snd (bus_si4703 0))) = 0x1 /\
  dev_of (dump (snd (bus_si4703 3))) = DEV_SI4703 /\
  exists r' w',
    fm_power_up 0 fm_config_europe (fm_init 0 15 4 5 true, world_start bus_si4703) =
      (Ret tt, (r', w')) /\
    settings_in_shadow r' /\
    fm_is_powered_up r' = true /\
    time_us w' = 620000.
Proof.
  split; [reflexivity|]. split; [reflexivity|]. split; [reflexivity|].
  split; [reflexivity|]. split; [reflexivity|]. split; [reflexivity|].
  split; [reflexivity|].
  destruct (cold_power_up_establishes_settings 0 fm_config_europe (fm_init 0 15 4 5 true)
              (world_start bus_si4703) eq_refl eq_refl eq_refl ltac:(cbn; lia) eq_refl
              eq_refl eq_refl eq_refl eq_refl (or_intror eq_refl))
    as (r' & w' & d1 & d3 & E & _ & _ & _ & S & P & _ & _ & _ & T & _).
  exists r', w'. split; [exact E|]. split; [exact S|]. split; [exact P | exact T].
Defined.

Lemma status_reads_decode_witness :
  handle_ok radio_playing /\
  fm_is_powered_up radio_playing = true /\
  (exists m',
     fm_get_rssi (radio_playing, world_start bus_rds_group) = (Ret 0, m')) /\
  (exists m',
     fm_get_stereo_indicator (radio_playing, world_start bus_tune_done) = (Ret false, m')).
Proof.
  split; [reflexivity|]. split; [reflexivity|]. split.
  - destruct (status_reads_decode radio_playing (world_start bus_rds_group)
                eq_refl eq_refl) as (E & _).
    eexists. exact E.
  - destruct (status_reads_decode radio_playing (world_start bus_tune_done)
                eq_refl eq_refl) as (_ & E & _).
    eexists. exact E.
Defined.

Lemma rds_group_read_witness :
  handle_ok radio_playing /\
  fm_is_powered_up radio_playing = true /\
  fm_is_rds_supported radio_playing = true /\
  exists r',
    fm_read_rds_group (radio_playing, world_start bus_rds_group) =
      (Ret (Some [0x1234; 0x5678; 0x9ABC; 0xDEF0]),
       (r', emit (EvRead 12 12) (next_txn (world_start bus_rds_group)))).
Proof.
  split; [reflexivity|]. split; [reflexivity|]. split; [reflexivity|].
  destruct (rds_group_read radio_playing (world_start bus_rds_group)
              eq_refl eq_refl eq_refl) as [Full _].
  destruct (Full eq_refl) as (r' & E & _).
  exists r'. exact E.
Defined.

Lemma regs16_radio_on : regs16 (regs radio_on).
Proof. unfold regs16. repeat (constructor; [lia|]). constructor. Defined.

Lemma chip_id_partitions_register_witness :
  regs16 (regs radio_on) /\
  fm_get_chip_id radio_on = mk_chip_id 19 9 4 /\
  reg_get (regs radio_on) CHIPID = 4 * 2 ^ 10 + 9 * 2 ^ 6 + 19 /\
  fm_is_rds_supported radio_on = true.
Proof.
  split; [exact regs16_radio_on|]. split; [reflexivity|].
  destruct (chip_id_partitions_register radio_on regs16_radio_on) as (_ & _ & _ & E & R).
  split; [exact E | exact R].
Defined.

Lemma cancel_clears_slot_witness :
  handle_ok radio_seeking /\
  fm_is_powered_up radio_seeking = true /\
  task (async radio_seeking) <> NULL /\
  state (async radio_seeking) = 1 /\
  chip_settles (world_start bus_two_zero) 1 1 /\
  exists m1 m',
    call_task 1 fm_seek_async_task_ptr true (radio_seeking, world_start bus_two_zero)
      = (Ret (mk_progress true (-1)), m1) /\
    fm_async_task_cancel 1 (radio_seeking, world_start bus_two_zero) = (Ret tt, m') /\
    m' = (with_async (fst m1) async_empty, snd m1) /\
    async (fst m1) = async radio_seeking /\
    async (fst m') = async_empty /\
    fm_get_bit (reg_get (regs radio_seeking) POWERCFG) SEEK_BIT = true /\
    fm_get_bit (reg_get (regs (fst m')) POWERCFG) SEEK_BIT = false /\
    trace (snd m') = [EvWrite [0x42; 0x01] 2; EvRead 2 2; EvRead 4 2] /\
    exists m'', fm_seek_async FM_SEEK_DOWN m' = (Ret tt, m'').
Proof.
  split; [reflexivity|]. split; [reflexivity|]. split; [discriminate|].
  split; [reflexivity|]. split; [apply chip_settles_two_zero|].
  destruct (cancel_clears_slot 1 radio_seeking (world_start bus_two_zero) 1
              eq_refl eq_refl ltac:(discriminate) eq_refl)
    as (_ & Task & After & Returns).
  destruct (Returns (chip_settles_two_zero 1) (le_n 1)) as (m' & E).
  destruct (After m' E) as (A & _ & (p & m1 & Ec & Em) & S & _).
  destruct (Task p m1 Ec) as (Hp & Ha & Hb & _ & _ & (k & Hk & Tr) & _).
  exists m1, m'.
  split; [rewrite <- Hp; exact Ec|]. split; [exact E|]. split; [exact Em|].
  split; [exact Ha|]. split; [exact A|]. split; [reflexivity|].
  split; [rewrite Em; exact Hb|].
  split.
  - rewrite Em. cbn [snd]. rewrite Tr.
    assert (K : k = 1%nat) by lia. rewrite K. reflexivity.
  - destruct (S FM_SEEK_DOWN) as (m'' & E' & _). exists m''. exact E'.
Defined.

Lemma channel_frequency_round_trip_witness :
  in_range (S754_finite false 11474043 (-17))
    (fm_frequency_range FM_BAND_COMMON FM_CHANNEL_SPACING_50) = true /\
  0 <= 1 <= 1023 /\
  fm_frequency_to_channel (S754_finite false 11474043 (-17))
    (fm_frequency_range FM_BAND_COMMON FM_CHANNEL_SPACING_50) = Some 1 /\
  fm_frequency_to_channel
    (fm_channel_to_frequency 1 (fm_frequency_range FM_BAND_COMMON FM_CHANNEL_SPACING_50))
    (fm_frequency_range FM_BAND_COMMON FM_CHANNEL_SPACING_50) = Some 1 /\
  (Qabs (float_value
           (fm_channel_to_frequency 1
              (fm_frequency_range FM_BAND_COMMON FM_CHANNEL_SPACING_50))
         - float_value (S754_finite false 11474043 (-17)))
   <= float_value (spacing (fm_frequency_range FM_BAND_COMMON FM_CHANNEL_SPACING_50)) / 2
      + (1 # 262144))%Q.
Proof.
  assert (Hf : in_range (S754_finite false 11474043 (-17))
                 (fm_frequency_range FM_BAND_COMMON FM_CHANNEL_SPACING_50) = true)
    by reflexivity.
  assert (H1 : 0 <= 1 <= 1023) by lia.
  destruct (channel_frequency_round_trip FM_BAND_COMMON FM_CHANNEL_SPACING_50)
    as [Channels Frequencies].
  destruct (Frequencies _ Hf) as (c & Ec & _ & _ & _ & Hd & _).
  assert (E1 : fm_frequency_to_channel (S754_finite false 11474043 (-17))
                 (fm_frequency_range FM_BAND_COMMON FM_CHANNEL_SPACING_50) = Some 1)
    by reflexivity.
  rewrite E1 in Ec. injection Ec as <-.
  split; [exact Hf|]. split; [exact H1|]. split; [exact E1|].
  split; [exact (proj1 (Channels 1 H1)) | exact Hd].
Defined.
